(** * streaming_platform: playback authorisation, view sessions and stream webhooks

    A shallow embedding of the Django models [apps.users.models.User],
    [apps.streams.models.Stream], [apps.streams.models.ViewSession] and of the
    REST views of [apps.api.views] that drive them, followed by the properties
    of the specification that concern them.

    Conventions of the embedding:
    - a database table is a finite map from primary keys to rows; a model
      instance held by a view is a pair of its primary key and a copy of its
      row, and [save] writes that copy back;
    - a [DateTimeField] is an integer number of microseconds since the epoch;
      [timezone.now()] reads a clock that is part of the world, and every read
      consumes one reading, so that two reads in one request may differ;
    - a Python exception is an explicit outcome; what was written to the
      database before it was raised stays written;
    - integer columns are unbounded integers, and the length limits of
      character columns, which only some database backends enforce, are left
      out. *)

From Stdlib Require Import ZArith Lia.
From stdpp Require Import gmap strings list fin_maps pretty.

Local Open Scope string_scope.
Local Open Scope Z_scope.

(** ** Exceptions *)

Inductive Model := StreamModel | UserModel | ViewSessionModel.

Inductive Exn :=
| ValueError
| Http404
| DoesNotExist (m : Model)
| MultipleObjectsReturned (m : Model)
| IntegrityError.

Inductive outcome (A : Type) :=
| Ok (a : A)
| Raise (e : Exn).
Arguments Ok {A} a.
Arguments Raise {A} e.

#[global] Instance outcome_ret : MRet outcome := fun A a => Ok a.
#[global] Instance outcome_bind : MBind outcome := fun A B f m =>
  match m with
  | Ok a => f a
  | Raise e => Raise e
  end.

(** [list.index]: the position of the first occurrence, [ValueError] when
    there is none. *)
Fixpoint index (l : list string) (x : string) : outcome nat :=
  match l with
  | [] => Raise ValueError
  | y :: l' => if decide (y = x) then Ok 0%nat else n ← index l' x; Ok (S n)
  end.

(** ** apps.users.models.User *)

Module User.

Module SubscriptionTier.
Definition FREE := "FREE".
Definition BASIC := "BASIC".
Definition PREMIUM := "PREMIUM".
Definition ULTRA := "ULTRA".
End SubscriptionTier.

(** The columns of the model; [username] and [is_staff] come from
    [AbstractUser]. [subscription_tier] is the stored string: [max_quality]
    looks it up in a dict with a default, so a value outside the four
    choices has a meaning in the code. *)
Record t := mk {
  email : string;
  username : string;
  is_staff : bool;
  phone_number : string;
  subscription_tier : string;
  subscription_expires : option Z;
  isp_customer_id : string;
  isp_account_number : string;
  zero_rated : bool;
  monthly_data_used : Z;
  total_watch_time : Z;
  preferred_quality : string;
  auto_play : bool;
  created_at : Z;
  updated_at : Z;
  last_login_ip : option string
}.

Definition set_monthly_data_used (v : Z) (u : t) : t :=
  mk (email u) (username u) (is_staff u) (phone_number u)
    (subscription_tier u) (subscription_expires u) (isp_customer_id u)
    (isp_account_number u) (zero_rated u) v (total_watch_time u)
    (preferred_quality u) (auto_play u) (created_at u) (updated_at u)
    (last_login_ip u).

Definition set_total_watch_time (v : Z) (u : t) : t :=
  mk (email u) (username u) (is_staff u) (phone_number u)
    (subscription_tier u) (subscription_expires u) (isp_customer_id u)
    (isp_account_number u) (zero_rated u) (monthly_data_used u) v
    (preferred_quality u) (auto_play u) (created_at u) (updated_at u)
    (last_login_ip u).

(** [quality_map] of [max_quality]. *)
Definition quality_map : gmap string string :=
  <[SubscriptionTier.FREE := "360p"]>
  (<[SubscriptionTier.BASIC := "480p"]>
  (<[SubscriptionTier.PREMIUM := "720p"]>
  (<[SubscriptionTier.ULTRA := "1080p"]> ∅))).

(** [quality_map.get(self.subscription_tier, '360p')]. *)
Definition max_quality (self : t) : string :=
  default "360p" (quality_map !! subscription_tier self).

Definition quality_hierarchy : list string :=
  ["360p"; "480p"; "720p"; "1080p"].

(** The first [index] is outside the [try] and would propagate; the second
    is caught by [except ValueError]. *)
Definition can_watch_quality (self : t) (quality : string) : outcome bool :=
  max_idx ← index quality_hierarchy (max_quality self);
  match index quality_hierarchy quality with
  | Ok req_idx => Ok (bool_decide (req_idx ≤ max_idx)%nat)
  | Raise ValueError => Ok false
  | Raise e => Raise e
  end.

End User.

(** ** apps.streams.models.Stream: columns *)

Module Stream.

Inductive Status := OFFLINE | ONLINE | STARTING | ERROR.

#[global] Instance Status_eq_dec : EqDecision Status.
Proof. solve_decision. Defined.

(** The stored value of a [TextChoices] member. *)
Definition value (s : Status) : string :=
  match s with
  | OFFLINE => "OFFLINE"
  | ONLINE => "ONLINE"
  | STARTING => "STARTING"
  | ERROR => "ERROR"
  end.

Record t := mk {
  stream_key : string;
  name : string;
  description : string;
  status : Status;
  rtmp_url : string;
  hls_master_url : string;
  available_qualities : list string;
  default_quality : string;
  current_viewers : Z;
  total_views : Z;
  peak_viewers : Z;
  recording_enabled : bool;
  recording_path : string;
  thumbnail_url : string;
  started_at : option Z;
  ended_at : option Z;
  created_at : Z;
  updated_at : Z
}.

Definition set_status (v : Status) (s : t) : t :=
  mk (stream_key s) (name s) (description s) v (rtmp_url s)
    (hls_master_url s) (available_qualities s) (default_quality s)
    (current_viewers s) (total_views s) (peak_viewers s)
    (recording_enabled s) (recording_path s) (thumbnail_url s)
    (started_at s) (ended_at s) (created_at s) (updated_at s).

Definition set_current_viewers (v : Z) (s : t) : t :=
  mk (stream_key s) (name s) (description s) (status s) (rtmp_url s)
    (hls_master_url s) (available_qualities s) (default_quality s)
    v (total_views s) (peak_viewers s)
    (recording_enabled s) (recording_path s) (thumbnail_url s)
    (started_at s) (ended_at s) (created_at s) (updated_at s).

Definition set_peak_viewers (v : Z) (s : t) : t :=
  mk (stream_key s) (name s) (description s) (status s) (rtmp_url s)
    (hls_master_url s) (available_qualities s) (default_quality s)
    (current_viewers s) (total_views s) v
    (recording_enabled s) (recording_path s) (thumbnail_url s)
    (started_at s) (ended_at s) (created_at s) (updated_at s).

Definition set_started_at (v : option Z) (s : t) : t :=
  mk (stream_key s) (name s) (description s) (status s) (rtmp_url s)
    (hls_master_url s) (available_qualities s) (default_quality s)
    (current_viewers s) (total_views s) (peak_viewers s)
    (recording_enabled s) (recording_path s) (thumbnail_url s)
    v (ended_at s) (created_at s) (updated_at s).

Definition set_ended_at (v : option Z) (s : t) : t :=
  mk (stream_key s) (name s) (description s) (status s) (rtmp_url s)
    (hls_master_url s) (available_qualities s) (default_quality s)
    (current_viewers s) (total_views s) (peak_viewers s)
    (recording_enabled s) (recording_path s) (thumbnail_url s)
    (started_at s) v (created_at s) (updated_at s).

Definition set_updated_at (v : Z) (s : t) : t :=
  mk (stream_key s) (name s) (description s) (status s) (rtmp_url s)
    (hls_master_url s) (available_qualities s) (default_quality s)
    (current_viewers s) (total_views s) (peak_viewers s)
    (recording_enabled s) (recording_path s) (thumbnail_url s)
    (started_at s) (ended_at s) (created_at s) v.

(** The two assignments of [update_viewer_count], before its [save]. *)
Definition count_viewers (delta : Z) (self : t) : t :=
  let self := set_current_viewers (Z.max 0 (current_viewers self + delta)) self in
  if bool_decide (current_viewers self > peak_viewers self)
  then set_peak_viewers (current_viewers self) self
  else self.

End Stream.

(** ** apps.streams.models.ViewSession: columns *)

Module ViewSession.

(** [user] and [stream] are the foreign keys, held as primary keys. *)
Record t := mk {
  user : Z;
  stream : Z;
  session_id : string;
  device_type : string;
  quality : string;
  ip_address : string;
  user_agent : string;
  isp_detected : string;
  started_at : Z;
  last_heartbeat : Z;
  ended_at : option Z;
  watch_duration : Z;
  data_consumed : Z;
  buffer_count : Z;
  quality_switches : Z;
  average_bitrate : Z
}.

Definition set_last_heartbeat (v : Z) (s : t) : t :=
  mk (user s) (stream s) (session_id s) (device_type s) (quality s)
    (ip_address s) (user_agent s) (isp_detected s) (started_at s) v
    (ended_at s) (watch_duration s) (data_consumed s) (buffer_count s)
    (quality_switches s) (average_bitrate s).

Definition set_ended_at (v : option Z) (s : t) : t :=
  mk (user s) (stream s) (session_id s) (device_type s) (quality s)
    (ip_address s) (user_agent s) (isp_detected s) (started_at s)
    (last_heartbeat s) v (watch_duration s) (data_consumed s)
    (buffer_count s) (quality_switches s) (average_bitrate s).

Definition set_watch_duration (v : Z) (s : t) : t :=
  mk (user s) (stream s) (session_id s) (device_type s) (quality s)
    (ip_address s) (user_agent s) (isp_detected s) (started_at s)
    (last_heartbeat s) (ended_at s) v (data_consumed s)
    (buffer_count s) (quality_switches s) (average_bitrate s).

Definition set_data_consumed (v : Z) (s : t) : t :=
  mk (user s) (stream s) (session_id s) (device_type s) (quality s)
    (ip_address s) (user_agent s) (isp_detected s) (started_at s)
    (last_heartbeat s) (ended_at s) (watch_duration s) v
    (buffer_count s) (quality_switches s) (average_bitrate s).

Definition set_buffer_count (v : Z) (s : t) : t :=
  mk (user s) (stream s) (session_id s) (device_type s) (quality s)
    (ip_address s) (user_agent s) (isp_detected s) (started_at s)
    (last_heartbeat s) (ended_at s) (watch_duration s) (data_consumed s)
    v (quality_switches s) (average_bitrate s).

Definition set_quality_switches (v : Z) (s : t) : t :=
  mk (user s) (stream s) (session_id s) (device_type s) (quality s)
    (ip_address s) (user_agent s) (isp_detected s) (started_at s)
    (last_heartbeat s) (ended_at s) (watch_duration s) (data_consumed s)
    (buffer_count s) v (average_bitrate s).

Definition set_average_bitrate (v : Z) (s : t) : t :=
  mk (user s) (stream s) (session_id s) (device_type s) (quality s)
    (ip_address s) (user_agent s) (isp_detected s) (started_at s)
    (last_heartbeat s) (ended_at s) (watch_duration s) (data_consumed s)
    (buffer_count s) (quality_switches s) v.

End ViewSession.


(** ** The world: the three tables and the clock *)

Record World := mkWorld {
  streams : gmap Z Stream.t;
  users : gmap Z User.t;
  sessions : gmap Z ViewSession.t;
  clock : nat → Z;
  reads : nat
}.

Definition set_streams (v : gmap Z Stream.t) (w : World) : World :=
  mkWorld v (users w) (sessions w) (clock w) (reads w).

Definition set_users (v : gmap Z User.t) (w : World) : World :=
  mkWorld (streams w) v (sessions w) (clock w) (reads w).

Definition set_sessions (v : gmap Z ViewSession.t) (w : World) : World :=
  mkWorld (streams w) (users w) v (clock w) (reads w).

(** A computation of a view: it runs in a world, returns or raises, and
    leaves a world. *)
Definition M (A : Type) : Type := World → outcome A * World.

#[global] Instance M_ret : MRet M := fun A a w => (Ok a, w).
#[global] Instance M_bind : MBind M := fun A B f m w =>
  match m w with
  | (Ok a, w') => f a w'
  | (Raise e, w') => (Raise e, w')
  end.

Definition raise {A : Type} (e : Exn) : M A := fun w => (Raise e, w).

Definition lift {A : Type} (o : outcome A) : M A := fun w => (o, w).

(** [try: body except ...]: [handler] answers the exceptions the [except]
    clause names and lets the others through. *)
Definition try_except {A : Type} (body : M A) (handler : Exn → option (M A)) : M A :=
  fun w =>
    match body w with
    | (Ok a, w') => (Ok a, w')
    | (Raise e, w') =>
        match handler e with
        | Some h => h w'
        | None => (Raise e, w')
        end
    end.

(** [for x in l: body(x)]. *)
Fixpoint for_each {A : Type} (l : list A) (body : A → M unit) : M unit :=
  match l with
  | [] => mret tt
  | x :: l' => _ ← body x; for_each l' body
  end.

(** The world once the next clock reading is consumed. *)
Definition tick (w : World) : World :=
  mkWorld (streams w) (users w) (sessions w) (clock w) (S (reads w)).

(** [timezone.now()]. *)
Definition timezone_now : M Z := fun w => (Ok (clock w (reads w)), tick w).

(** An [UPDATE] of every column of a row, or its [INSERT] when the key is
    not in the table. *)
Definition write_stream (self : Z * Stream.t) : M unit := fun w =>
  (Ok tt, set_streams (<[self.1 := self.2]> (streams w)) w).

Definition write_session (self : Z * ViewSession.t) : M unit := fun w =>
  (Ok tt, set_sessions (<[self.1 := self.2]> (sessions w)) w).

(** The key an [AutoField] gives a new row: one not in use, here the
    successor of the greatest key of the table. *)
Definition next_pk {A : Type} (table : gmap Z A) : Z :=
  1 + map_fold (fun k _ acc => Z.max k acc) 0 table.

(** ** apps.streams.models.Stream: methods *)

(** [self.save()] of a [Stream]: [updated_at] has [auto_now], every column is
    written. *)
Definition Stream_save (self : Z * Stream.t) : M (Z * Stream.t) :=
  now ← timezone_now;
  let self := (self.1, Stream.set_updated_at now self.2) in
  _ ← write_stream self;
  mret self.

(** [self.save(update_fields=['current_viewers', 'peak_viewers'])]: only the
    two columns of the row are written, and [auto_now] does not apply. The
    views call it on an instance they have just loaded, so the row is there;
    the error Django raises when it is not is left out. *)
Definition Stream_save_viewers (self : Z * Stream.t) : M unit := fun w =>
  (Ok tt,
   set_streams
     (alter (fun row => Stream.set_peak_viewers (Stream.peak_viewers self.2)
                          (Stream.set_current_viewers (Stream.current_viewers self.2) row))
        self.1 (streams w)) w).

(** [Stream.update_viewer_count]; the instance it mutated is returned. *)
Definition update_viewer_count (self : Z * Stream.t) (delta : Z) : M (Z * Stream.t) :=
  let self := (self.1, Stream.count_viewers delta self.2) in
  _ ← Stream_save_viewers self;
  mret self.

(** [int(timezone.now().timestamp() + expires_in)], the clock reading being
    in microseconds; [int] truncates towards zero. *)
Definition expiry (now expires_in : Z) : Z :=
  Z.quot (now + expires_in * 1000000) 1000000.

Section Signing.

(** [hashlib.md5(message.encode()).hexdigest()] and the two entries of
    [settings.STREAMING_CONFIG] that the signer reads. *)
Variable md5_hexdigest : string → string.
Variable HLS_BASE_URL : string.
Variable HLS_SECRET_KEY : string.

Definition hls_path (self : Stream.t) (quality : string) : string :=
  if decide (quality = "auto")
  then Stream.stream_key self +:+ "/master.m3u8"
  else Stream.stream_key self +:+ "/" +:+ quality +:+ "/playlist.m3u8".

(** [Stream.generate_signed_url]; [user] is not used by the method. *)
Definition generate_signed_url (self : Stream.t) (user : User.t)
    (quality : string) (expires_in : Z) : M string :=
  now ← timezone_now;
  let expires := expiry now expires_in in
  let path := hls_path self quality in
  let message := pretty expires +:+ path +:+ HLS_SECRET_KEY in
  let signature := md5_hexdigest message in
  mret (HLS_BASE_URL +:+ "/" +:+ path +:+ "?md5=" +:+ signature
          +:+ "&expires=" +:+ pretty expires).

End Signing.

(** ** apps.streams.models.ViewSession: methods *)

(** [self.save()] of a [ViewSession]: [last_heartbeat] has [auto_now]. *)
Definition ViewSession_save (self : Z * ViewSession.t) : M (Z * ViewSession.t) :=
  now ← timezone_now;
  let self := (self.1, ViewSession.set_last_heartbeat now self.2) in
  _ ← write_session self;
  mret self.

(** [self.stream] and [self.user]: the related row is fetched when the
    attribute is read. *)
Definition ViewSession_stream (self : ViewSession.t) : M (Z * Stream.t) := fun w =>
  match streams w !! ViewSession.stream self with
  | Some row => (Ok (ViewSession.stream self, row), w)
  | None => (Raise (DoesNotExist StreamModel), w)
  end.

Definition ViewSession_user (self : ViewSession.t) : M (Z * User.t) := fun w =>
  match users w !! ViewSession.user self with
  | Some row => (Ok (ViewSession.user self, row), w)
  | None => (Raise (DoesNotExist UserModel), w)
  end.

(** [self.user.save(update_fields=['total_watch_time', 'monthly_data_used'])]. *)
Definition User_save_usage (self : Z * User.t) : M unit := fun w =>
  (Ok tt,
   set_users
     (alter (fun row => User.set_monthly_data_used (User.monthly_data_used self.2)
                          (User.set_total_watch_time (User.total_watch_time self.2) row))
        self.1 (users w)) w).

(** [int((ended_at - started_at).total_seconds())]. *)
Definition int_total_seconds (delta : Z) : Z := Z.quot delta 1000000.

(** [ViewSession.end_session]; the instance it mutated is returned. *)
Definition end_session (self : Z * ViewSession.t) : M (Z * ViewSession.t) :=
  match ViewSession.ended_at self.2 with
  | Some _ => mret self
  | None =>
      now ← timezone_now;
      let s := ViewSession.set_ended_at (Some now) self.2 in
      let duration := int_total_seconds (now - ViewSession.started_at s) in
      let s := ViewSession.set_watch_duration duration s in
      self ← ViewSession_save (self.1, s);
      stream ← ViewSession_stream self.2;
      _ ← update_viewer_count stream (-1);
      user ← ViewSession_user self.2;
      let u := User.set_total_watch_time
                 (User.total_watch_time user.2 + ViewSession.watch_duration self.2) user.2 in
      let u := User.set_monthly_data_used
                 (User.monthly_data_used u + ViewSession.data_consumed self.2) u in
      _ ← User_save_usage (user.1, u);
      mret self
  end.

(** ** apps.api.views: requests and responses *)

(** What the views read of a request: the authenticated user, the [status]
    query parameter, the keys of [request.data] (absent keys are [None]) and
    three entries of [request.META]. *)
Record Request := mkRequest {
  req_user : Z * User.t;
  query_status : option string;
  data_name : option string;
  data_quality : option string;
  data_device_type : option string;
  data_buffer_count : option Z;
  data_quality_switches : option Z;
  data_data_consumed : option Z;
  data_average_bitrate : option Z;
  HTTP_X_FORWARDED_FOR : option string;
  REMOTE_ADDR : option string;
  HTTP_USER_AGENT : option string
}.

(** The JSON bodies the views answer with. *)
Inductive Body :=
| ErrorBody (error : string)
| ForbiddenBody (error max_quality : string)
| PlaybackBody (stream_url session_id quality : string)
    (available_qualities : list string) (expires_in : Z)
| StatusBody (status : string)
| EndedBody (status : string) (watch_duration data_consumed : Z).

Record Response := mkResponse {
  body : Body;
  status_code : Z
}.

Definition HTTP_200_OK := 200.
Definition HTTP_400_BAD_REQUEST := 400.
Definition HTTP_403_FORBIDDEN := 403.
Definition HTTP_404_NOT_FOUND := 404.

(** [get_object_or_404(queryset, pk=pk)]. *)
Definition get_object_or_404 {A : Type} (queryset : gmap Z A) (pk : Z) : M (Z * A) :=
  match queryset !! pk with
  | Some row => mret (pk, row)
  | None => raise Http404
  end.

(** [Stream.objects.get(stream_key=...)]; an absent [name] is [None] and
    matches no row. *)
Definition Stream_objects_get (key : option string) : M (Z * Stream.t) := fun w =>
  match map_to_list
          (filter (fun kv : Z * Stream.t => Some (Stream.stream_key kv.2) = key)
             (streams w)) with
  | [] => (Raise (DoesNotExist StreamModel), w)
  | [obj] => (Ok obj, w)
  | _ => (Raise (MultipleObjectsReturned StreamModel), w)
  end.

(** The rows of [filter(stream=stream, ended_at__isnull=True)]. *)
Definition active_on (stream : Z) (table : gmap Z ViewSession.t) : list (Z * ViewSession.t) :=
  map_to_list
    (filter (fun kv : Z * ViewSession.t =>
               ViewSession.stream kv.2 = stream ∧ ViewSession.ended_at kv.2 = None)
       table).

(** [ViewSession.objects.filter(stream=stream, ended_at__isnull=True)],
    evaluated. *)
Definition active_sessions (stream : Z) : M (list (Z * ViewSession.t)) := fun w =>
  (Ok (active_on stream (sessions w)), w).

(** The [INSERT] of [ViewSession.objects.create]: [ip_address] is not
    nullable and an empty address is stored as null, [session_id] is unique,
    and the two foreign keys must exist. The address is stored as it is
    given: what a backend does with a string that is not an address is left
    out. *)
Definition insert_session (ip : option string) (row : ViewSession.t) : M (Z * ViewSession.t) :=
  fun w =>
    if bool_decide (ip ≠ None ∧ ip ≠ Some ""
                    ∧ map_Forall (fun _ s => ViewSession.session_id s
                                             ≠ ViewSession.session_id row) (sessions w)
                    ∧ is_Some (users w !! ViewSession.user row)
                    ∧ is_Some (streams w !! ViewSession.stream row))
    then let pk := next_pk (sessions w) in
         (Ok (pk, row), set_sessions (<[pk := row]> (sessions w)) w)
    else (Raise IntegrityError, w).

(** [ViewSession.objects.create(...)]: [started_at] has [auto_now_add] and
    [last_heartbeat] has [auto_now]; the other columns take their defaults. *)
Definition ViewSession_objects_create (user stream : Z)
    (session_id device_type quality : string) (ip : option string)
    (user_agent : string) : M (Z * ViewSession.t) :=
  started ← timezone_now;
  heartbeat ← timezone_now;
  insert_session ip
    (ViewSession.mk user stream session_id device_type quality (default "" ip)
       user_agent "" started heartbeat None 0 0 0 0 0).

(** [x.split(',')[0]]; the comma is character 44. *)
Fixpoint split_first (x : string) : string :=
  match x with
  | EmptyString => EmptyString
  | String c x' => if Ascii.eqb c (Ascii.ascii_of_nat 44) then EmptyString else String c (split_first x')
  end.

(** ** apps.api.views.StreamViewSet *)

Module StreamViewSet.

(** [Stream.objects.all()], filtered by the [status] query parameter when it
    is given and not empty. *)
Definition get_queryset (request : Request) : M (gmap Z Stream.t) := fun w =>
  match query_status request with
  | Some status_filter =>
      if decide (status_filter = "")
      then (Ok (streams w), w)
      else (Ok (filter (fun kv : Z * Stream.t =>
                          Stream.value (Stream.status kv.2) = status_filter)
                  (streams w)), w)
  | None => (Ok (streams w), w)
  end.

Definition get_object (request : Request) (pk : Z) : M (Z * Stream.t) :=
  queryset ← get_queryset request;
  get_object_or_404 queryset pk.

Definition get_client_ip (request : Request) : option string :=
  match HTTP_X_FORWARDED_FOR request with
  | Some x_forwarded_for =>
      if decide (x_forwarded_for = "")
      then REMOTE_ADDR request
      else Some (split_first x_forwarded_for)
  | None => REMOTE_ADDR request
  end.

Section Playback.

Variable md5_hexdigest : string → string.
Variable HLS_BASE_URL : string.
Variable HLS_SECRET_KEY : string.

(** [get_playback_url]; [uuid] is the value [str(uuid.uuid4())] draws. *)
Definition get_playback_url (request : Request) (pk : Z) (uuid : string) : M Response :=
  stream ← get_object request pk;
  let user := req_user request in
  if bool_decide (Stream.status stream.2 ≠ Stream.ONLINE)
  then mret (mkResponse (ErrorBody "Stream is not currently online")
               HTTP_400_BAD_REQUEST)
  else
    let quality := default "auto" (data_quality request) in
    forbidden ← (if bool_decide (quality ≠ "auto")
                 then allowed ← lift (User.can_watch_quality user.2 quality);
                      mret (negb allowed)
                 else mret false);
    if (forbidden : bool)
    then mret (mkResponse
                 (ForbiddenBody
                    ("Your subscription does not allow " +:+ quality +:+ " quality")
                    (User.max_quality user.2))
                 HTTP_403_FORBIDDEN)
    else
      signed_url ← generate_signed_url md5_hexdigest HLS_BASE_URL HLS_SECRET_KEY
                     stream.2 user.2 quality 3600;
      let session_id := uuid in
      _ ← ViewSession_objects_create user.1 stream.1 session_id
            (default "unknown" (data_device_type request)) quality
            (get_client_ip request) (default "" (HTTP_USER_AGENT request));
      stream ← update_viewer_count stream 1;
      mret (mkResponse
              (PlaybackBody signed_url session_id quality
                 (Stream.available_qualities stream.2) 3600)
              HTTP_200_OK).

End Playback.

End StreamViewSet.

(** ** apps.api.views.ViewSessionViewSet *)

Module ViewSessionViewSet.

(** Staff see every session, other users their own. *)
Definition get_queryset (request : Request) : M (gmap Z ViewSession.t) := fun w =>
  if User.is_staff (req_user request).2
  then (Ok (sessions w), w)
  else (Ok (filter (fun kv : Z * ViewSession.t =>
                      ViewSession.user kv.2 = (req_user request).1)
              (sessions w)), w).

Definition get_object (request : Request) (pk : Z) : M (Z * ViewSession.t) :=
  queryset ← get_queryset request;
  get_object_or_404 queryset pk.

(** [if key in request.data: setattr(session, key, request.data[key])]. *)
Definition assign {A B : Type} (v : option A) (set : A → B → B) (x : B) : B :=
  match v with
  | Some a => set a x
  | None => x
  end.

Definition heartbeat (request : Request) (pk : Z) : M Response :=
  session ← get_object request pk;
  now ← timezone_now;
  let s := ViewSession.set_last_heartbeat now session.2 in
  let s := assign (data_buffer_count request) ViewSession.set_buffer_count s in
  let s := assign (data_quality_switches request) ViewSession.set_quality_switches s in
  let s := assign (data_data_consumed request) ViewSession.set_data_consumed s in
  let s := assign (data_average_bitrate request) ViewSession.set_average_bitrate s in
  _ ← ViewSession_save (session.1, s);
  mret (mkResponse (StatusBody "ok") HTTP_200_OK).

(** The view [end]. *)
Definition end_ (request : Request) (pk : Z) : M Response :=
  session ← get_object request pk;
  session ← end_session session;
  mret (mkResponse
          (EndedBody "ended" (ViewSession.watch_duration session.2)
             (ViewSession.data_consumed session.2))
          HTTP_200_OK).

End ViewSessionViewSet.

(** ** apps.api.views.WebhookViewSet *)

Module WebhookViewSet.

(** [except Stream.DoesNotExist]; the exception a missing related stream
    raises is a subclass of it. *)
Definition except_Stream_DoesNotExist (e : Exn) : option (M Response) :=
  match e with
  | DoesNotExist StreamModel =>
      Some (mret (mkResponse (ErrorBody "Stream not found") HTTP_404_NOT_FOUND))
  | _ => None
  end.

Definition stream_start (request : Request) : M Response :=
  let stream_key := data_name request in
  try_except
    (stream ← Stream_objects_get stream_key;
     now ← timezone_now;
     let s := Stream.set_status Stream.ONLINE stream.2 in
     let s := Stream.set_started_at (Some now) s in
     let s := Stream.set_current_viewers 0 s in
     _ ← Stream_save (stream.1, s);
     mret (mkResponse (StatusBody "ok") HTTP_200_OK))
    except_Stream_DoesNotExist.

Definition stream_stop (request : Request) : M Response :=
  let stream_key := data_name request in
  try_except
    (stream ← Stream_objects_get stream_key;
     now ← timezone_now;
     let s := Stream.set_status Stream.OFFLINE stream.2 in
     let s := Stream.set_ended_at (Some now) s in
     let s := Stream.set_current_viewers 0 s in
     stream ← Stream_save (stream.1, s);
     active ← active_sessions stream.1;
     _ ← for_each active (fun session => _ ← end_session session; mret tt);
     mret (mkResponse (StatusBody "ok") HTTP_200_OK))
    except_Stream_DoesNotExist.

End WebhookViewSet.

(** ** Sequences of calls, for the statements about them *)

(** [update_viewer_count] called on one instance with each delta in turn. *)
Fixpoint update_viewer_counts (self : Z * Stream.t) (deltas : list Z) : M (Z * Stream.t) :=
  match deltas with
  | [] => mret self
  | delta :: deltas' =>
      self ← update_viewer_count self delta;
      update_viewer_counts self deltas'
  end.

(** The values [current_viewers] takes after each of those calls. *)
Fixpoint viewers_after (self : Stream.t) (deltas : list Z) : list Z :=
  match deltas with
  | [] => []
  | delta :: deltas' =>
      let self := Stream.count_viewers delta self in
      Stream.current_viewers self :: viewers_after self deltas'
  end.

(** The greatest element of [x :: l]. *)
Definition highest (x : Z) (l : list Z) : Z := foldr Z.max x l.

(** ** The rows [end_session] writes, for the statements about it *)

(** The row of a session that was active and is ended at the reading [now],
    its [save] taking the reading [saved]. *)
Definition ended_session (now saved : Z) (s : ViewSession.t) : ViewSession.t :=
  ViewSession.set_last_heartbeat saved
    (ViewSession.set_watch_duration (int_total_seconds (now - ViewSession.started_at s))
       (ViewSession.set_ended_at (Some now) s)).

(** The row of a user once the ended session [s] is added to its usage. *)
Definition charged_user (s : ViewSession.t) (u : User.t) : User.t :=
  User.set_monthly_data_used (User.monthly_data_used u + ViewSession.data_consumed s)
    (User.set_total_watch_time (User.total_watch_time u + ViewSession.watch_duration s) u).

(** The sessions a request may address: all of them for staff, the user's
    own otherwise. *)
Definition visible (request : Request) (s : ViewSession.t) : Prop :=
  User.is_staff (req_user request).2 = true
  ∨ ViewSession.user s = (req_user request).1.

(** The sum of [f] over a list. *)
Definition sum_Z {A : Type} (f : A → Z) (l : list A) : Z :=
  foldr (fun x acc => f x + acc) 0 l.

(** What the session [ks], once ended in [table], adds to the watch time and
    to the data usage of the user [uid]: nothing when the session is not
    that user's. *)
Definition watched (uid : Z) (table : gmap Z ViewSession.t) (ks : Z * ViewSession.t) : Z :=
  if decide (ViewSession.user ks.2 = uid)
  then default 0 (ViewSession.watch_duration <$> table !! ks.1)
  else 0.

Definition consumed (uid : Z) (table : gmap Z ViewSession.t) (ks : Z * ViewSession.t) : Z :=
  if decide (ViewSession.user ks.2 = uid)
  then default 0 (ViewSession.data_consumed <$> table !! ks.1)
  else 0.

(** ** Sample data, for the examples *)

Module Sample.

Definition user (tier : string) : User.t :=
  User.mk "ann@example.org" "ann" false "" tier None "" "" false 0 0 "auto"
    true 0 0 None.

Definition stream (status : Stream.Status) : Stream.t :=
  Stream.mk "abc" "News" "" status "rtmp://ingest/abc" ""
    ["360p"; "480p"; "720p"; "1080p"] "auto" 0 0 0 false "" "" None None 0 0.

(** A session of user 7 on stream 1, started at second 1. *)
Definition session (ended_at : option Z) (watch_duration : Z) : ViewSession.t :=
  ViewSession.mk 7 1 "s-1" "web" "480p" "10.0.0.1" "" "" 1000000 1000000
    ended_at watch_duration 0 0 0 0.

(** The clock ticks once a second. *)
Definition seconds (n : nat) : Z := 1000000 * Z.of_nat n.

(** One stream, one [BASIC] user, no session. *)
Definition world (status : Stream.Status) : World :=
  mkWorld {[1 := stream status]} {[7 := user "BASIC"]} ∅ seconds 5.

(** The same with one session of the user on the stream. *)
Definition world_with (s : ViewSession.t) : World :=
  mkWorld {[1 := stream Stream.ONLINE]} {[7 := user "BASIC"]} {[1 := s]} seconds 5.

(** A request of the user: the stream key [abc] for the webhooks, the given
    quality for a playback URL and the given buffer count for a heartbeat. *)
Definition request (quality : option string) (buffer_count : option Z) : Request :=
  mkRequest (7, user "BASIC") None (Some "abc") quality None buffer_count None
    None None None (Some "10.0.0.1") None.

(** A stand-in for the digest, which leaves its message readable. *)
Definition md5_hexdigest (message : string) : string := "md5(" +:+ message +:+ ")".

End Sample.

(** * The rest of the code *)

(** ** apps.users.models.User.is_premium *)

(** The clock is read only for a [PREMIUM] or [ULTRA] user whose
    [subscription_expires] is set. *)
Definition is_premium (self : User.t) : M bool :=
  if bool_decide (User.subscription_tier self
                  ∈ [User.SubscriptionTier.PREMIUM; User.SubscriptionTier.ULTRA])
  then match User.subscription_expires self with
       | Some expires => now ← timezone_now; mret (bool_decide (expires > now))
       | None => mret false
       end
  else mret false.

(** ** apps.api.serializers.StreamSerializer and StreamViewSet.live *)

(** [StreamSerializer.get_uptime]. *)
Definition get_uptime (obj : Stream.t) : M Z :=
  if bool_decide (Stream.status obj = Stream.ONLINE)
  then match Stream.started_at obj with
       | Some started => now ← timezone_now; mret (int_total_seconds (now - started))
       | None => mret 0
       end
  else mret 0.

(** The fields of [StreamSerializer.Meta.fields], in their order; values are
    kept as the model has them rather than rendered to JSON. *)
Record StreamData := mkStreamData {
  data_id : Z;
  data_stream_key : string;
  data_stream_name : string;
  data_description : string;
  data_status : Stream.Status;
  data_available_qualities : list string;
  data_default_quality : string;
  data_current_viewers : Z;
  data_total_views : Z;
  data_peak_viewers : Z;
  data_thumbnail_url : string;
  data_started_at : option Z;
  data_uptime : Z;
  data_recording_enabled : bool
}.

(** The representation of one stream: the columns are copied and [uptime] is
    computed by [get_uptime]. *)
Definition to_representation (obj : Z * Stream.t) : M StreamData :=
  uptime ← get_uptime obj.2;
  mret (mkStreamData obj.1 (Stream.stream_key obj.2) (Stream.name obj.2)
          (Stream.description obj.2) (Stream.status obj.2)
          (Stream.available_qualities obj.2) (Stream.default_quality obj.2)
          (Stream.current_viewers obj.2) (Stream.total_views obj.2)
          (Stream.peak_viewers obj.2) (Stream.thumbnail_url obj.2)
          (Stream.started_at obj.2) uptime (Stream.recording_enabled obj.2)).

(** What an entry of the list shows of a row. *)
Definition represents (d : StreamData) (obj : Z * Stream.t) : Prop :=
  data_id d = obj.1
  ∧ data_stream_key d = Stream.stream_key obj.2
  ∧ data_status d = Stream.status obj.2
  ∧ data_current_viewers d = Stream.current_viewers obj.2
  ∧ data_peak_viewers d = Stream.peak_viewers obj.2
  ∧ data_total_views d = Stream.total_views obj.2
  ∧ data_started_at d = Stream.started_at obj.2
  ∧ (Stream.started_at obj.2 = None → data_uptime d = 0).

(** [[f(x) for x in l]], the effects in the order of the list. *)
Fixpoint map_M {A B : Type} (f : A → M B) (l : list A) : M (list B) :=
  match l with
  | [] => mret []
  | x :: l' => y ← f x; ys ← map_M f l'; mret (y :: ys)
  end.

(** [Stream.objects.filter(status=Stream.Status.ONLINE)], evaluated. *)
Definition live_streams : M (list (Z * Stream.t)) := fun w =>
  (Ok (map_to_list
         (filter (fun kv : Z * Stream.t => Stream.status kv.2 = Stream.ONLINE)
            (streams w))), w).

(** [StreamViewSet.live]: the data of [Response(serializer.data)], whose
    status is 200. *)
Definition live (request : Request) : M (list StreamData) :=
  rows ← live_streams;
  map_M to_representation rows.

(** ** What a view may do to the tables, for the statements about every view *)

(** A row of a stream after some views: the columns no view writes are as
    they were, [peak_viewers] has not decreased, and the counters are
    consistent if they were. *)
Definition stream_step (st st' : Stream.t) : Prop :=
  Stream.stream_key st' = Stream.stream_key st
  ∧ Stream.name st' = Stream.name st
  ∧ Stream.description st' = Stream.description st
  ∧ Stream.rtmp_url st' = Stream.rtmp_url st
  ∧ Stream.hls_master_url st' = Stream.hls_master_url st
  ∧ Stream.available_qualities st' = Stream.available_qualities st
  ∧ Stream.default_quality st' = Stream.default_quality st
  ∧ Stream.total_views st' = Stream.total_views st
  ∧ Stream.recording_enabled st' = Stream.recording_enabled st
  ∧ Stream.recording_path st' = Stream.recording_path st
  ∧ Stream.thumbnail_url st' = Stream.thumbnail_url st
  ∧ Stream.created_at st' = Stream.created_at st
  ∧ Stream.peak_viewers st ≤ Stream.peak_viewers st'
  ∧ (0 ≤ Stream.current_viewers st ≤ Stream.peak_viewers st →
     0 ≤ Stream.current_viewers st' ≤ Stream.peak_viewers st').

(** A row of a user after some views: only the two usage counters may have
    changed. *)
Definition user_step (u u' : User.t) : Prop :=
  u' = User.set_monthly_data_used (User.monthly_data_used u')
         (User.set_total_watch_time (User.total_watch_time u') u).

(** A row of a session after some views: who watches what, from where and
    since when is as it was, and an ended session keeps its end and its
    duration. *)
Definition session_step (s s' : ViewSession.t) : Prop :=
  ViewSession.user s' = ViewSession.user s
  ∧ ViewSession.stream s' = ViewSession.stream s
  ∧ ViewSession.session_id s' = ViewSession.session_id s
  ∧ ViewSession.device_type s' = ViewSession.device_type s
  ∧ ViewSession.quality s' = ViewSession.quality s
  ∧ ViewSession.ip_address s' = ViewSession.ip_address s
  ∧ ViewSession.user_agent s' = ViewSession.user_agent s
  ∧ ViewSession.isp_detected s' = ViewSession.isp_detected s
  ∧ ViewSession.started_at s' = ViewSession.started_at s
  ∧ (is_Some (ViewSession.ended_at s) →
     ViewSession.ended_at s' = ViewSession.ended_at s
     ∧ ViewSession.watch_duration s' = ViewSession.watch_duration s).

(** A table after some views that add and remove no row. *)
Definition rows_step {A : Type} (R : A → A → Prop) (t t' : gmap Z A) : Prop :=
  ∀ k, match t !! k, t' !! k with
       | Some a, Some b => R a b
       | None, None => True
       | _, _ => False
       end.

(** The world after some views: streams and users are neither added nor
    removed, no session is removed, a session that was added refers to a
    stream and a user that exist and has a [session_id] of its own, and the
    clock has only advanced. *)
Definition evolves (w w' : World) : Prop :=
  rows_step stream_step (streams w) (streams w')
  ∧ rows_step user_step (users w) (users w')
  ∧ (∀ k s, sessions w !! k = Some s →
       ∃ s', sessions w' !! k = Some s' ∧ session_step s s')
  ∧ (∀ k s', sessions w' !! k = Some s' → sessions w !! k = None →
       is_Some (streams w' !! ViewSession.stream s')
       ∧ is_Some (users w' !! ViewSession.user s')
       ∧ ∀ k2 s2, sessions w' !! k2 = Some s2 →
           ViewSession.session_id s2 = ViewSession.session_id s' → k2 = k)
  ∧ clock w' = clock w
  ∧ (reads w ≤ reads w')%nat.

(** The invariants of the tables. *)
Definition viewers_consistent (w : World) : Prop :=
  ∀ pk st, streams w !! pk = Some st →
    0 ≤ Stream.current_viewers st ≤ Stream.peak_viewers st.


Definition session_ids_unique (w : World) : Prop :=
  ∀ k1 k2 s1 s2, sessions w !! k1 = Some s1 → sessions w !! k2 = Some s2 →
    ViewSession.session_id s1 = ViewSession.session_id s2 → k1 = k2.



(** ** Sequences of requests *)

(** A request to one of the five views that write, with what the URL and the
    random draw give it. *)
Inductive Call :=
| GetPlaybackUrl (request : Request) (pk : Z) (uuid : string)
| Heartbeat (request : Request) (pk : Z)
| End (request : Request) (pk : Z)
| StreamStart (request : Request)
| StreamStop (request : Request).

Section Serving.

Variable md5_hexdigest : string → string.
Variable HLS_BASE_URL : string.
Variable HLS_SECRET_KEY : string.

Definition dispatch (call : Call) : M Response :=
  match call with
  | GetPlaybackUrl request pk uuid =>
      StreamViewSet.get_playback_url md5_hexdigest HLS_BASE_URL HLS_SECRET_KEY
        request pk uuid
  | Heartbeat request pk => ViewSessionViewSet.heartbeat request pk
  | End request pk => ViewSessionViewSet.end_ request pk
  | StreamStart request => WebhookViewSet.stream_start request
  | StreamStop request => WebhookViewSet.stream_stop request
  end.

(** The world after the requests are served one after the other; a request
    that raised has left what it had written. *)
Fixpoint serve (calls : list Call) (w : World) : World :=
  match calls with
  | [] => w
  | call :: calls' => serve calls' (dispatch call w).2
  end.

End Serving.

(** ** apps.users.models.DeviceToken and its admin actions *)

Module DeviceToken.

Inductive DeviceType := MOBILE | TV | WEB.

Record t := mk {
  user : Z;
  device_type : DeviceType;
  device_id : string;
  device_name : string;
  fcm_token : string;
  os_version : string;
  app_version : string;
  is_active : bool;
  last_seen : Z;
  created_at : Z
}.

Definition set_is_active (v : bool) (d : t) : t :=
  mk (user d) (device_type d) (device_id d) (device_name d) (fcm_token d)
     (os_version d) (app_version d) v (last_seen d) (created_at d).

End DeviceToken.

(** A queryset that has not been evaluated is its filter: each use runs it
    against the table as it is then. *)
Definition QuerySet : Type := Z * DeviceToken.t → bool.

(** [queryset.update(is_active=v)]: one UPDATE of the rows the filter
    selects; no [save()] runs, so [last_seen] keeps its value. *)
Definition update_is_active (queryset : QuerySet) (v : bool)
    (devices : gmap Z DeviceToken.t) : gmap Z DeviceToken.t :=
  map_imap (λ pk d, Some (if queryset (pk, d) then DeviceToken.set_is_active v d else d))
           devices.

(** [queryset.count()]. *)
Definition count (queryset : QuerySet) (devices : gmap Z DeviceToken.t) : nat :=
  size (filter (λ row, queryset row = true) devices).

Module DeviceTokenAdmin.

(** The table after the action and the message it shows. *)
Definition deactivate_devices (queryset : QuerySet)
    (devices : gmap Z DeviceToken.t) : gmap Z DeviceToken.t * string :=
  let devices := update_is_active queryset false devices in
  (devices, pretty (count queryset devices) +:+ " devices deactivated.").

Definition activate_devices (queryset : QuerySet)
    (devices : gmap Z DeviceToken.t) : gmap Z DeviceToken.t * string :=
  let devices := update_is_active queryset true devices in
  (devices, pretty (count queryset devices) +:+ " devices activated.").

End DeviceTokenAdmin.

(** ** A scenario *)

Module Scenario.

(** User 7 is watching stream 1 in session 1. *)
Definition world : World := Sample.world_with (Sample.session None 0).

(** A second playback request, a heartbeat, the stop webhook, an [end] for
    the session it has ended, and the start webhook. *)
Definition calls : list Call :=
  [GetPlaybackUrl (Sample.request (Some "480p") None) 1 "s-2";
   Heartbeat (Sample.request None (Some 9)) 1;
   StreamStop (Sample.request None None);
   End (Sample.request None None) 1;
   StreamStart (Sample.request None None)].

(** A request of user 7 with a [status] query parameter, a stream key for
    the webhooks, a [data_consumed] report and an [X-Forwarded-For] header. *)
Definition request (status : option string) (name : string)
    (data_consumed : option Z) (x_forwarded_for : option string) : Request :=
  mkRequest (7, Sample.user "BASIC") status (Some name) (Some "480p") None None
    None data_consumed None x_forwarded_for (Some "10.0.0.1") None.

(** A request of user 8, who is not staff. *)
Definition stranger : Request :=
  mkRequest (8, Sample.user "FREE") None None None None None None None None
    None (Some "10.0.0.2") None.

Definition device (device_id : string) (is_active : bool) : DeviceToken.t :=
  DeviceToken.mk 7 DeviceToken.TV device_id "Living room" "" "" "" is_active 1000000 0.

(** Two active devices and one that is not. *)
Definition devices : gmap Z DeviceToken.t :=
  {[1 := device "tv-1" true; 2 := device "tv-2" true; 3 := device "tv-3" false]}.

(** The queryset of the active devices, as the [is_active] filter of the
    change list gives it. *)
Definition active_devices : QuerySet := fun row => DeviceToken.is_active row.2.

End Scenario.

(** ** Proof automation *)

(** Unfolds the sequencing of the monad of views. *)
Ltac run_M :=
  repeat (progress (unfold mbind, mret, M_bind, M_ret, raise, lift; cbn [fst snd])).

(** * Properties *)

(** ** [list.index] *)

Lemma index_Ok (l : list string) (x : string) (i : nat) :
  index l x = Ok i → l !! i = Some x.
Proof.
  revert i. induction l as [|y l IH]; intros i; simpl; [done|].
  case_decide as Hy; [intros [= <-]; by subst|].
  destruct (index l x) as [n|e] eqn:Hn; simpl; [|done].
  intros [= <-]. by apply IH.
Qed.

Lemma index_Raise (l : list string) (x : string) (e : Exn) :
  index l x = Raise e → e = ValueError ∧ x ∉ l.
Proof.
  induction l as [|y l IH]; simpl.
  - intros [= <-]. split; [done|]. apply not_elem_of_nil.
  - case_decide as Hy; [done|].
    destruct (index l x) as [n|e'] eqn:Hn; simpl; [done|].
    intros [= He]. destruct IH as [He' Hx]; [by rewrite He|].
    split; [done|]. rewrite elem_of_cons. by intros [->|?].
Qed.

Lemma index_NoDup (l : list string) (x : string) (i : nat) :
  NoDup l → l !! i = Some x → index l x = Ok i.
Proof.
  intros Hnd Hi. destruct (index l x) as [n|e] eqn:Hn.
  - f_equal. apply index_Ok in Hn. by eapply NoDup_lookup.
  - apply index_Raise in Hn as [_ Hx]. exfalso. apply Hx.
    by eapply list_elem_of_lookup_2.
Qed.

Lemma quality_hierarchy_NoDup : NoDup User.quality_hierarchy.
Proof.
  unfold User.quality_hierarchy.
  repeat (apply NoDup_cons; split;
          [rewrite ?elem_of_cons, elem_of_nil; by intros ?; intuition|]).
  apply NoDup_nil_2.
Qed.

Lemma max_quality_cases (u : User.t) :
  (User.subscription_tier u = "FREE" ∧ User.max_quality u = "360p") ∨
  (User.subscription_tier u = "BASIC" ∧ User.max_quality u = "480p") ∨
  (User.subscription_tier u = "PREMIUM" ∧ User.max_quality u = "720p") ∨
  (User.subscription_tier u = "ULTRA" ∧ User.max_quality u = "1080p") ∨
  (User.quality_map !! User.subscription_tier u = None ∧ User.max_quality u = "360p").
Proof.
  unfold User.max_quality, User.quality_map, User.SubscriptionTier.FREE,
    User.SubscriptionTier.BASIC, User.SubscriptionTier.PREMIUM,
    User.SubscriptionTier.ULTRA.
  destruct (decide (User.subscription_tier u = "FREE")) as [->|?];
    [left; by rewrite lookup_insert_eq|].
  rewrite lookup_insert_ne by done.
  destruct (decide (User.subscription_tier u = "BASIC")) as [->|?];
    [right; left; by rewrite lookup_insert_eq|].
  rewrite lookup_insert_ne by done.
  destruct (decide (User.subscription_tier u = "PREMIUM")) as [->|?];
    [right; right; left; by rewrite lookup_insert_eq|].
  rewrite lookup_insert_ne by done.
  destruct (decide (User.subscription_tier u = "ULTRA")) as [->|?];
    [right; right; right; left; by rewrite lookup_insert_eq|].
  rewrite lookup_insert_ne by done.
  right; right; right; right. by rewrite lookup_empty.
Qed.

Lemma max_quality_in_hierarchy (u : User.t) :
  ∃ j, index User.quality_hierarchy (User.max_quality u) = Ok j.
Proof.
  destruct (max_quality_cases u) as [[_ ->]|[[_ ->]|[[_ ->]|[[_ ->]|[_ ->]]]]];
    vm_compute; eauto.
Qed.

(** The first [index] of [can_watch_quality] never raises: the method always
    returns a boolean. *)
Lemma can_watch_quality_returns (u : User.t) (q : string) :
  ∃ b, User.can_watch_quality u q = Ok b.
Proof.
  unfold User.can_watch_quality.
  destruct (max_quality_in_hierarchy u) as [j ->].
  cbv beta iota delta [mbind outcome_bind].
  destruct (index User.quality_hierarchy q) as [i|e] eqn:Hq.
  - by eexists.
  - apply index_Raise in Hq as [-> _]. by eexists.
Qed.

(** C8. [max_quality] is the fixed table [FREE] to [360p], [BASIC] to
    [480p], [PREMIUM] to [720p], [ULTRA] to [1080p]; [can_watch_quality]
    always returns, and returns [True] exactly when the quality has a
    position in [360p, 480p, 720p, 1080p] that is at most the position of the
    user's [max_quality]; for a label that is not in the list it returns
    [False]. In particular a [FREE] user may not watch [720p] and an [ULTRA]
    user may watch [1080p]. *)
Theorem can_watch_quality_tier_table (u : User.t) (q : string) :
  (User.subscription_tier u = User.SubscriptionTier.FREE → User.max_quality u = "360p")
  ∧ (User.subscription_tier u = User.SubscriptionTier.BASIC → User.max_quality u = "480p")
  ∧ (User.subscription_tier u = User.SubscriptionTier.PREMIUM → User.max_quality u = "720p")
  ∧ (User.subscription_tier u = User.SubscriptionTier.ULTRA → User.max_quality u = "1080p")
  ∧ (∃ b, User.can_watch_quality u q = Ok b
          ∧ (b = true ↔ ∃ i j : nat, User.quality_hierarchy !! i = Some q
                          ∧ User.quality_hierarchy !! j = Some (User.max_quality u)
                          ∧ (i ≤ j)%nat)
          ∧ (q ∉ User.quality_hierarchy → b = false))
  ∧ (User.subscription_tier u = User.SubscriptionTier.FREE →
     User.can_watch_quality u "720p" = Ok false)
  ∧ (User.subscription_tier u = User.SubscriptionTier.ULTRA →
     User.can_watch_quality u "1080p" = Ok true).
Proof.
  assert (Htab : ∀ tier, User.subscription_tier u = tier →
            User.max_quality u = default "360p" (User.quality_map !! tier)).
  { by intros tier <-. }
  split_and!; try (intros H; by rewrite (Htab _ H)).
  - unfold User.can_watch_quality.
    destruct (max_quality_in_hierarchy u) as [j Hj]. rewrite Hj.
    cbv beta iota delta [mbind outcome_bind].
    pose proof (index_Ok _ _ _ Hj) as Hj'.
    destruct (index User.quality_hierarchy q) as [i|e] eqn:Hq.
    + pose proof (index_Ok _ _ _ Hq) as Hi'.
      eexists; split; [done|]. split.
      * rewrite bool_decide_eq_true. split; [by eauto|].
        intros (i' & j' & Hi2 & Hj2 & Hle).
        rewrite (index_NoDup _ _ _ quality_hierarchy_NoDup Hi2) in Hq.
        rewrite (index_NoDup _ _ _ quality_hierarchy_NoDup Hj2) in Hj.
        by simplify_eq.
      * intros Hnot. exfalso. apply Hnot. by eapply list_elem_of_lookup_2.
    + apply index_Raise in Hq as [-> Hnot].
      exists false. split; [done|]. split; [|done].
      split; [done|]. intros (i & _ & Hi & _). exfalso. apply Hnot.
      by eapply list_elem_of_lookup_2.
  - intros H. unfold User.can_watch_quality. by rewrite (Htab _ H).
  - intros H. unfold User.can_watch_quality. by rewrite (Htab _ H).
Qed.

(** ** Viewer counts *)

Lemma count_viewers_current (delta : Z) (s : Stream.t) :
  Stream.current_viewers (Stream.count_viewers delta s)
  = Z.max 0 (Stream.current_viewers s + delta).
Proof. unfold Stream.count_viewers. by case_bool_decide. Qed.

Lemma count_viewers_peak (delta : Z) (s : Stream.t) :
  Stream.peak_viewers (Stream.count_viewers delta s)
  = Z.max (Stream.peak_viewers s) (Z.max 0 (Stream.current_viewers s + delta)).
Proof. unfold Stream.count_viewers. case_bool_decide; simpl in *; lia. Qed.

(** The columns [save(update_fields=...)] copies are the only ones
    [count_viewers] changed, so the row it leaves is the instance. *)
Lemma count_viewers_columns (delta : Z) (s : Stream.t) :
  Stream.set_peak_viewers (Stream.peak_viewers (Stream.count_viewers delta s))
    (Stream.set_current_viewers
       (Stream.current_viewers (Stream.count_viewers delta s)) s)
  = Stream.count_viewers delta s.
Proof. unfold Stream.count_viewers. destruct s. by case_bool_decide. Qed.

Lemma update_viewer_count_run (pk : Z) (s : Stream.t) (delta : Z) (w : World) :
  streams w !! pk = Some s →
  update_viewer_count (pk, s) delta w
  = (Ok (pk, Stream.count_viewers delta s),
     set_streams (<[pk := Stream.count_viewers delta s]> (streams w)) w).
Proof.
  intros Hs. unfold update_viewer_count, Stream_save_viewers. run_M.
  f_equal. unfold set_streams. f_equal. apply map_eq. intros k.
  destruct (decide (k = pk)) as [->|Hk].
  - by rewrite lookup_alter_eq, lookup_insert_eq, Hs; simpl; rewrite count_viewers_columns.
  - by rewrite lookup_alter_ne, lookup_insert_ne.
Qed.

Lemma highest_max (x y : Z) (l : list Z) :
  highest (Z.max x y) l = Z.max x (highest y l).
Proof. unfold highest. induction l; simpl; lia. Qed.

Lemma update_viewer_counts_run (deltas : list Z) (pk : Z) (s : Stream.t) (w : World) :
  streams w !! pk = Some s →
  ∃ s' w',
    update_viewer_counts (pk, s) deltas w = (Ok (pk, s'), w')
    ∧ streams w' !! pk = Some s'
    ∧ Forall (fun c => 0 ≤ c) (viewers_after s deltas)
    ∧ last (Stream.current_viewers s :: viewers_after s deltas)
      = Some (Stream.current_viewers s')
    ∧ Stream.peak_viewers s' = highest (Stream.peak_viewers s) (viewers_after s deltas).
Proof.
  revert s w. induction deltas as [|d ds IH]; intros s w Hs.
  - exists s, w. by split_and!.
  - simpl. run_M. rewrite (update_viewer_count_run _ _ _ _ Hs).
    destruct (IH (Stream.count_viewers d s)
                (set_streams (<[pk := Stream.count_viewers d s]> (streams w)) w))
      as (s' & w' & Hrun & Hrow & Hpos & Hcur & Hpeak).
    { simpl. apply lookup_insert_eq. }
    exists s', w'. split_and!; try done.
    + constructor; [|done]. rewrite count_viewers_current. lia.
    + rewrite Hpeak, count_viewers_peak, <-count_viewers_current.
      rewrite Z.max_comm. apply highest_max.
Qed.

Lemma highest_ge (x y : Z) (l : list Z) : y ∈ x :: l → y ≤ highest x l.
Proof.
  unfold highest. induction l as [|z l IH]; simpl.
  - rewrite elem_of_cons, elem_of_nil. intros [->|[]]. lia.
  - rewrite !elem_of_cons. intros [->|[->|Hy]].
    + assert (x ≤ foldr Z.max x l) by (apply IH; left). lia.
    + lia.
    + assert (y ≤ foldr Z.max x l) by (apply IH; by right). lia.
Qed.

(** C2. Starting from a stream with no viewers and no peak, after any finite
    sequence of [update_viewer_count] calls with arbitrary integer deltas the
    calls have all returned, the row of the stream holds the counters of the
    instance, every value [current_viewers] took is at least [0], and
    [peak_viewers] is the greatest value [current_viewers] has taken, the
    initial one included; hence [current_viewers ≤ peak_viewers]. The
    statement holds of every sequence, so of every prefix of a sequence:
    after each call. *)
Theorem update_viewer_count_peak (deltas : list Z) (pk : Z) (s0 : Stream.t) (w : World) :
  streams w !! pk = Some s0 →
  Stream.current_viewers s0 = 0 →
  Stream.peak_viewers s0 = 0 →
  ∃ s w',
    update_viewer_counts (pk, s0) deltas w = (Ok (pk, s), w')
    ∧ streams w' !! pk = Some s
    ∧ Forall (fun c => 0 ≤ c) (Stream.current_viewers s0 :: viewers_after s0 deltas)
    ∧ last (Stream.current_viewers s0 :: viewers_after s0 deltas)
      = Some (Stream.current_viewers s)
    ∧ 0 ≤ Stream.current_viewers s
    ∧ Stream.peak_viewers s
      = highest (Stream.current_viewers s0) (viewers_after s0 deltas)
    ∧ Stream.current_viewers s ≤ Stream.peak_viewers s.
Proof.
  intros Hrow Hcur Hpeak.
  destruct (update_viewer_counts_run deltas pk s0 w Hrow)
    as (s & w' & Hrun & Hrow' & Hpos & Hlast & Hhigh).
  assert (Hall : Forall (fun c => 0 ≤ c)
                   (Stream.current_viewers s0 :: viewers_after s0 deltas)).
  { constructor; [lia|done]. }
  assert (Hin : Stream.current_viewers s
                ∈ Stream.current_viewers s0 :: viewers_after s0 deltas).
  { by apply last_Some_elem_of. }
  assert (Hh : Stream.peak_viewers s
               = highest (Stream.current_viewers s0) (viewers_after s0 deltas)).
  { by rewrite Hhigh, Hpeak, Hcur. }
  exists s, w'. split_and!; try done.
  - by apply (proj1 (Forall_forall _ _) Hall).
  - rewrite Hh. by apply highest_ge.
Qed.

(** ** Signed URLs *)

Lemma expiry_whole_seconds (t expires_in : Z) :
  expiry (t * 1000000) expires_in = t + expires_in.
Proof.
  unfold expiry. rewrite <-Z.mul_add_distr_r. apply Z.quot_mul. lia.
Qed.

(** C9. [generate_signed_url] returns, consuming one clock reading, the URL
    [base/path?md5=signature&expires=expires], where [path] is
    [stream_key/master.m3u8] for the quality [auto] and
    [stream_key/quality/playlist.m3u8] otherwise, [expires] is the reading in
    seconds plus [expires_in], truncated to an integer, and [signature] is the
    digest of the concatenation of [expires], [path] and the secret key. When
    the reading is the whole second [t], [expires] is [t + expires_in]; for
    the key [abc], the quality [720p] and [3600] seconds the path is
    [abc/720p/playlist.m3u8] and [expires] is [t + 3600]. *)
Theorem generate_signed_url_spec (md5_hexdigest : string → string)
    (HLS_BASE_URL HLS_SECRET_KEY : string) (self : Stream.t) (user : User.t)
    (quality : string) (expires_in : Z) (w : World) :
  let path := if decide (quality = "auto")
              then Stream.stream_key self +:+ "/master.m3u8"
              else Stream.stream_key self +:+ "/" +:+ quality +:+ "/playlist.m3u8" in
  let expires := expiry (clock w (reads w)) expires_in in
  let signature := md5_hexdigest (pretty expires +:+ path +:+ HLS_SECRET_KEY) in
  generate_signed_url md5_hexdigest HLS_BASE_URL HLS_SECRET_KEY self user
    quality expires_in w
  = (Ok (HLS_BASE_URL +:+ "/" +:+ path +:+ "?md5=" +:+ signature
           +:+ "&expires=" +:+ pretty expires), tick w)
  ∧ (∀ t, clock w (reads w) = t * 1000000 → expires = t + expires_in)
  ∧ (∀ t, clock w (reads w) = t * 1000000 →
     Stream.stream_key self = "abc" → quality = "720p" → expires_in = 3600 →
     path = "abc/720p/playlist.m3u8" ∧ expires = t + 3600).
Proof.
  intros path expires signature.
  assert (Hexp : ∀ t, clock w (reads w) = t * 1000000 → expires = t + expires_in).
  { intros t Hclock. subst expires. rewrite Hclock. apply expiry_whole_seconds. }
  split_and!; [done|done|].
  intros t Hclock Hkey Hq He. split.
  - subst path. by rewrite Hkey, Hq.
  - rewrite <-He. by apply Hexp.
Qed.

(** ** Primary keys *)

Lemma next_pk_above {A : Type} (table : gmap Z A) (k : Z) :
  is_Some (table !! k) → k < next_pk table.
Proof.
  unfold next_pk.
  apply (map_fold_weak_ind
           (fun r (m : gmap Z A) => is_Some (m !! k) → k < 1 + r)).
  - rewrite lookup_empty. by intros [? ?].
  - intros i x m r Hi IH. rewrite lookup_insert.
    case_decide as Hik; [subst; lia|]. intros Hk. specialize (IH Hk). lia.
Qed.

Lemma next_pk_fresh {A : Type} (table : gmap Z A) : table !! next_pk table = None.
Proof.
  destruct (table !! next_pk table) as [x|] eqn:Hx; [|done].
  assert (next_pk table < next_pk table) by (apply next_pk_above; eauto). lia.
Qed.

(** ** Playback URLs *)

Lemma get_object_or_404_inv {A : Type} (queryset : gmap Z A) (pk : Z) (w : World)
    (o : outcome (Z * A)) (w' : World) :
  get_object_or_404 queryset pk w = (o, w') →
  w' = w ∧ match o with
           | Ok obj => obj.1 = pk ∧ queryset !! pk = Some obj.2
           | Raise e => e = Http404 ∧ queryset !! pk = None
           end.
Proof.
  unfold get_object_or_404. destruct (queryset !! pk) as [row|]; run_M;
    intros [= <- <-]; by split.
Qed.

Lemma StreamViewSet_get_object_inv (request : Request) (pk : Z) (w : World)
    (o : outcome (Z * Stream.t)) (w' : World) :
  StreamViewSet.get_object request pk w = (o, w') →
  w' = w ∧ match o with
           | Ok obj => obj.1 = pk ∧ streams w !! pk = Some obj.2
           | Raise e => e = Http404
           end.
Proof.
  unfold StreamViewSet.get_object, StreamViewSet.get_queryset. run_M.
  destruct (query_status request) as [status_filter|]; [case_decide|];
    intros Hrun; apply get_object_or_404_inv in Hrun as [-> Hrun]; split; try done;
    destruct o as [obj|e]; try tauto.
  destruct Hrun as [? Hrun]. apply map_lookup_filter_Some in Hrun. tauto.
Qed.

Lemma ViewSession_objects_create_inv (user stream : Z)
    (session_id device_type quality : string) (ip : option string)
    (user_agent : string) (w : World) (o : outcome (Z * ViewSession.t)) (w' : World) :
  ViewSession_objects_create user stream session_id device_type quality ip
    user_agent w = (o, w') →
  match o with
  | Ok obj =>
      ∃ ipv, ip = Some ipv ∧ ipv ≠ ""
        ∧ map_Forall (fun _ s => ViewSession.session_id s ≠ session_id) (sessions w)
        ∧ is_Some (users w !! user) ∧ is_Some (streams w !! stream)
        ∧ obj = (next_pk (sessions w),
                 ViewSession.mk user stream session_id device_type quality ipv
                   user_agent "" (clock w (reads w)) (clock w (S (reads w)))
                   None 0 0 0 0 0)
        ∧ w' = set_sessions (<[obj.1 := obj.2]> (sessions w)) (tick (tick w))
  | Raise e => e = IntegrityError ∧ w' = tick (tick w)
  end.
Proof.
  unfold ViewSession_objects_create, timezone_now, insert_session. run_M.
  case_bool_decide as Hok; intros [= <- <-]; [|done].
  destruct Hok as (Hip & Hip' & Huniq & Huser & Hstream).
  destruct ip as [ipv|]; [|done].
  exists ipv. split_and!; try done. by intros ->.
Qed.

Section PlaybackProperties.

Variable md5_hexdigest : string → string.
Variable HLS_BASE_URL : string.
Variable HLS_SECRET_KEY : string.

Local Abbreviation get_playback_url :=
  (StreamViewSet.get_playback_url md5_hexdigest HLS_BASE_URL HLS_SECRET_KEY).

Lemma get_playback_url_offline (request : Request) (pk : Z) (uuid : string)
    (w : World) (stream : Z * Stream.t) :
  StreamViewSet.get_object request pk w = (Ok stream, w) →
  Stream.status stream.2 ≠ Stream.ONLINE →
  get_playback_url request pk uuid w
  = (Ok (mkResponse (ErrorBody "Stream is not currently online") 400), w).
Proof.
  intros Hobj Hst. unfold get_playback_url, StreamViewSet.get_playback_url.
  run_M. rewrite Hobj. by rewrite bool_decide_eq_true_2.
Qed.

Lemma get_playback_url_forbidden (request : Request) (pk : Z) (uuid : string)
    (w : World) (stream : Z * Stream.t) :
  StreamViewSet.get_object request pk w = (Ok stream, w) →
  Stream.status stream.2 = Stream.ONLINE →
  default "auto" (data_quality request) ≠ "auto" →
  User.can_watch_quality (req_user request).2 (default "auto" (data_quality request))
  = Ok false →
  get_playback_url request pk uuid w
  = (Ok (mkResponse
           (ForbiddenBody
              ("Your subscription does not allow "
                 +:+ default "auto" (data_quality request) +:+ " quality")
              (User.max_quality (req_user request).2)) 403), w).
Proof.
  intros Hobj Hst Hq Hcan. unfold get_playback_url, StreamViewSet.get_playback_url.
  run_M. rewrite Hobj. rewrite bool_decide_eq_false_2 by (by intros []).
  rewrite (bool_decide_eq_true_2 _ Hq). run_M. by rewrite Hcan.
Qed.

Lemma start_session_run (request : Request) (pk : Z) (uuid : string)
    (row : Stream.t) (w : World) (resp : Response) (w' : World) :
  let quality := default "auto" (data_quality request) in
  let user := req_user request in
  streams w !! pk = Some row →
  (signed_url ← generate_signed_url md5_hexdigest HLS_BASE_URL HLS_SECRET_KEY
                  row user.2 quality 3600;
   _ ← ViewSession_objects_create user.1 pk uuid
         (default "unknown" (data_device_type request)) quality
         (StreamViewSet.get_client_ip request) (default "" (HTTP_USER_AGENT request));
   stream ← update_viewer_count (pk, row) 1;
   mret (mkResponse
           (PlaybackBody signed_url uuid quality
              (Stream.available_qualities stream.2) 3600)
           HTTP_200_OK)) w = (Ok resp, w') →
  map_Forall (fun _ s => ViewSession.session_id s ≠ uuid) (sessions w)
  ∧ (∃ url ip,
       StreamViewSet.get_client_ip request = Some ip
       ∧ resp = mkResponse
                  (PlaybackBody url uuid quality
                     (Stream.available_qualities row) 3600) 200
       ∧ sessions w'
         = <[next_pk (sessions w) :=
               ViewSession.mk user.1 pk uuid
                 (default "unknown" (data_device_type request)) quality ip
                 (default "" (HTTP_USER_AGENT request)) ""
                 (clock w (S (reads w))) (clock w (S (S (reads w))))
                 None 0 0 0 0 0]> (sessions w))
  ∧ streams w' = <[pk := Stream.count_viewers 1 row]> (streams w)
  ∧ users w' = users w
  ∧ clock w' = clock w
  ∧ reads w' = S (S (S (reads w))).
Proof.
  intros quality user Hrow. run_M.
  unfold generate_signed_url, timezone_now at 1. run_M.
  destruct (ViewSession_objects_create _ _ _ _ _ _ _ (tick w)) as [[obj|e] w1] eqn:Hcreate;
    [|done].
  apply ViewSession_objects_create_inv in Hcreate
    as (ip & Hip & _ & Huniq & _ & _ & -> & ->).
  rewrite (update_viewer_count_run pk row 1) by done.
  intros [= <- <-]. split_and!; try done.
  eexists. exists ip. split_and!; try done.
  unfold Stream.count_viewers. by case_bool_decide.
Qed.

Lemma get_playback_url_inv (request : Request) (pk : Z) (uuid : string)
    (w : World) (resp : Response) (w' : World) :
  get_playback_url request pk uuid w = (Ok resp, w') →
  let quality := default "auto" (data_quality request) in
  let user := req_user request in
  ∃ row,
    StreamViewSet.get_object request pk w = (Ok (pk, row), w)
    ∧ streams w !! pk = Some row
    ∧ ((Stream.status row ≠ Stream.ONLINE ∧ status_code resp = 400 ∧ w' = w)
       ∨ (Stream.status row = Stream.ONLINE ∧ quality ≠ "auto"
          ∧ User.can_watch_quality user.2 quality = Ok false
          ∧ status_code resp = 403 ∧ w' = w)
       ∨ (Stream.status row = Stream.ONLINE
          ∧ (quality = "auto" ∨ User.can_watch_quality user.2 quality = Ok true)
          ∧ map_Forall (fun _ s => ViewSession.session_id s ≠ uuid) (sessions w)
          ∧ (∃ url ip,
               StreamViewSet.get_client_ip request = Some ip
               ∧ resp = mkResponse
                          (PlaybackBody url uuid quality
                             (Stream.available_qualities row) 3600) 200
               ∧ sessions w'
                 = <[next_pk (sessions w) :=
                       ViewSession.mk user.1 pk uuid
                         (default "unknown" (data_device_type request)) quality ip
                         (default "" (HTTP_USER_AGENT request)) ""
                         (clock w (S (reads w))) (clock w (S (S (reads w))))
                         None 0 0 0 0 0]> (sessions w))
          ∧ streams w' = <[pk := Stream.count_viewers 1 row]> (streams w)
          ∧ users w' = users w
          ∧ clock w' = clock w
          ∧ reads w' = S (S (S (reads w))))).
Proof.
  unfold get_playback_url, StreamViewSet.get_playback_url. run_M.
  destruct (StreamViewSet.get_object request pk w) as [[[pk' row]|e] w1] eqn:Hobj;
    [|done].
  apply StreamViewSet_get_object_inv in Hobj as Hinv.
  destruct Hinv as [-> [Hpk Hrow]]. simpl in Hpk, Hrow. subst pk'.
  case_bool_decide as Hst; simpl in Hst.
  { intros [= <- <-]. exists row. split_and!; [done|done|]. by left. }
  case_bool_decide as Hq; run_M.
  - destruct (User.can_watch_quality (req_user request).2
                (default "auto" (data_quality request))) as [[|]|e] eqn:Hcan;
      cbn [negb]; [| |done].
    + intros Hrun. apply start_session_run in Hrun; [|done].
      exists row. split_and!; [done|done|]. right; right. tauto.
    + intros [= <- <-]. exists row. split_and!; [done|done|]. right; by left.
  - intros Hrun. apply start_session_run in Hrun; [|done].
    exists row. split_and!; [done|done|]. right; right. tauto.
Qed.

(** C6. When the stream of a playback request is not [ONLINE] the view
    answers 400 "Stream is not currently online"; when it is [ONLINE], the
    requested quality is not [auto] and [can_watch_quality] refuses it, the
    view answers 403 with the user's [max_quality], which is [480p] for a
    [BASIC] user asking for [1080p]. In both cases the world is left as it
    was: no session is created, and no row of a stream or of a user and no
    clock reading is touched. Conversely every answer other than 200 leaves
    the world as it was. *)
Theorem get_playback_url_failure (request : Request) (pk : Z) (uuid : string)
    (w : World) (stream : Z * Stream.t) :
  StreamViewSet.get_object request pk w = (Ok stream, w) →
  let quality := default "auto" (data_quality request) in
  let user := (req_user request).2 in
  (Stream.status stream.2 ≠ Stream.ONLINE →
   get_playback_url request pk uuid w
   = (Ok (mkResponse (ErrorBody "Stream is not currently online")
            HTTP_400_BAD_REQUEST), w))
  ∧ (Stream.status stream.2 = Stream.ONLINE →
     quality ≠ "auto" →
     User.can_watch_quality user quality = Ok false →
     get_playback_url request pk uuid w
     = (Ok (mkResponse
              (ForbiddenBody
                 ("Your subscription does not allow " +:+ quality +:+ " quality")
                 (User.max_quality user))
              HTTP_403_FORBIDDEN), w))
  ∧ (User.subscription_tier user = User.SubscriptionTier.BASIC →
     quality = "1080p" →
     quality ≠ "auto" ∧ User.can_watch_quality user quality = Ok false
     ∧ User.max_quality user = "480p")
  ∧ (∀ resp w', get_playback_url request pk uuid w = (Ok resp, w') →
                status_code resp ≠ HTTP_200_OK → w' = w).
Proof.
  intros Hobj quality user. split_and!.
  - by apply get_playback_url_offline.
  - by apply get_playback_url_forbidden.
  - intros Htier Hq. rewrite Hq. unfold User.can_watch_quality, User.max_quality.
    by rewrite Htier.
  - intros resp w' Hrun Hcode. apply get_playback_url_inv in Hrun
      as (row & _ & _ & [(_ & _ & ->)|[(_ & _ & _ & _ & ->)|Hok]]); try done.
    destruct Hok as (_ & _ & _ & (url & ip & _ & -> & _) & _). done.
Qed.

(** C5, as the code has it. [can_watch_quality] answers [False] for [auto]
    whatever the tier, [auto] not being in the hierarchy; the quality [auto]
    is permitted all the same, by the guard of [get_playback_url], which does
    not consult [can_watch_quality] for it: a request for [auto] (or with no
    quality, which means [auto]) is never answered 403, and is answered 200
    whenever the stream is [ONLINE] and the view returns. *)
Theorem auto_quality_permitted (u : User.t) (request : Request) (pk : Z)
    (uuid : string) (w : World) (resp : Response) (w' : World) :
  default "auto" (data_quality request) = "auto" →
  get_playback_url request pk uuid w = (Ok resp, w') →
  User.can_watch_quality u "auto" = Ok false
  ∧ status_code resp ≠ HTTP_403_FORBIDDEN
  ∧ (∀ row, streams w !! pk = Some row → Stream.status row = Stream.ONLINE →
            status_code resp = HTTP_200_OK).
Proof.
  intros Hq Hrun. split.
  - destruct (can_watch_quality_returns u "auto") as [b Hb].
    unfold User.can_watch_quality in *.
    destruct (max_quality_in_hierarchy u) as [j Hj]. by rewrite Hj in *.
  - apply get_playback_url_inv in Hrun
      as (row & _ & Hrow & [(Hst & -> & _)|[(_ & Hq' & _)|Hok]]); try done.
    + split; [done|]. intros row' Hrow' Hst'. by simplify_eq.
    + destruct Hok as (_ & _ & _ & (url & ip & _ & -> & _) & _). done.
Qed.

(** C3, as the code has it. A playback request answered 200 has created
    exactly one session: under a primary key not in use, with the drawn
    [session_id], which no session had before (the column is unique), active
    ([ended_at] null, the counters at their defaults), for the requesting
    user and the requested stream and quality; [update_viewer_count(1)] has
    been applied to the row of the stream, so that [current_viewers] and
    [peak_viewers] are updated and every other column, [total_views]
    included, is as before; no other stream and no user is changed. *)
Theorem get_playback_url_success (request : Request) (pk : Z) (uuid : string)
    (w : World) (resp : Response) (w' : World) :
  get_playback_url request pk uuid w = (Ok resp, w') →
  status_code resp = HTTP_200_OK →
  ∃ row session,
    streams w !! pk = Some row
    ∧ sessions w !! next_pk (sessions w) = None
    ∧ (∀ k s, sessions w !! k = Some s → ViewSession.session_id s ≠ uuid)
    ∧ sessions w' = <[next_pk (sessions w) := session]> (sessions w)
    ∧ ViewSession.session_id session = uuid
    ∧ ViewSession.ended_at session = None
    ∧ ViewSession.watch_duration session = 0
    ∧ ViewSession.data_consumed session = 0
    ∧ ViewSession.user session = (req_user request).1
    ∧ ViewSession.stream session = pk
    ∧ ViewSession.quality session = default "auto" (data_quality request)
    ∧ (∃ url qualities expires_in,
         body resp = PlaybackBody url uuid (ViewSession.quality session)
                       qualities expires_in)
    ∧ streams w' = <[pk := Stream.count_viewers 1 row]> (streams w)
    ∧ Stream.current_viewers (Stream.count_viewers 1 row)
      = Z.max 0 (Stream.current_viewers row + 1)
    ∧ Stream.peak_viewers (Stream.count_viewers 1 row)
      = Z.max (Stream.peak_viewers row) (Z.max 0 (Stream.current_viewers row + 1))
    ∧ Stream.total_views (Stream.count_viewers 1 row) = Stream.total_views row
    ∧ Stream.set_peak_viewers (Stream.peak_viewers row)
        (Stream.set_current_viewers (Stream.current_viewers row)
           (Stream.count_viewers 1 row)) = row
    ∧ users w' = users w.
Proof.
  intros Hrun Hcode. apply get_playback_url_inv in Hrun
    as (row & _ & Hrow & [(_ & Hc & _)|[(_ & _ & _ & Hc & _)|Hok]]);
    [by rewrite Hc in Hcode|by rewrite Hc in Hcode|].
  destruct Hok as (Hst & _ & Huniq & (url & ip & _ & -> & Hs) & Hstreams & Husers & _).
  eexists row, _. split_and!; try done.
  - apply next_pk_fresh.
  - by eexists _, _, _.
  - apply count_viewers_current.
  - apply count_viewers_peak.
  - unfold Stream.count_viewers. by case_bool_decide.
  - unfold Stream.count_viewers. destruct row. by case_bool_decide.
Qed.

End PlaybackProperties.

(** ** Ending a session *)

Lemma alter_lookup_insert {A : Type} (f : A → A) (k : Z) (x : A) (m : gmap Z A) :
  m !! k = Some x → alter f k m = <[k := f x]> m.
Proof.
  intros Hk. apply map_eq. intros i. destruct (decide (i = k)) as [->|Hi].
  - by rewrite lookup_alter_eq, lookup_insert_eq, Hk.
  - by rewrite lookup_alter_ne, lookup_insert_ne.
Qed.

Lemma end_session_ended (pk : Z) (s : ViewSession.t) (w : World) :
  is_Some (ViewSession.ended_at s) → end_session (pk, s) w = (Ok (pk, s), w).
Proof. intros [t Ht]. unfold end_session. simpl. by rewrite Ht. Qed.

Lemma end_session_active (pk : Z) (s : ViewSession.t) (w : World)
    (row : Stream.t) (u : User.t) :
  ViewSession.ended_at s = None →
  streams w !! ViewSession.stream s = Some row →
  users w !! ViewSession.user s = Some u →
  let now := clock w (reads w) in
  let s' := ended_session now (clock w (S (reads w))) s in
  end_session (pk, s) w
  = (Ok (pk, s'),
     mkWorld
       (<[ViewSession.stream s := Stream.count_viewers (-1) row]> (streams w))
       (<[ViewSession.user s := charged_user s' u]> (users w))
       (<[pk := s']> (sessions w))
       (clock w) (S (S (reads w)))).
Proof.
  intros Hactive Hrow Hu now s'. unfold end_session. cbn [fst snd]. rewrite Hactive.
  unfold ViewSession_save, timezone_now, write_session, ViewSession_stream,
    ViewSession_user, User_save_usage. run_M. cbn -[lookup insert alter].
  rewrite Hrow. unfold update_viewer_count, Stream_save_viewers. run_M.
  cbn -[lookup insert alter]. rewrite Hu. cbn -[lookup insert alter].
  unfold set_users, set_streams. cbn -[lookup insert alter].
  rewrite (alter_lookup_insert _ _ _ _ Hrow), (alter_lookup_insert _ _ _ _ Hu).
  by rewrite count_viewers_columns.
Qed.

(** Which sessions [ViewSessionViewSet.get_queryset] shows to the user of a
    request. *)
Lemma ViewSessionViewSet_get_object_inv (request : Request) (pk : Z) (w : World)
    (o : outcome (Z * ViewSession.t)) (w' : World) :
  ViewSessionViewSet.get_object request pk w = (o, w') →
  w' = w ∧ match o with
           | Ok obj => obj.1 = pk ∧ sessions w !! pk = Some obj.2
                       ∧ visible request obj.2
           | Raise e => e = Http404
                        ∧ ∀ s, sessions w !! pk = Some s → ¬ visible request s
           end.
Proof.
  unfold ViewSessionViewSet.get_object, ViewSessionViewSet.get_queryset, visible.
  run_M. destruct (User.is_staff (req_user request).2) eqn:Hstaff;
    intros Hrun; apply get_object_or_404_inv in Hrun as [-> Hrun]; split; try done;
    destruct o as [obj|e].
  - destruct Hrun as [? Hrun]. split_and!; try done. by left.
  - destruct Hrun as [-> Hrun]. split; [done|]. intros s Hs. by rewrite Hs in Hrun.
  - destruct Hrun as [? Hrun]. apply map_lookup_filter_Some in Hrun as [? ?].
    split_and!; try done. by right.
  - destruct Hrun as [-> Hrun]. split; [done|]. intros s Hs [Hf|Hv]; [done|].
    assert (Hin : filter (fun kv : Z * ViewSession.t =>
                     ViewSession.user kv.2 = (req_user request).1) (sessions w)
                  !! pk = Some s) by (by apply map_lookup_filter_Some).
    by rewrite Hin in Hrun.
Qed.

Lemma ViewSessionViewSet_get_object_visible (request : Request) (pk : Z)
    (w : World) (s : ViewSession.t) :
  sessions w !! pk = Some s → visible request s →
  ViewSessionViewSet.get_object request pk w = (Ok (pk, s), w).
Proof.
  intros Hs Hv.
  destruct (ViewSessionViewSet.get_object request pk w) as [o w'] eqn:Hrun.
  apply ViewSessionViewSet_get_object_inv in Hrun as [-> Hrun].
  destruct o as [[pk' s']|e].
  - destruct Hrun as (Hpk & Hs' & _). simpl in *. by simplify_eq.
  - destruct Hrun as [_ Hno]. by destruct (Hno s Hs).
Qed.

Lemma end_session_Ok (pk : Z) (s : ViewSession.t) (w : World)
    (obj : Z * ViewSession.t) (w1 : World) :
  end_session (pk, s) w = (Ok obj, w1) →
  ViewSession.ended_at s = None →
  ∃ row u, streams w !! ViewSession.stream s = Some row
           ∧ users w !! ViewSession.user s = Some u.
Proof.
  intros Hrun Hactive.
  destruct (streams w !! ViewSession.stream s) as [row|] eqn:Hrow;
    destruct (users w !! ViewSession.user s) as [u|] eqn:Hu; [by eauto|exfalso..];
    revert Hrun; unfold end_session; cbn [fst snd]; rewrite Hactive;
    unfold ViewSession_save, timezone_now, write_session, ViewSession_stream,
      ViewSession_user, User_save_usage, update_viewer_count, Stream_save_viewers;
    run_M; cbn -[lookup insert alter]; rewrite Hrow; run_M;
    cbn -[lookup insert alter]; rewrite ?Hu; done.
Qed.

(** C1. Ending a session is idempotent. For a session that is already
    ended, the view [end] answers with the stored [watch_duration] and
    [data_consumed] and leaves the world exactly as it was: no row of a
    session, of a stream or of a user and no clock reading changes. Hence,
    whenever a first call has returned, a second call returns the same answer
    and changes nothing; and when the first call found the session active, it
    is this call alone that applied [update_viewer_count(-1)] to the stream
    and added the duration and the data to the user. *)
Theorem end_session_idempotent (request : Request) (pk : Z) (w : World) :
  (∀ s, sessions w !! pk = Some s → visible request s →
        is_Some (ViewSession.ended_at s) →
        ViewSessionViewSet.end_ request pk w
        = (Ok (mkResponse
                 (EndedBody "ended" (ViewSession.watch_duration s)
                    (ViewSession.data_consumed s)) HTTP_200_OK), w))
  ∧ (∀ resp w1,
       ViewSessionViewSet.end_ request pk w = (Ok resp, w1) →
       ViewSessionViewSet.end_ request pk w1 = (Ok resp, w1)
       ∧ (∃ s1, sessions w1 !! pk = Some s1
                ∧ is_Some (ViewSession.ended_at s1)
                ∧ resp = mkResponse
                           (EndedBody "ended" (ViewSession.watch_duration s1)
                              (ViewSession.data_consumed s1)) HTTP_200_OK
                ∧ ∀ s, sessions w !! pk = Some s → ViewSession.ended_at s = None →
                    ∃ row u,
                      streams w !! ViewSession.stream s = Some row
                      ∧ users w !! ViewSession.user s = Some u
                      ∧ streams w1
                        = <[ViewSession.stream s := Stream.count_viewers (-1) row]>
                            (streams w)
                      ∧ users w1
                        = <[ViewSession.user s := charged_user s1 u]> (users w))).
Proof.
  assert (Hended : ∀ w s, sessions w !! pk = Some s → visible request s →
            is_Some (ViewSession.ended_at s) →
            ViewSessionViewSet.end_ request pk w
            = (Ok (mkResponse
                     (EndedBody "ended" (ViewSession.watch_duration s)
                        (ViewSession.data_consumed s)) HTTP_200_OK), w)).
  { intros w0 s Hs Hv He. unfold ViewSessionViewSet.end_. run_M.
    rewrite (ViewSessionViewSet_get_object_visible _ _ _ _ Hs Hv).
    by rewrite (end_session_ended _ _ _ He). }
  split; [by apply Hended|].
  intros resp w1. unfold ViewSessionViewSet.end_ at 1. run_M.
  destruct (ViewSessionViewSet.get_object request pk w) as [[[pk' s]|e] w0] eqn:Hobj;
    [|done].
  apply ViewSessionViewSet_get_object_inv in Hobj as (-> & Hpk & Hs & Hv).
  simpl in Hpk, Hs, Hv. subst pk'.
  destruct (ViewSession.ended_at s) as [t|] eqn:He.
  - rewrite end_session_ended by (by rewrite He). intros [= <- <-].
    split; [apply Hended; by rewrite ?He|].
    exists s. split_and!; [done|by rewrite He|done|]. intros s' Hs' He'.
    simplify_eq.
  - destruct (end_session (pk, s) w) as [[obj|e] w0] eqn:Hrun; [|done].
    destruct (end_session_Ok _ _ _ _ _ Hrun He) as (row & u & Hrow & Hu).
    rewrite (end_session_active _ _ _ _ _ He Hrow Hu) in Hrun.
    injection Hrun as <- <-. cbn [fst snd]. intros [= <- <-].
    set (s1 := ended_session (clock w (reads w)) (clock w (S (reads w))) s).
    split.
    + apply (Hended _ s1); [simpl; apply lookup_insert_eq|done|by eexists].
    + exists s1. split_and!; [simpl; apply lookup_insert_eq|by eexists|done|].
      intros s' Hs' _. simplify_eq. by exists row, u.
Qed.

(** ** Heartbeats *)

(** C4, as the code has it. [heartbeat] does not look at [ended_at]: for
    every session the request may address, ended or not, it answers
    [{status: ok}] and rewrites the row, with [last_heartbeat] set to the
    reading its [save] takes, each of [buffer_count], [quality_switches],
    [data_consumed] and [average_bitrate] set to the value the request gives
    when it gives one and left as it was otherwise, and every other column,
    [ended_at] and [watch_duration] included, left as it was; no stream, no
    user and no other session changes. For a primary key that no session has,
    or that the request may not address, it raises [Http404] and changes
    nothing. *)
Theorem heartbeat_spec (request : Request) (pk : Z) (w : World) :
  (∀ s, sessions w !! pk = Some s → visible request s →
     ∃ s',
       ViewSessionViewSet.heartbeat request pk w
       = (Ok (mkResponse (StatusBody "ok") HTTP_200_OK),
          mkWorld (streams w) (users w) (<[pk := s']> (sessions w))
            (clock w) (S (S (reads w))))
       ∧ ViewSession.last_heartbeat s' = clock w (S (reads w))
       ∧ ViewSession.buffer_count s'
         = default (ViewSession.buffer_count s) (data_buffer_count request)
       ∧ ViewSession.quality_switches s'
         = default (ViewSession.quality_switches s) (data_quality_switches request)
       ∧ ViewSession.data_consumed s'
         = default (ViewSession.data_consumed s) (data_data_consumed request)
       ∧ ViewSession.average_bitrate s'
         = default (ViewSession.average_bitrate s) (data_average_bitrate request)
       ∧ ViewSession.ended_at s' = ViewSession.ended_at s
       ∧ ViewSession.watch_duration s' = ViewSession.watch_duration s
       ∧ ViewSession.started_at s' = ViewSession.started_at s
       ∧ ViewSession.user s' = ViewSession.user s
       ∧ ViewSession.stream s' = ViewSession.stream s
       ∧ ViewSession.session_id s' = ViewSession.session_id s
       ∧ ViewSession.device_type s' = ViewSession.device_type s
       ∧ ViewSession.quality s' = ViewSession.quality s
       ∧ ViewSession.ip_address s' = ViewSession.ip_address s
       ∧ ViewSession.user_agent s' = ViewSession.user_agent s
       ∧ ViewSession.isp_detected s' = ViewSession.isp_detected s)
  ∧ ((∀ s, sessions w !! pk = Some s → ¬ visible request s) →
     ViewSessionViewSet.heartbeat request pk w = (Raise Http404, w)).
Proof.
  split.
  - intros s Hs Hv. eexists. split.
    + unfold ViewSessionViewSet.heartbeat. run_M.
      rewrite (ViewSessionViewSet_get_object_visible _ _ _ _ Hs Hv).
      unfold timezone_now, ViewSession_save, timezone_now, write_session. run_M.
      cbn -[lookup insert alter]. unfold set_sessions.
      cbn -[lookup insert alter]. reflexivity.
    + unfold ViewSessionViewSet.assign.
      destruct (data_buffer_count request), (data_quality_switches request),
        (data_data_consumed request), (data_average_bitrate request);
        by split_and!.
  - intros Hno. unfold ViewSessionViewSet.heartbeat. run_M.
    destruct (ViewSessionViewSet.get_object request pk w) as [[[pk' s]|e] w0] eqn:Hobj;
      apply ViewSessionViewSet_get_object_inv in Hobj as [-> Hobj].
    + destruct Hobj as (_ & Hs & Hv). by destruct (Hno _ Hs).
    + by destruct Hobj as [-> _].
Qed.

(** ** Webhooks *)

Lemma Stream_objects_get_unique (w : World) (key : string) (pk : Z) (row : Stream.t) :
  streams w !! pk = Some row →
  Stream.stream_key row = key →
  (∀ pk' row', streams w !! pk' = Some row' → Stream.stream_key row' = key → pk' = pk) →
  Stream_objects_get (Some key) w = (Ok (pk, row), w).
Proof.
  intros Hrow Hkey Huniq. unfold Stream_objects_get.
  assert (Hfilter : filter (fun kv : Z * Stream.t => Some (Stream.stream_key kv.2) = Some key)
                      (streams w) = {[pk := row]}).
  { apply map_eq. intros k. destruct (decide (k = pk)) as [->|Hk].
    - rewrite lookup_singleton_eq. apply map_lookup_filter_Some. simpl.
      split; [done|]. by rewrite Hkey.
    - rewrite lookup_singleton_ne by done. apply map_lookup_filter_None.
      right. intros row' Hrow' [= Hkey']. simpl in Hkey'.
      by apply Hk, (Huniq k row' Hrow'). }
  by rewrite Hfilter, map_to_list_singleton.
Qed.

Lemma Stream_objects_get_unknown (w : World) (key : option string) :
  (∀ pk row, streams w !! pk = Some row → Some (Stream.stream_key row) ≠ key) →
  Stream_objects_get key w = (Raise (DoesNotExist StreamModel), w).
Proof.
  intros Hno. unfold Stream_objects_get.
  assert (Hfilter : filter (fun kv : Z * Stream.t => Some (Stream.stream_key kv.2) = key)
                      (streams w) = ∅).
  { apply map_eq. intros k. rewrite lookup_empty. apply map_lookup_filter_None.
    right. intros row Hrow. simpl. by apply (Hno k). }
  by rewrite Hfilter, map_to_list_empty.
Qed.

(** C10, as the code has it. For a known stream key, [stream_start] answers
    [{status: ok}] and rewrites the row of the stream with [status] set to
    [ONLINE], [started_at] to the reading it takes, [current_viewers] to [0]
    and, the [save] being a full one, the [auto_now] column [updated_at] to
    the reading of the save; [peak_viewers], [total_views],
    [available_qualities], [ended_at] and every other column are as before,
    and no other stream, no user and no session changes. *)
Theorem stream_start_frame (request : Request) (w : World) (key : string)
    (pk : Z) (row : Stream.t) :
  data_name request = Some key →
  streams w !! pk = Some row →
  Stream.stream_key row = key →
  (∀ pk' row', streams w !! pk' = Some row' → Stream.stream_key row' = key → pk' = pk) →
  ∃ row',
    WebhookViewSet.stream_start request w
    = (Ok (mkResponse (StatusBody "ok") HTTP_200_OK),
       mkWorld (<[pk := row']> (streams w)) (users w) (sessions w)
         (clock w) (S (S (reads w))))
    ∧ Stream.status row' = Stream.ONLINE
    ∧ Stream.started_at row' = Some (clock w (reads w))
    ∧ Stream.current_viewers row' = 0
    ∧ Stream.updated_at row' = clock w (S (reads w))
    ∧ Stream.peak_viewers row' = Stream.peak_viewers row
    ∧ Stream.total_views row' = Stream.total_views row
    ∧ Stream.available_qualities row' = Stream.available_qualities row
    ∧ Stream.ended_at row' = Stream.ended_at row
    ∧ Stream.stream_key row' = Stream.stream_key row
    ∧ Stream.name row' = Stream.name row
    ∧ Stream.description row' = Stream.description row
    ∧ Stream.rtmp_url row' = Stream.rtmp_url row
    ∧ Stream.hls_master_url row' = Stream.hls_master_url row
    ∧ Stream.default_quality row' = Stream.default_quality row
    ∧ Stream.recording_enabled row' = Stream.recording_enabled row
    ∧ Stream.recording_path row' = Stream.recording_path row
    ∧ Stream.thumbnail_url row' = Stream.thumbnail_url row
    ∧ Stream.created_at row' = Stream.created_at row.
Proof.
  intros Hname Hrow Hkey Huniq. eexists. split.
  - unfold WebhookViewSet.stream_start, try_except. rewrite Hname. run_M.
    rewrite (Stream_objects_get_unique _ _ _ _ Hrow Hkey Huniq).
    unfold timezone_now, Stream_save, timezone_now, write_stream. run_M.
    cbn -[lookup insert alter]. unfold set_streams.
    cbn -[lookup insert alter]. reflexivity.
  - by split_and!.
Qed.

(** ** Stopping a stream *)

Lemma count_viewers_idle (row : Stream.t) :
  Stream.current_viewers row = 0 →
  ∃ p, Stream.count_viewers (-1) row = Stream.set_peak_viewers p row
       ∧ (0 ≤ Stream.peak_viewers row → p = Stream.peak_viewers row).
Proof.
  intros Hcur. unfold Stream.count_viewers. destruct row; simpl in *. subst.
  case_bool_decide; simpl in *; eexists; split; try reflexivity; lia.
Qed.

Lemma end_sessions_run (pk : Z) (l : list (Z * ViewSession.t)) (w : World)
    (row : Stream.t) :
  NoDup l.*1 →
  (∀ k s, (k, s) ∈ l →
     sessions w !! k = Some s ∧ ViewSession.stream s = pk
     ∧ ViewSession.ended_at s = None ∧ is_Some (users w !! ViewSession.user s)) →
  streams w !! pk = Some row →
  Stream.current_viewers row = 0 →
  ∃ w',
    for_each l (fun session => _ ← end_session session; mret tt) w = (Ok tt, w')
    ∧ (l = [] → w' = w)
    ∧ (∃ p, streams w' = <[pk := Stream.set_peak_viewers p row]> (streams w)
            ∧ (0 ≤ Stream.peak_viewers row → p = Stream.peak_viewers row))
    ∧ (∀ k, k ∉ l.*1 → sessions w' !! k = sessions w !! k)
    ∧ (∀ k s, (k, s) ∈ l →
         ∃ now saved, sessions w' !! k = Some (ended_session now saved s))
    ∧ (∀ uid u, users w !! uid = Some u →
         ∃ u', users w' !! uid = Some u'
           ∧ User.total_watch_time u'
             = User.total_watch_time u + sum_Z (watched uid (sessions w')) l
           ∧ User.monthly_data_used u'
             = User.monthly_data_used u + sum_Z (consumed uid (sessions w')) l
           ∧ u' = User.set_monthly_data_used (User.monthly_data_used u')
                    (User.set_total_watch_time (User.total_watch_time u') u)).
Proof.
  revert w row. induction l as [|[k s] l IH]; intros w row Hnd Hl Hrow Hcur.
  - exists w. split_and!; try done.
    + exists (Stream.peak_viewers row). split; [|done].
      rewrite insert_id; [done|]. rewrite Hrow. f_equal. by destruct row.
    + intros k s Hin. by apply elem_of_nil in Hin.
    + intros uid u Hu. exists u. unfold sum_Z; simpl.
      split_and!; [done|lia|lia|by destruct u].
  - apply NoDup_cons in Hnd as [Hk Hnd]. simpl in Hk.
    destruct (Hl k s) as (Hs & Hst & Hact & [u0 Hu0]); [left|].
    rewrite <-Hst in Hrow.
    pose proof (end_session_active k s w row u0 Hact Hrow Hu0) as Hrun.
    cbv zeta in Hrun. rewrite Hst in Hrun, Hrow.
    set (s1 := ended_session (clock w (reads w)) (clock w (S (reads w))) s) in *.
    set (w1 := mkWorld _ _ _ _ _) in Hrun.
    destruct (count_viewers_idle row Hcur) as (p1 & Hp1 & Hp1').
    destruct (IH w1 (Stream.count_viewers (-1) row)) as
      (w' & Hloop & _ & (p & Hstreams & Hp) & Hother & Hended & Husers).
    { done. }
    { intros k' s' Hin.
      assert (k' ≠ k).
      { intros ->. apply Hk. apply list_elem_of_fmap. by exists (k, s'). }
      destruct (Hl k' s') as (Hs' & Hst' & Hact' & Hu'); [by right|].
      subst w1; simpl. rewrite lookup_insert_ne by done.
      split_and!; try done. rewrite lookup_insert_is_Some'. by right. }
    { subst w1; simpl. apply lookup_insert_eq. }
    { rewrite count_viewers_current, Hcur. lia. }
    assert (Hk' : sessions w' !! k = Some s1).
    { rewrite Hother by done. subst w1; simpl. apply lookup_insert_eq. }
    exists w'. split_and!.
    + simpl. run_M. by rewrite Hrun.
    + done.
    + exists p. split.
      * rewrite Hstreams. subst w1; simpl. rewrite insert_insert_eq.
        f_equal. rewrite Hp1. by destruct row.
      * intros Hpos. rewrite Hp; rewrite Hp1, (Hp1' Hpos); by destruct row.
    + intros k' Hk'0. rewrite fmap_cons, not_elem_of_cons in Hk'0.
      destruct Hk'0 as [Hne Hnot]. rewrite Hother by done.
      subst w1; simpl. by rewrite lookup_insert_ne.
    + intros k' s' Hin. apply elem_of_cons in Hin as [[= -> ->]|Hin].
      * by eexists _, _.
      * by apply Hended.
    + intros uid u Hu.
      set (u1 := if decide (ViewSession.user s = uid) then charged_user s1 u else u).
      assert (Hu1 : users w1 !! uid = Some u1).
      { subst w1 u1; simpl. case_decide as Huid.
        - subst uid. rewrite lookup_insert_eq. by simplify_eq.
        - by rewrite lookup_insert_ne. }
      destruct (Husers uid u1 Hu1) as (u' & Hu' & Htot & Hdat & Hrest).
      exists u'. split; [done|].
      unfold sum_Z in *. simpl. unfold watched at 1, consumed at 1. simpl.
      rewrite Hk'. simpl. subst u1.
      destruct (decide (ViewSession.user s = uid)) as [Huid|Huid];
        (split_and!; [rewrite Htot; simpl; lia|rewrite Hdat; simpl; lia|]);
        rewrite Hrest; by destruct u.
Qed.

Lemma elem_of_active_on (pk k : Z) (s : ViewSession.t) (table : gmap Z ViewSession.t) :
  (k, s) ∈ active_on pk table
  ↔ table !! k = Some s ∧ ViewSession.stream s = pk ∧ ViewSession.ended_at s = None.
Proof.
  unfold active_on. rewrite elem_of_map_to_list, map_lookup_filter_Some. simpl. tauto.
Qed.

Lemma active_on_keys (pk k : Z) (table : gmap Z ViewSession.t) :
  k ∈ (active_on pk table).*1
  ↔ ∃ s, table !! k = Some s ∧ ViewSession.stream s = pk ∧ ViewSession.ended_at s = None.
Proof.
  rewrite list_elem_of_fmap. split.
  - intros ([k' s] & -> & Hin). exists s. by apply elem_of_active_on.
  - intros (s & Hs). exists (k, s). split; [done|]. by apply elem_of_active_on.
Qed.

(** C7. For a stream key that one stream has (the column is unique), the
    users of the active sessions of that stream being in the table as the
    foreign key requires, [stream_stop] answers [{status: ok}]; it
    has set [status] to [OFFLINE], [ended_at] to the reading it takes and
    [current_viewers] to [0] in the row of the stream, whatever the row was
    (a stream that never started included), and has then ended every session
    of the stream that was active: each has [ended_at] set and
    [watch_duration] computed from it, no session of the stream is active
    any more, the other sessions are as before, [current_viewers] is still
    [0], and each user's [total_watch_time] and [monthly_data_used] have grown
    by the durations and the data of the user's sessions that were ended.
    With no active session it changes no session and no user. For a key that
    no stream has it answers 404 and changes nothing. *)
Theorem stream_stop_spec (request : Request) (w : World) :
  (∀ key pk row,
     data_name request = Some key →
     streams w !! pk = Some row →
     Stream.stream_key row = key →
     (∀ pk' row', streams w !! pk' = Some row' → Stream.stream_key row' = key →
                  pk' = pk) →
     (∀ k s, sessions w !! k = Some s → ViewSession.stream s = pk →
             ViewSession.ended_at s = None →
             is_Some (users w !! ViewSession.user s)) →
     ∃ w' row',
       WebhookViewSet.stream_stop request w
       = (Ok (mkResponse (StatusBody "ok") HTTP_200_OK), w')
       ∧ streams w' = <[pk := row']> (streams w)
       ∧ Stream.status row' = Stream.OFFLINE
       ∧ Stream.ended_at row' = Some (clock w (reads w))
       ∧ Stream.current_viewers row' = 0
       ∧ (0 ≤ Stream.peak_viewers row →
          Stream.peak_viewers row' = Stream.peak_viewers row)
       ∧ (∀ k s, sessions w !! k = Some s → ViewSession.stream s = pk →
                 ViewSession.ended_at s = None →
                 ∃ now saved, sessions w' !! k = Some (ended_session now saved s))
       ∧ (∀ k s, sessions w !! k = Some s →
                 ¬ (ViewSession.stream s = pk ∧ ViewSession.ended_at s = None) →
                 sessions w' !! k = Some s)
       ∧ (∀ k s', sessions w' !! k = Some s' → ViewSession.stream s' = pk →
                  is_Some (ViewSession.ended_at s'))
       ∧ (∀ uid u, users w !! uid = Some u →
            ∃ u', users w' !! uid = Some u'
              ∧ User.total_watch_time u'
                = User.total_watch_time u
                  + sum_Z (watched uid (sessions w')) (active_on pk (sessions w))
              ∧ User.monthly_data_used u'
                = User.monthly_data_used u
                  + sum_Z (consumed uid (sessions w')) (active_on pk (sessions w))
              ∧ u' = User.set_monthly_data_used (User.monthly_data_used u')
                       (User.set_total_watch_time (User.total_watch_time u') u))
       ∧ (active_on pk (sessions w) = [] →
          sessions w' = sessions w ∧ users w' = users w))
  ∧ ((∀ pk row, streams w !! pk = Some row →
                Some (Stream.stream_key row) ≠ data_name request) →
     WebhookViewSet.stream_stop request w
     = (Ok (mkResponse (ErrorBody "Stream not found") HTTP_404_NOT_FOUND), w)).
Proof.
  split.
  - intros key pk row Hname Hrow Hkey Huniq Hfk.
    set (row2 := Stream.set_updated_at (clock w (S (reads w)))
                   (Stream.set_current_viewers 0
                      (Stream.set_ended_at (Some (clock w (reads w)))
                         (Stream.set_status Stream.OFFLINE row)))).
    set (w2 := mkWorld (<[pk := row2]> (streams w)) (users w) (sessions w)
                 (clock w) (S (S (reads w)))).
    destruct (end_sessions_run pk (active_on pk (sessions w)) w2 row2)
      as (w' & Hloop & Hnil & (p & Hstreams & Hp) & Hother & Hended & Husers).
    { apply NoDup_fst_map_to_list. }
    { intros k s Hin. apply elem_of_active_on in Hin as (Hs & Hst & Hact).
      split_and!; try done. by apply (Hfk k s). }
    { apply lookup_insert_eq. }
    { done. }
    exists w', (Stream.set_peak_viewers p row2). split_and!; try done.
    + unfold WebhookViewSet.stream_stop, try_except. rewrite Hname. run_M.
      rewrite (Stream_objects_get_unique _ _ _ _ Hrow Hkey Huniq).
      unfold timezone_now, Stream_save, timezone_now, write_stream, active_sessions.
      run_M. cbn -[lookup insert alter active_on]. unfold set_streams.
      cbn -[lookup insert alter active_on]. fold row2. fold w2.
      unfold mbind, mret, M_bind, M_ret in Hloop. by rewrite Hloop.
    + rewrite Hstreams. subst w2; simpl. apply insert_insert_eq.
    + intros k s Hs Hst Hact. apply Hended. by apply elem_of_active_on.
    + intros k s Hs Hnot. rewrite Hother; [done|].
      rewrite active_on_keys. intros (s' & Hs' & Hst & Hact).
      subst w2; simpl in *. simplify_eq. tauto.
    + intros k s' Hs' Hst'.
      destruct (sessions w !! k) as [s|] eqn:Hs.
      * destruct (decide (ViewSession.stream s = pk ∧ ViewSession.ended_at s = None))
          as [[Hst Hact]|Hnot].
        -- destruct (Hended k s) as (now & saved & Hk);
             [by apply elem_of_active_on|].
           rewrite Hk in Hs'. injection Hs' as <-. by eexists.
        -- rewrite Hother in Hs'.
           ++ subst w2; simpl in *. simplify_eq.
              destruct (ViewSession.ended_at s') eqn:He; [by eexists|tauto].
           ++ rewrite active_on_keys. intros (s0 & Hs0 & Hst & Hact).
              subst w2; simpl in *. simplify_eq. tauto.
      * rewrite Hother in Hs'; [subst w2; simpl in *; congruence|].
        rewrite active_on_keys. intros (s0 & Hs0 & _). subst w2; simpl in *.
        congruence.
    + intros Hempty. specialize (Hnil Hempty). by subst w'.
  - intros Hno. unfold WebhookViewSet.stream_stop, try_except. run_M.
    by rewrite (Stream_objects_get_unknown _ _ Hno).
Qed.

(** ** Examples *)

Lemma can_watch_quality_tier_table_witness :
  User.max_quality (Sample.user "BASIC") = "480p"
  ∧ User.can_watch_quality (Sample.user "FREE") "720p" = Ok false
  ∧ User.can_watch_quality (Sample.user "ULTRA") "1080p" = Ok true.
Proof.
  split_and!.
  - apply (can_watch_quality_tier_table (Sample.user "BASIC") "360p"). reflexivity.
  - apply (can_watch_quality_tier_table (Sample.user "FREE") "360p"). reflexivity.
  - apply (can_watch_quality_tier_table (Sample.user "ULTRA") "360p"). reflexivity.
Defined.

(** [can_watch_quality] refuses [auto], for a [FREE] user as for any other. *)
Lemma can_watch_quality_auto_counterexample :
  User.can_watch_quality (Sample.user "FREE") "auto" = Ok false
  ∧ User.can_watch_quality (Sample.user "FREE") "auto" ≠ Ok true.
Proof. split; [reflexivity|discriminate]. Qed.

Lemma update_viewer_count_peak_witness :
  ∃ s w',
    update_viewer_counts (1, Sample.stream Stream.ONLINE) [3; -5; 2]
      (Sample.world Stream.ONLINE) = (Ok (1, s), w')
    ∧ streams w' !! 1 = Some s
    ∧ Forall (fun c => 0 ≤ c) [0; 3; 0; 2]
    ∧ last [0; 3; 0; 2] = Some (Stream.current_viewers s)
    ∧ 0 ≤ Stream.current_viewers s
    ∧ Stream.peak_viewers s = 3
    ∧ Stream.current_viewers s ≤ Stream.peak_viewers s.
Proof.
  apply (update_viewer_count_peak [3; -5; 2] 1 (Sample.stream Stream.ONLINE)
           (Sample.world Stream.ONLINE)); reflexivity.
Defined.

Lemma generate_signed_url_spec_witness :
  generate_signed_url Sample.md5_hexdigest "https://cdn" "key"
    (Sample.stream Stream.ONLINE) (Sample.user "BASIC") "720p" 3600
    (Sample.world Stream.ONLINE)
  = (Ok "https://cdn/abc/720p/playlist.m3u8?md5=md5(3605abc/720p/playlist.m3u8key)&expires=3605",
     tick (Sample.world Stream.ONLINE))
  ∧ "abc/720p/playlist.m3u8" = "abc/720p/playlist.m3u8"
  ∧ expiry 5000000 3600 = 5 + 3600.
Proof.
  pose proof (generate_signed_url_spec Sample.md5_hexdigest "https://cdn" "key"
                (Sample.stream Stream.ONLINE) (Sample.user "BASIC") "720p" 3600
                (Sample.world Stream.ONLINE)) as (Hurl & _ & Habc).
  split; [exact Hurl|].
  apply (Habc 5); reflexivity.
Defined.

(** An offline stream is refused with 400, and a [BASIC] user asking for
    [1080p] with 403 and [480p]; the world stays as it was. *)
Lemma get_playback_url_failure_witness :
  StreamViewSet.get_playback_url Sample.md5_hexdigest "https://cdn" "key"
    (Sample.request (Some "1080p") None) 1 "u-1" (Sample.world Stream.OFFLINE)
  = (Ok (mkResponse (ErrorBody "Stream is not currently online") 400),
     Sample.world Stream.OFFLINE)
  ∧ StreamViewSet.get_playback_url Sample.md5_hexdigest "https://cdn" "key"
      (Sample.request (Some "1080p") None) 1 "u-1" (Sample.world Stream.ONLINE)
    = (Ok (mkResponse
             (ForbiddenBody "Your subscription does not allow 1080p quality" "480p")
             403),
       Sample.world Stream.ONLINE).
Proof.
  split.
  - apply (get_playback_url_failure Sample.md5_hexdigest "https://cdn" "key"
             (Sample.request (Some "1080p") None) 1 "u-1"
             (Sample.world Stream.OFFLINE) (1, Sample.stream Stream.OFFLINE));
      [reflexivity|discriminate].
  - apply (get_playback_url_failure Sample.md5_hexdigest "https://cdn" "key"
             (Sample.request (Some "1080p") None) 1 "u-1"
             (Sample.world Stream.ONLINE) (1, Sample.stream Stream.ONLINE));
      [reflexivity|reflexivity|discriminate|reflexivity].
Defined.

Lemma auto_quality_permitted_witness :
  ∃ resp w',
    StreamViewSet.get_playback_url Sample.md5_hexdigest "https://cdn" "key"
      (Sample.request None None) 1 "u-1" (Sample.world Stream.ONLINE)
    = (Ok resp, w')
    ∧ User.can_watch_quality (Sample.user "ULTRA") "auto" = Ok false
    ∧ status_code resp ≠ HTTP_403_FORBIDDEN
    ∧ (∀ row, streams (Sample.world Stream.ONLINE) !! 1 = Some row →
              Stream.status row = Stream.ONLINE → status_code resp = HTTP_200_OK).
Proof.
  eexists _, _. split; [vm_compute; reflexivity|].
  eapply (auto_quality_permitted Sample.md5_hexdigest "https://cdn" "key"
            (Sample.user "ULTRA") (Sample.request None None) 1 "u-1"
            (Sample.world Stream.ONLINE)); [reflexivity|vm_compute; reflexivity].
Defined.

(** A playback request is answered 200 and [total_views] is [0] before and
    after it. *)
Lemma get_playback_url_total_views_counterexample :
  ∃ resp w',
    StreamViewSet.get_playback_url Sample.md5_hexdigest "https://cdn" "key"
      (Sample.request (Some "480p") None) 1 "u-1" (Sample.world Stream.ONLINE)
    = (Ok resp, w')
    ∧ status_code resp = HTTP_200_OK
    ∧ Stream.total_views <$> streams (Sample.world Stream.ONLINE) !! 1 = Some 0
    ∧ Stream.total_views <$> streams w' !! 1 = Some 0
    ∧ Stream.total_views <$> streams w' !! 1 ≠ Some (0 + 1).
Proof.
  eexists _, _. split; [vm_compute; reflexivity|].
  split_and!; [reflexivity|reflexivity|reflexivity|discriminate].
Qed.

Lemma get_playback_url_success_witness :
  ∃ resp w',
    StreamViewSet.get_playback_url Sample.md5_hexdigest "https://cdn" "key"
      (Sample.request (Some "480p") None) 1 "u-1" (Sample.world Stream.ONLINE)
    = (Ok resp, w')
    ∧ ∃ row session,
        streams (Sample.world Stream.ONLINE) !! 1 = Some row
        ∧ sessions w' = <[1 := session]> ∅
        ∧ ViewSession.session_id session = "u-1"
        ∧ ViewSession.ended_at session = None
        ∧ streams w' = <[1 := Stream.count_viewers 1 row]> {[1 := row]}
        ∧ Stream.total_views (Stream.count_viewers 1 row) = Stream.total_views row.
Proof.
  eexists _, _. split; [vm_compute; reflexivity|].
  destruct (get_playback_url_success Sample.md5_hexdigest "https://cdn" "key"
              (Sample.request (Some "480p") None) 1 "u-1"
              (Sample.world Stream.ONLINE) _ _ eq_refl eq_refl)
    as (row & session & H).
  exists row, session. destruct_and!.
  assert (row = Sample.stream Stream.ONLINE) as -> by (by simplify_map_eq).
  split_and!; done.
Defined.

(** Ending the session at second 5 charges 4 seconds; ending it again
    answers the same and changes nothing. *)
Lemma end_session_idempotent_witness :
  ∃ resp w1,
    ViewSessionViewSet.end_ (Sample.request None None) 1
      (Sample.world_with (Sample.session None 0)) = (Ok resp, w1)
    ∧ resp = mkResponse (EndedBody "ended" 4 0) 200
    ∧ ViewSessionViewSet.end_ (Sample.request None None) 1 w1 = (Ok resp, w1)
    ∧ ViewSessionViewSet.end_ (Sample.request None None) 1
        (Sample.world_with (Sample.session (Some 3000000) 2))
      = (Ok (mkResponse (EndedBody "ended" 2 0) 200),
         Sample.world_with (Sample.session (Some 3000000) 2)).
Proof.
  eexists _, _. split; [vm_compute; reflexivity|]. split; [reflexivity|]. split.
  - apply (proj2 (end_session_idempotent (Sample.request None None) 1
                    (Sample.world_with (Sample.session None 0))) _ _ eq_refl).
  - apply (proj1 (end_session_idempotent (Sample.request None None) 1
                    (Sample.world_with (Sample.session (Some 3000000) 2)))
             (Sample.session (Some 3000000) 2) eq_refl (or_intror eq_refl)
             (ex_intro _ 3000000 eq_refl)).
Defined.

(** A heartbeat on an ended session rewrites its [buffer_count] and its
    [last_heartbeat]. *)
Lemma heartbeat_ended_session_counterexample :
  ∃ resp w',
    ViewSessionViewSet.heartbeat (Sample.request None (Some 9)) 1
      (Sample.world_with (Sample.session (Some 3000000) 2)) = (Ok resp, w')
    ∧ ViewSession.ended_at (Sample.session (Some 3000000) 2) = Some 3000000
    ∧ ViewSession.buffer_count (Sample.session (Some 3000000) 2) = 0
    ∧ ViewSession.buffer_count <$> sessions w' !! 1 = Some 9
    ∧ ViewSession.last_heartbeat (Sample.session (Some 3000000) 2) = 1000000
    ∧ ViewSession.last_heartbeat <$> sessions w' !! 1 = Some 6000000.
Proof.
  eexists _, _. split; [vm_compute; reflexivity|]. by split_and!.
Qed.

Lemma heartbeat_spec_witness :
  (∃ s',
     ViewSessionViewSet.heartbeat (Sample.request None (Some 9)) 1
       (Sample.world_with (Sample.session None 0))
     = (Ok (mkResponse (StatusBody "ok") 200),
        mkWorld {[1 := Sample.stream Stream.ONLINE]} {[7 := Sample.user "BASIC"]}
          (<[1 := s']> {[1 := Sample.session None 0]}) Sample.seconds 7)
     ∧ ViewSession.buffer_count s' = 9
     ∧ ViewSession.data_consumed s' = 0
     ∧ ViewSession.ended_at s' = None)
  ∧ ViewSessionViewSet.heartbeat (Sample.request None (Some 9)) 2
      (Sample.world_with (Sample.session None 0))
    = (Raise Http404, Sample.world_with (Sample.session None 0)).
Proof.
  split.
  - destruct (proj1 (heartbeat_spec (Sample.request None (Some 9)) 1
                       (Sample.world_with (Sample.session None 0)))
                (Sample.session None 0) eq_refl (or_intror eq_refl))
      as (s' & H).
    exists s'. destruct_and!. by split_and!.
  - apply (heartbeat_spec (Sample.request None (Some 9)) 2
             (Sample.world_with (Sample.session None 0))).
    intros s Hs. vm_compute in Hs. discriminate.
Defined.

(** [stream_start] refreshes [updated_at]. *)
Lemma stream_start_updated_at_counterexample :
  ∃ resp w',
    WebhookViewSet.stream_start (Sample.request None None)
      (Sample.world Stream.OFFLINE) = (Ok resp, w')
    ∧ Stream.updated_at <$> streams (Sample.world Stream.OFFLINE) !! 1 = Some 0
    ∧ Stream.updated_at <$> streams w' !! 1 = Some 6000000.
Proof.
  eexists _, _. split; [vm_compute; reflexivity|]. by split_and!.
Qed.

Lemma sample_stream_unique (status : Stream.Status) (pk' : Z) (row' : Stream.t) :
  streams (Sample.world status) !! pk' = Some row' → Stream.stream_key row' = "abc" →
  pk' = 1.
Proof.
  unfold Sample.world; simpl. intros H _.
  by apply lookup_singleton_Some in H as [? _].
Defined.

Lemma stream_start_frame_witness :
  ∃ row',
    WebhookViewSet.stream_start (Sample.request None None)
      (Sample.world Stream.OFFLINE)
    = (Ok (mkResponse (StatusBody "ok") 200),
       mkWorld (<[1 := row']> {[1 := Sample.stream Stream.OFFLINE]})
         {[7 := Sample.user "BASIC"]} ∅ Sample.seconds 7)
    ∧ Stream.status row' = Stream.ONLINE
    ∧ Stream.started_at row' = Some 5000000
    ∧ Stream.current_viewers row' = 0
    ∧ Stream.updated_at row' = 6000000
    ∧ Stream.peak_viewers row' = 0
    ∧ Stream.total_views row' = 0.
Proof.
  destruct (stream_start_frame (Sample.request None None)
              (Sample.world Stream.OFFLINE) "abc" 1 (Sample.stream Stream.OFFLINE)
              eq_refl eq_refl eq_refl (sample_stream_unique Stream.OFFLINE))
    as (row' & H).
  exists row'. destruct_and!. by split_and!.
Defined.

Lemma sample_world_with_unique (s : ViewSession.t) (pk' : Z) (row' : Stream.t) :
  streams (Sample.world_with s) !! pk' = Some row' → Stream.stream_key row' = "abc" →
  pk' = 1.
Proof.
  unfold Sample.world_with; simpl. intros H _.
  by apply lookup_singleton_Some in H as [? _].
Defined.

Lemma sample_world_with_users (s : ViewSession.t) (k : Z) (s' : ViewSession.t) :
  ViewSession.user s = 7 →
  sessions (Sample.world_with s) !! k = Some s' → ViewSession.stream s' = 1 →
  ViewSession.ended_at s' = None →
  is_Some (users (Sample.world_with s) !! ViewSession.user s').
Proof.
  unfold Sample.world_with; simpl. intros Hu H _ _.
  apply lookup_singleton_Some in H as [_ <-]. rewrite Hu. by eexists.
Defined.

Lemma stream_stop_spec_witness :
  (∃ w' row' u',
     WebhookViewSet.stream_stop (Sample.request None None)
       (Sample.world_with (Sample.session None 0))
     = (Ok (mkResponse (StatusBody "ok") 200), w')
     ∧ streams w' = <[1 := row']> {[1 := Sample.stream Stream.ONLINE]}
     ∧ Stream.status row' = Stream.OFFLINE
     ∧ Stream.ended_at row' = Some 5000000
     ∧ Stream.current_viewers row' = 0
     ∧ (∃ now saved,
          sessions w' !! 1 = Some (ended_session now saved (Sample.session None 0)))
     ∧ users w' !! 7 = Some u'
     ∧ User.total_watch_time u'
       = 0 + sum_Z (watched 7 (sessions w')) [(1, Sample.session None 0)])
  ∧ WebhookViewSet.stream_stop
      (mkRequest (7, Sample.user "BASIC") None (Some "xyz") None None None None
         None None None None None)
      (Sample.world_with (Sample.session None 0))
    = (Ok (mkResponse (ErrorBody "Stream not found") 404),
       Sample.world_with (Sample.session None 0)).
Proof.
  split.
  - destruct (proj1 (stream_stop_spec (Sample.request None None)
                       (Sample.world_with (Sample.session None 0)))
                "abc" 1 (Sample.stream Stream.ONLINE) eq_refl eq_refl eq_refl
                (sample_world_with_unique _)
                (fun k s' => sample_world_with_users (Sample.session None 0) k s' eq_refl))
      as (w' & row' & Hrun & Hstreams & Hst & Hend & Hcur & _ & Hs & _ & _ & Hu & _).
    destruct (Hu 7 (Sample.user "BASIC") eq_refl) as (u' & Hu' & Htot & _).
    exists w', row', u'. split_and!; try done.
    by apply (Hs 1 (Sample.session None 0)).
  - apply (stream_stop_spec _ (Sample.world_with (Sample.session None 0))).
    unfold Sample.world_with; simpl. intros pk row H.
    apply lookup_singleton_Some in H as [_ <-]. discriminate.
Defined.

(** Three sessions of two users are active when the stream stops at second
    5: all three are ended, [current_viewers] is [0], and the users are
    charged 12 + 14 and 10 seconds. *)
Example stream_stop_three_sessions :
  let started (user : Z) (sid : string) (at_ : Z) :=
    ViewSession.mk user 1 sid "web" "480p" "10.0.0.1" "" "" at_ at_ None 0 0 0 0 0 in
  let w := mkWorld {[1 := Stream.set_current_viewers 3 (Sample.stream Stream.ONLINE)]}
             {[7 := Sample.user "BASIC"; 8 := Sample.user "FREE"]}
             {[1 := started 7 "s-1" (-5000000); 2 := started 8 "s-2" (-1000000);
               3 := started 7 "s-3" (-3000000)]}
             Sample.seconds 5 in
  let r := WebhookViewSet.stream_stop (Sample.request None None) w in
  r.1 = Ok (mkResponse (StatusBody "ok") 200)
  ∧ Stream.current_viewers <$> streams r.2 !! 1 = Some 0
  ∧ Stream.status <$> streams r.2 !! 1 = Some Stream.OFFLINE
  ∧ active_on 1 (sessions r.2) = []
  ∧ User.total_watch_time <$> users r.2 !! 7 = Some 26
  ∧ User.total_watch_time <$> users r.2 !! 8 = Some 10.
Proof. vm_compute. by split_and!. Qed.


(** * Properties of the rest of the code *)

(** ** The relation between the worlds before and after views *)

Lemma stream_step_refl (st : Stream.t) : stream_step st st.
Proof. unfold stream_step. split_and!; (done || lia). Qed.

Lemma stream_step_trans (a b c : Stream.t) :
  stream_step a b → stream_step b c → stream_step a c.
Proof.
  unfold stream_step. intros Hab Hbc. destruct_and!.
  split_and!; try congruence; lia.
Qed.

Lemma user_step_refl (u : User.t) : user_step u u.
Proof. unfold user_step. by destruct u. Qed.

Lemma user_step_trans (a b c : User.t) : user_step a b → user_step b c → user_step a c.
Proof. unfold user_step. intros -> ->. by destruct a. Qed.

Lemma session_step_refl (s : ViewSession.t) : session_step s s.
Proof. unfold session_step. by split_and!. Qed.

Lemma session_step_trans (a b c : ViewSession.t) :
  session_step a b → session_step b c → session_step a c.
Proof.
  unfold session_step. intros Hab Hbc. destruct_and!.
  split_and!; try congruence.
  intros Ha.
  match goal with H : is_Some (ViewSession.ended_at a) → _ |- _ =>
    destruct (H Ha) as [Hab1 Hab2] end.
  match goal with H : is_Some (ViewSession.ended_at b) → _ |- _ =>
    destruct H as [Hbc1 Hbc2]; [by rewrite Hab1|] end.
  split; congruence.
Qed.

Lemma rows_step_refl {A : Type} (R : A → A → Prop) (t : gmap Z A) :
  (∀ a, R a a) → rows_step R t t.
Proof. intros HR k. by destruct (t !! k). Qed.

Lemma rows_step_trans {A : Type} (R : A → A → Prop) (t1 t2 t3 : gmap Z A) :
  (∀ a b c, R a b → R b c → R a c) →
  rows_step R t1 t2 → rows_step R t2 t3 → rows_step R t1 t3.
Proof.
  intros HR H12 H23 k. specialize (H12 k). specialize (H23 k).
  destruct (t1 !! k), (t2 !! k), (t3 !! k); try done. by eapply HR.
Qed.

Lemma rows_step_is_Some {A : Type} (R : A → A → Prop) (t t' : gmap Z A) (k : Z) :
  rows_step R t t' → is_Some (t !! k) → is_Some (t' !! k).
Proof.
  intros H [a Ha]. specialize (H k). rewrite Ha in H.
  destruct (t' !! k); [by eexists|done].
Qed.

Lemma rows_step_insert {A : Type} (R : A → A → Prop) (t : gmap Z A) (k : Z) (a b : A) :
  (∀ a, R a a) → t !! k = Some a → R a b → rows_step R t (<[k := b]> t).
Proof.
  intros HR Ha Hab i. destruct (decide (i = k)) as [->|Hi].
  - by rewrite Ha, lookup_insert_eq.
  - rewrite lookup_insert_ne by done. by destruct (t !! i).
Qed.

Lemma evolves_refl (w : World) : evolves w w.
Proof.
  unfold evolves. split_and!; try done.
  - apply rows_step_refl, stream_step_refl.
  - apply rows_step_refl, user_step_refl.
  - intros k s Hs. exists s. split; [done|apply session_step_refl].
  - intros k s' Hs' Hnone. congruence.
Qed.

Lemma evolves_trans (w1 w2 w3 : World) : evolves w1 w2 → evolves w2 w3 → evolves w1 w3.
Proof.
  intros (Hst12 & Hu12 & Hold12 & Hnew12 & Hc12 & Hr12)
         (Hst23 & Hu23 & Hold23 & Hnew23 & Hc23 & Hr23).
  unfold evolves. split_and!.
  - eapply rows_step_trans; [apply stream_step_trans|done..].
  - eapply rows_step_trans; [apply user_step_trans|done..].
  - intros k s1 Hs1. destruct (Hold12 k s1 Hs1) as (s2 & Hs2 & H12).
    destruct (Hold23 k s2 Hs2) as (s3 & Hs3 & H23).
    exists s3. split; [done|]. by eapply session_step_trans.
  - intros k s3 Hs3 Hnone. destruct (sessions w2 !! k) as [s2|] eqn:Hs2.
    + destruct (Hnew12 k s2 Hs2 Hnone) as (Hstream & Huser & Huniq).
      destruct (Hold23 k s2 Hs2) as (s3' & Hs3' & H23).
      assert (s3' = s3) as -> by congruence.
      destruct H23 as (Hu & Hs & Hid & _).
      split_and!.
      * rewrite Hs. by eapply rows_step_is_Some.
      * rewrite Hu. by eapply rows_step_is_Some.
      * intros k2 t3 Ht3 Hidt. destruct (sessions w2 !! k2) as [t2|] eqn:Ht2.
        -- destruct (Hold23 k2 t2 Ht2) as (t3' & Ht3' & (_ & _ & Hidt2 & _)).
           assert (t3' = t3) as -> by congruence.
           apply (Huniq k2 t2 Ht2). congruence.
        -- destruct (Hnew23 k2 t3 Ht3 Ht2) as (_ & _ & Huniq2).
           symmetry. apply (Huniq2 k s3 Hs3). congruence.
    + by apply Hnew23.
  - congruence.
  - lia.
Qed.

Lemma evolves_tick (w : World) : evolves w (tick w).
Proof.
  unfold evolves, tick; simpl. split_and!; try done; try lia.
  - apply rows_step_refl, stream_step_refl.
  - apply rows_step_refl, user_step_refl.
  - intros k s Hs. exists s. split; [done|apply session_step_refl].
  - intros k s' Hs' Hnone. congruence.
Qed.

Lemma evolves_set_streams (w : World) (k : Z) (st st' : Stream.t) :
  streams w !! k = Some st → stream_step st st' →
  evolves w (set_streams (<[k := st']> (streams w)) w).
Proof.
  intros Hst Hstep. unfold evolves, set_streams; simpl. split_and!; try done.
  - by apply (rows_step_insert _ _ _ st); [apply stream_step_refl|..].
  - apply rows_step_refl, user_step_refl.
  - intros i s Hs. exists s. split; [done|apply session_step_refl].
  - intros i s' Hs' Hnone. congruence.
Qed.

Lemma evolves_set_users (w : World) (k : Z) (u u' : User.t) :
  users w !! k = Some u → user_step u u' →
  evolves w (set_users (<[k := u']> (users w)) w).
Proof.
  intros Hu Hstep. unfold evolves, set_users; simpl. split_and!; try done.
  - apply rows_step_refl, stream_step_refl.
  - by apply (rows_step_insert _ _ _ u); [apply user_step_refl|..].
  - intros i s Hs. exists s. split; [done|apply session_step_refl].
  - intros i s' Hs' Hnone. congruence.
Qed.

Lemma evolves_write_session (w : World) (k : Z) (s s' : ViewSession.t) :
  sessions w !! k = Some s → session_step s s' →
  evolves w (set_sessions (<[k := s']> (sessions w)) w).
Proof.
  intros Hs Hstep. unfold evolves, set_sessions; simpl. split_and!; try done.
  - apply rows_step_refl, stream_step_refl.
  - apply rows_step_refl, user_step_refl.
  - intros i t Ht. destruct (decide (i = k)) as [->|Hi].
    + exists s'. rewrite lookup_insert_eq. split; [done|congruence].
    + exists t. rewrite lookup_insert_ne by done. split; [done|apply session_step_refl].
  - intros i t Ht Hnone. destruct (decide (i = k)) as [->|Hi]; [congruence|].
    rewrite lookup_insert_ne in Ht by done. congruence.
Qed.

Lemma evolves_insert_session (w : World) (k : Z) (s : ViewSession.t) :
  sessions w !! k = None →
  is_Some (streams w !! ViewSession.stream s) →
  is_Some (users w !! ViewSession.user s) →
  map_Forall (fun _ t => ViewSession.session_id t ≠ ViewSession.session_id s)
    (sessions w) →
  evolves w (set_sessions (<[k := s]> (sessions w)) w).
Proof.
  intros Hnone Hstream Huser Huniq. unfold evolves, set_sessions; simpl.
  split_and!; try done.
  - apply rows_step_refl, stream_step_refl.
  - apply rows_step_refl, user_step_refl.
  - intros i t Ht. exists t. rewrite lookup_insert_ne by congruence.
    split; [done|apply session_step_refl].
  - intros i t Ht Hi. destruct (decide (i = k)) as [->|Hne].
    + rewrite lookup_insert_eq in Ht. injection Ht as <-. split_and!; try done.
      intros k2 s2 Hs2 Hid. destruct (decide (k2 = k)) as [|Hk2]; [done|].
      rewrite lookup_insert_ne in Hs2 by done. by destruct (Huniq k2 s2 Hs2).
    + rewrite lookup_insert_ne in Ht by done. congruence.
Qed.

Lemma evolves_bind {A B : Type} (m : M A) (f : A → M B) (w : World) :
  evolves w (m w).2 →
  (∀ a w1, m w = (Ok a, w1) → evolves w1 (f a w1).2) →
  evolves w ((m ≫= f) w).2.
Proof.
  intros Hm Hf. unfold mbind, M_bind. destruct (m w) as [[a|e] w1]; [|done].
  eapply evolves_trans; [exact Hm|]. by apply Hf.
Qed.

Lemma evolves_try_except {A : Type} (body : M A) (handler : Exn → option (M A))
    (w : World) :
  evolves w (body w).2 →
  (∀ e h w1, body w = (Raise e, w1) → handler e = Some h → evolves w1 (h w1).2) →
  evolves w (try_except body handler w).2.
Proof.
  intros Hbody Hh. unfold try_except. destruct (body w) as [[a|e] w1]; [done|].
  destruct (handler e) as [h|] eqn:He; [|done].
  eapply evolves_trans; [exact Hbody|]. by eapply Hh.
Qed.

(** *** The methods of the models *)

Lemma timezone_now_evolves (w : World) : evolves w (timezone_now w).2.
Proof. apply evolves_tick. Qed.

Lemma ViewSession_save_evolves (k : Z) (s s2 : ViewSession.t) (w : World) :
  sessions w !! k = Some s →
  (∀ t, session_step s (ViewSession.set_last_heartbeat t s2)) →
  evolves w (ViewSession_save (k, s2) w).2.
Proof.
  intros Hs Hstep. unfold ViewSession_save, timezone_now, write_session. run_M.
  eapply evolves_trans; [apply evolves_tick|].
  by apply (evolves_write_session (tick w) k s).
Qed.

Lemma Stream_save_evolves (k : Z) (st st2 : Stream.t) (w : World) :
  streams w !! k = Some st →
  (∀ t, stream_step st (Stream.set_updated_at t st2)) →
  evolves w (Stream_save (k, st2) w).2.
Proof.
  intros Hs Hstep. unfold Stream_save, timezone_now, write_stream. run_M.
  eapply evolves_trans; [apply evolves_tick|].
  by apply (evolves_set_streams (tick w) k st).
Qed.

Lemma count_viewers_step (delta : Z) (st : Stream.t) :
  stream_step st (Stream.count_viewers delta st).
Proof.
  unfold stream_step. rewrite count_viewers_peak, count_viewers_current.
  unfold Stream.count_viewers. case_bool_decide; simpl; split_and!; try done; lia.
Qed.

Lemma update_viewer_count_evolves (k : Z) (st : Stream.t) (delta : Z) (w : World) :
  streams w !! k = Some st → evolves w (update_viewer_count (k, st) delta w).2.
Proof.
  intros Hst. rewrite (update_viewer_count_run _ _ _ _ Hst). simpl.
  apply (evolves_set_streams w k st); [done|apply count_viewers_step].
Qed.

Lemma User_save_usage_evolves (k : Z) (u u' : User.t) (w : World) :
  users w !! k = Some u → evolves w (User_save_usage (k, u') w).2.
Proof.
  intros Hu. unfold User_save_usage. simpl.
  rewrite (alter_lookup_insert _ _ _ _ Hu).
  apply (evolves_set_users w k u); [done|]. unfold user_step. by destruct u.
Qed.

Lemma ViewSession_stream_inv (s : ViewSession.t) (w : World)
    (o : outcome (Z * Stream.t)) (w' : World) :
  ViewSession_stream s w = (o, w') →
  w' = w ∧ ∀ obj, o = Ok obj → streams w !! obj.1 = Some obj.2.
Proof.
  unfold ViewSession_stream.
  destruct (streams w !! ViewSession.stream s) as [row|] eqn:Hrow;
    intros [= <- <-]; split; try done. by intros obj [= <-].
Qed.

Lemma ViewSession_user_inv (s : ViewSession.t) (w : World)
    (o : outcome (Z * User.t)) (w' : World) :
  ViewSession_user s w = (o, w') →
  w' = w ∧ ∀ obj, o = Ok obj → users w !! obj.1 = Some obj.2.
Proof.
  unfold ViewSession_user.
  destruct (users w !! ViewSession.user s) as [row|] eqn:Hrow;
    intros [= <- <-]; split; try done. by intros obj [= <-].
Qed.

Lemma end_session_evolves (k : Z) (s : ViewSession.t) (w : World) :
  sessions w !! k = Some s → evolves w (end_session (k, s) w).2.
Proof.
  intros Hs. unfold end_session. cbn [fst snd].
  destruct (ViewSession.ended_at s) as [t|] eqn:He; [apply evolves_refl|].
  apply evolves_bind; [apply timezone_now_evolves|].
  intros now w1 [= <- <-]. cbv zeta.
  apply evolves_bind.
  { apply (ViewSession_save_evolves k s); [done|]. intros t.
    unfold session_step. simpl. split_and!; try done. rewrite He. by intros [? ?]. }
  intros self w2 _.
  apply evolves_bind.
  { destruct (ViewSession_stream self.2 w2) as [o w3] eqn:Hstream.
    apply ViewSession_stream_inv in Hstream as [-> _]. apply evolves_refl. }
  intros [pk row] w3 Hstream. apply ViewSession_stream_inv in Hstream as [-> Hrow].
  specialize (Hrow _ eq_refl). simpl in Hrow.
  apply evolves_bind; [by apply update_viewer_count_evolves|].
  intros _ w4 _.
  apply evolves_bind.
  { destruct (ViewSession_user self.2 w4) as [o w5] eqn:Huser.
    apply ViewSession_user_inv in Huser as [-> _]. apply evolves_refl. }
  intros [uid u] w5 Huser. apply ViewSession_user_inv in Huser as [-> Hu].
  specialize (Hu _ eq_refl). simpl in Hu.
  apply evolves_bind; [by apply (User_save_usage_evolves uid u)|].
  intros _ w6 _. apply evolves_refl.
Qed.

(** [end_session] writes no row of another session. *)
Lemma end_session_other (k k' : Z) (s : ViewSession.t) (w : World) :
  k' ≠ k → sessions (end_session (k, s) w).2 !! k' = sessions w !! k'.
Proof.
  intros Hk. unfold end_session. cbn [fst snd].
  destruct (ViewSession.ended_at s) as [t|]; [done|].
  unfold ViewSession_save, timezone_now, write_session, ViewSession_stream,
    ViewSession_user, User_save_usage, update_viewer_count, Stream_save_viewers.
  run_M. cbn -[lookup insert alter].
  destruct (streams w !! ViewSession.stream s) as [row|]; run_M;
    cbn -[lookup insert alter]; [|by rewrite lookup_insert_ne].
  destruct (users w !! ViewSession.user s) as [u|]; run_M;
    cbn -[lookup insert alter]; by rewrite lookup_insert_ne.
Qed.

Lemma end_sessions_evolves (l : list (Z * ViewSession.t)) (w : World) :
  NoDup l.*1 →
  (∀ k s, (k, s) ∈ l → sessions w !! k = Some s) →
  evolves w (for_each l (fun session => _ ← end_session session; mret tt) w).2.
Proof.
  revert w. induction l as [|[k s] l IH]; intros w Hnd Hl; [apply evolves_refl|].
  apply NoDup_cons in Hnd as [Hk Hnd]. simpl in Hk. simpl.
  apply evolves_bind.
  - apply evolves_bind; [apply end_session_evolves, Hl; left|].
    intros _ w1 _. apply evolves_refl.
  - intros [] w1 Hrun. apply IH; [done|]. intros k' s' Hin.
    assert (Hne : k' ≠ k).
    { intros ->. apply Hk. apply list_elem_of_fmap. by exists (k, s'). }
    assert (Hw1 : w1 = (end_session (k, s) w).2).
    { revert Hrun. run_M. destruct (end_session (k, s) w) as [[a|e] w2]; simpl;
        by intros [= <-]. }
    rewrite Hw1, end_session_other by done. apply Hl. by right.
Qed.

(** *** The views *)

Lemma Stream_objects_get_inv (key : option string) (w : World)
    (o : outcome (Z * Stream.t)) (w' : World) :
  Stream_objects_get key w = (o, w') →
  w' = w ∧ ∀ obj, o = Ok obj →
             streams w !! obj.1 = Some obj.2 ∧ Some (Stream.stream_key obj.2) = key.
Proof.
  unfold Stream_objects_get.
  destruct (map_to_list _) as [|obj [|obj' l]] eqn:Hl; intros [= <- <-];
    split; try done.
  intros obj0 [= <-]. destruct obj as [pk row].
  assert (Hin : (pk, row) ∈ map_to_list
            (filter (fun kv : Z * Stream.t => Some (Stream.stream_key kv.2) = key)
               (streams w))) by (rewrite Hl; left).
  apply elem_of_map_to_list, map_lookup_filter_Some in Hin. simpl in *. tauto.
Qed.

Lemma heartbeat_evolves (request : Request) (pk : Z) (w : World) :
  evolves w (ViewSessionViewSet.heartbeat request pk w).2.
Proof.
  unfold ViewSessionViewSet.heartbeat.
  destruct (ViewSessionViewSet.get_object request pk w) as [o w0] eqn:Hobj.
  pose proof (ViewSessionViewSet_get_object_inv _ _ _ _ _ Hobj) as [-> Hinv].
  apply evolves_bind; [rewrite Hobj; apply evolves_refl|].
  intros [pk' s] w1 Hobj'. rewrite Hobj in Hobj'. injection Hobj' as -> <-.
  destruct Hinv as (Hpk & Hs & _). simpl in Hpk, Hs. subst pk'.
  apply evolves_bind; [apply timezone_now_evolves|].
  intros now w1 [= <- <-]. cbv zeta. cbn [fst snd].
  apply evolves_bind.
  - apply (ViewSession_save_evolves pk s); [done|]. intros t.
    unfold ViewSessionViewSet.assign, session_step.
    destruct (data_buffer_count request), (data_quality_switches request),
      (data_data_consumed request), (data_average_bitrate request);
      simpl; by split_and!.
  - intros _ w2 _. apply evolves_refl.
Qed.

Lemma end_evolves (request : Request) (pk : Z) (w : World) :
  evolves w (ViewSessionViewSet.end_ request pk w).2.
Proof.
  unfold ViewSessionViewSet.end_.
  destruct (ViewSessionViewSet.get_object request pk w) as [o w0] eqn:Hobj.
  pose proof (ViewSessionViewSet_get_object_inv _ _ _ _ _ Hobj) as [-> Hinv].
  apply evolves_bind; [rewrite Hobj; apply evolves_refl|].
  intros [pk' s] w1 Hobj'. rewrite Hobj in Hobj'. injection Hobj' as -> <-.
  destruct Hinv as (Hpk & Hs & _). simpl in Hpk, Hs. subst pk'.
  apply evolves_bind; [by apply end_session_evolves|].
  intros self w2 _. apply evolves_refl.
Qed.

Lemma except_Stream_DoesNotExist_evolves (e : Exn) (h : M Response) (w : World) :
  WebhookViewSet.except_Stream_DoesNotExist e = Some h → evolves w (h w).2.
Proof.
  unfold WebhookViewSet.except_Stream_DoesNotExist.
  destruct e as [| |[]| |]; intros [= <-]. apply evolves_refl.
Qed.

Lemma stream_start_evolves (request : Request) (w : World) :
  evolves w (WebhookViewSet.stream_start request w).2.
Proof.
  unfold WebhookViewSet.stream_start. cbv zeta.
  apply evolves_try_except; [|intros e h w1 _; apply except_Stream_DoesNotExist_evolves].
  destruct (Stream_objects_get (data_name request) w) as [o w0] eqn:Hget.
  pose proof (Stream_objects_get_inv _ _ _ _ Hget) as [-> Hinv].
  apply evolves_bind; [rewrite Hget; apply evolves_refl|].
  intros [pk row] w1 Hget'. rewrite Hget in Hget'. injection Hget' as -> <-.
  destruct (Hinv _ eq_refl) as [Hrow _]. simpl in Hrow.
  apply evolves_bind; [apply timezone_now_evolves|].
  intros now w1 [= <- <-]. cbn [fst snd].
  apply evolves_bind.
  - apply (Stream_save_evolves pk row); [done|]. intros t.
    unfold stream_step. simpl. split_and!; try done; lia.
  - intros _ w2 _. apply evolves_refl.
Qed.

Lemma Stream_save_inv (self : Z * Stream.t) (w : World) (o : outcome (Z * Stream.t))
    (w' : World) :
  Stream_save self w = (o, w') →
  sessions w' = sessions w ∧ ∀ obj, o = Ok obj → obj.1 = self.1.
Proof.
  unfold Stream_save, timezone_now, write_stream. run_M. intros [= <- <-].
  split; [done|]. by intros obj [= <-].
Qed.

Lemma stream_stop_evolves (request : Request) (w : World) :
  evolves w (WebhookViewSet.stream_stop request w).2.
Proof.
  unfold WebhookViewSet.stream_stop. cbv zeta.
  apply evolves_try_except; [|intros e h w1 _; apply except_Stream_DoesNotExist_evolves].
  destruct (Stream_objects_get (data_name request) w) as [o w0] eqn:Hget.
  pose proof (Stream_objects_get_inv _ _ _ _ Hget) as [-> Hinv].
  apply evolves_bind; [rewrite Hget; apply evolves_refl|].
  intros [pk row] w1 Hget'. rewrite Hget in Hget'. injection Hget' as -> <-.
  destruct (Hinv _ eq_refl) as [Hrow _]. simpl in Hrow.
  apply evolves_bind; [apply timezone_now_evolves|].
  intros now w1 [= <- <-]. cbn [fst snd].
  apply evolves_bind.
  { apply (Stream_save_evolves pk row); [done|]. intros t.
    unfold stream_step. simpl. split_and!; try done; lia. }
  intros stream w2 _.
  apply evolves_bind; [apply evolves_refl|].
  intros active w3 [= <- <-].
  apply evolves_bind.
  - apply end_sessions_evolves; [apply NoDup_fst_map_to_list|].
    intros k s Hin. by apply elem_of_active_on in Hin as [? _].
  - intros _ w4 _. apply evolves_refl.
Qed.

Lemma ViewSession_objects_create_evolves (user stream : Z)
    (session_id device_type quality : string) (ip : option string)
    (user_agent : string) (w : World) :
  evolves w (ViewSession_objects_create user stream session_id device_type quality
               ip user_agent w).2.
Proof.
  destruct (ViewSession_objects_create _ _ _ _ _ _ _ w) as [[obj|e] w1] eqn:Hrun;
    apply ViewSession_objects_create_inv in Hrun.
  - destruct Hrun as (ipv & _ & _ & Huniq & Huser & Hstream & -> & ->). simpl.
    eapply evolves_trans; [apply evolves_tick|].
    eapply evolves_trans; [apply evolves_tick|].
    apply (evolves_insert_session (tick (tick w))); simpl; try done.
    apply next_pk_fresh.
  - destruct Hrun as [_ ->]. simpl.
    eapply evolves_trans; apply evolves_tick.
Qed.

Lemma ViewSession_objects_create_streams (user stream : Z)
    (session_id device_type quality : string) (ip : option string)
    (user_agent : string) (w : World) :
  streams (ViewSession_objects_create user stream session_id device_type quality
             ip user_agent w).2 = streams w.
Proof.
  destruct (ViewSession_objects_create _ _ _ _ _ _ _ w) as [[obj|e] w1] eqn:Hrun;
    apply ViewSession_objects_create_inv in Hrun.
  - by destruct Hrun as (ipv & _ & _ & _ & _ & _ & _ & ->).
  - by destruct Hrun as [_ ->].
Qed.

Section ServingProperties.

Variable md5_hexdigest : string → string.
Variable HLS_BASE_URL : string.
Variable HLS_SECRET_KEY : string.

Lemma get_playback_url_evolves (request : Request) (pk : Z) (uuid : string) (w : World) :
  evolves w (StreamViewSet.get_playback_url md5_hexdigest HLS_BASE_URL
               HLS_SECRET_KEY request pk uuid w).2.
Proof.
  unfold StreamViewSet.get_playback_url.
  destruct (StreamViewSet.get_object request pk w) as [o w0] eqn:Hobj.
  pose proof (StreamViewSet_get_object_inv _ _ _ _ _ Hobj) as [-> Hinv].
  apply evolves_bind; [rewrite Hobj; apply evolves_refl|].
  intros [pk' row] w1 Hobj'. rewrite Hobj in Hobj'. injection Hobj' as -> <-.
  destruct Hinv as [Hpk Hrow]. simpl in Hpk, Hrow. subst pk'. cbv zeta.
  case_bool_decide; [apply evolves_refl|].
  apply evolves_bind.
  { case_bool_decide; [|apply evolves_refl].
    apply evolves_bind; [apply evolves_refl|]. intros allowed w1 _. apply evolves_refl. }
  intros forbidden w1 Hpermit.
  assert (w1 = w) as ->.
  { revert Hpermit. case_bool_decide; run_M; [|by intros [= _ <-]].
    destruct (User.can_watch_quality _ _); by intros [= _ <-]. }
  destruct forbidden; [apply evolves_refl|].
  apply evolves_bind; [apply evolves_tick|].
  intros signed_url w1 [= _ <-].
  apply evolves_bind; [apply ViewSession_objects_create_evolves|].
  intros session w2 Hcreate.
  assert (Hrow2 : streams w2 !! pk = Some row).
  { replace w2 with (ViewSession_objects_create (req_user request).1 (pk, row).1 uuid
                       (default "unknown" (data_device_type request))
                       (default "auto" (data_quality request))
                       (StreamViewSet.get_client_ip request)
                       (default "" (HTTP_USER_AGENT request)) (tick w)).2
      by (by rewrite Hcreate).
    by rewrite ViewSession_objects_create_streams. }
  apply evolves_bind; [by apply update_viewer_count_evolves|].
  intros stream w3 _. apply evolves_refl.
Qed.

Lemma dispatch_evolves (call : Call) (w : World) :
  evolves w (dispatch md5_hexdigest HLS_BASE_URL HLS_SECRET_KEY call w).2.
Proof.
  destruct call; simpl.
  - apply get_playback_url_evolves.
  - apply heartbeat_evolves.
  - apply end_evolves.
  - apply stream_start_evolves.
  - apply stream_stop_evolves.
Qed.

Lemma serve_evolves (calls : list Call) (w : World) :
  evolves w (serve md5_hexdigest HLS_BASE_URL HLS_SECRET_KEY calls w).
Proof.
  revert w. induction calls as [|call calls IH]; intros w; [apply evolves_refl|].
  simpl. eapply evolves_trans; [apply dispatch_evolves|apply IH].
Qed.

End ServingProperties.

(** ** Invariants of the tables under any sequence of requests *)

Section Invariants.

Variable md5_hexdigest : string → string.
Variable HLS_BASE_URL : string.
Variable HLS_SECRET_KEY : string.

Local Abbreviation serve' := (serve md5_hexdigest HLS_BASE_URL HLS_SECRET_KEY).

(** X1. Whatever requests are served, in whatever order and whether they
    succeed or raise, every stream that had [0 ≤ current_viewers ≤
    peak_viewers] still has. *)
Theorem serve_viewers_consistent (calls : list Call) (w : World) :
  viewers_consistent w → viewers_consistent (serve' calls w).
Proof.
  intros Hinv pk st' Hst'.
  destruct (serve_evolves md5_hexdigest HLS_BASE_URL HLS_SECRET_KEY calls w)
    as (Hstreams & _).
  specialize (Hstreams pk). rewrite Hst' in Hstreams.
  destruct (streams w !! pk) as [st|] eqn:Hst; [|done].
  apply Hstreams. by apply (Hinv pk).
Qed.


(** X3. Whatever requests are served, if no two sessions shared a
    [session_id], no two sessions do: a playback request whose draw is taken
    creates nothing, and no view rewrites a [session_id]. *)
Theorem serve_session_ids_unique (calls : list Call) (w : World) :
  session_ids_unique w → session_ids_unique (serve' calls w).
Proof.
  intros Hinv k1 k2 s1' s2' Hs1' Hs2' Hid.
  destruct (serve_evolves md5_hexdigest HLS_BASE_URL HLS_SECRET_KEY calls w)
    as (_ & _ & Hold & Hnew & _).
  destruct (sessions w !! k1) as [s1|] eqn:Hs1.
  - destruct (sessions w !! k2) as [s2|] eqn:Hs2.
    + destruct (Hold k1 s1 Hs1) as (t1 & Ht1 & (_ & _ & Hid1 & _)).
      destruct (Hold k2 s2 Hs2) as (t2 & Ht2 & (_ & _ & Hid2 & _)).
      apply (Hinv k1 k2 s1 s2); try done. congruence.
    + destruct (Hnew k2 s2' Hs2' Hs2) as (_ & _ & Huniq). by apply (Huniq k1 s1').
  - destruct (Hnew k1 s1' Hs1' Hs1) as (_ & _ & Huniq).
    symmetry. by apply (Huniq k2 s2').
Qed.


(** X5. Whatever requests are served, no stream is added or removed, the
    columns of a stream that describe it ([stream_key], [name],
    [available_qualities] and the like) and [total_views] are never written,
    and [peak_viewers] never decreases. *)
Theorem serve_stream_frame (calls : list Call) (w : World) (pk : Z) :
  match streams w !! pk, streams (serve' calls w) !! pk with
  | Some st, Some st' =>
      Stream.stream_key st' = Stream.stream_key st
      ∧ Stream.name st' = Stream.name st
      ∧ Stream.description st' = Stream.description st
      ∧ Stream.rtmp_url st' = Stream.rtmp_url st
      ∧ Stream.hls_master_url st' = Stream.hls_master_url st
      ∧ Stream.available_qualities st' = Stream.available_qualities st
      ∧ Stream.default_quality st' = Stream.default_quality st
      ∧ Stream.total_views st' = Stream.total_views st
      ∧ Stream.recording_enabled st' = Stream.recording_enabled st
      ∧ Stream.recording_path st' = Stream.recording_path st
      ∧ Stream.thumbnail_url st' = Stream.thumbnail_url st
      ∧ Stream.created_at st' = Stream.created_at st
      ∧ Stream.peak_viewers st ≤ Stream.peak_viewers st'
  | None, None => True
  | _, _ => False
  end.
Proof.
  destruct (serve_evolves md5_hexdigest HLS_BASE_URL HLS_SECRET_KEY calls w)
    as (Hstreams & _).
  specialize (Hstreams pk).
  destruct (streams w !! pk), (streams (serve' calls w) !! pk); try done.
  unfold stream_step in Hstreams. destruct_and!. by split_and!.
Qed.


End Invariants.

(** ** When a playback request succeeds *)

Lemma ViewSession_objects_create_Ok (user stream : Z)
    (session_id device_type quality ip user_agent : string) (w : World) :
  ip ≠ "" →
  map_Forall (fun _ s => ViewSession.session_id s ≠ session_id) (sessions w) →
  is_Some (users w !! user) →
  is_Some (streams w !! stream) →
  ViewSession_objects_create user stream session_id device_type quality (Some ip)
    user_agent w
  = (Ok (next_pk (sessions w),
         ViewSession.mk user stream session_id device_type quality ip user_agent ""
           (clock w (reads w)) (clock w (S (reads w))) None 0 0 0 0 0),
     set_sessions
       (<[next_pk (sessions w) :=
            ViewSession.mk user stream session_id device_type quality ip user_agent ""
              (clock w (reads w)) (clock w (S (reads w))) None 0 0 0 0 0]>
          (sessions w))
       (tick (tick w))).
Proof.
  intros Hip Huniq Huser Hstream.
  unfold ViewSession_objects_create, timezone_now, insert_session. run_M.
  rewrite bool_decide_eq_true_2; [done|].
  split_and!; try done. by intros [= ->].
Qed.

Section PlaybackSuccess.

Variable md5_hexdigest : string → string.
Variable HLS_BASE_URL : string.
Variable HLS_SECRET_KEY : string.

Local Abbreviation get_playback_url :=
  (StreamViewSet.get_playback_url md5_hexdigest HLS_BASE_URL HLS_SECRET_KEY).

Lemma get_playback_url_created (request : Request) (pk : Z) (uuid : string)
    (w : World) (resp : Response) (w' : World) :
  get_playback_url request pk uuid w = (Ok resp, w') →
  status_code resp = HTTP_200_OK →
  ∃ row obj w1,
    StreamViewSet.get_object request pk w = (Ok (pk, row), w)
    ∧ ViewSession_objects_create (req_user request).1 pk uuid
        (default "unknown" (data_device_type request))
        (default "auto" (data_quality request))
        (StreamViewSet.get_client_ip request)
        (default "" (HTTP_USER_AGENT request)) (tick w) = (Ok obj, w1).
Proof.
  unfold StreamViewSet.get_playback_url. run_M.
  destruct (StreamViewSet.get_object request pk w) as [[[pk' row]|e] w1] eqn:Hobj;
    [|done].
  apply StreamViewSet_get_object_inv in Hobj as Hinv.
  destruct Hinv as [-> [Hpk _]]. simpl in Hpk. subst pk'.
  case_bool_decide; [by intros [= <- <-]|].
  assert (Htail : ∀ url,
    (let (o, w'0) := ViewSession_objects_create (req_user request).1 pk uuid
                       (default "unknown" (data_device_type request))
                       (default "auto" (data_quality request))
                       (StreamViewSet.get_client_ip request)
                       (default "" (HTTP_USER_AGENT request)) (tick w) in
     match o with
     | Ok _ =>
         let (o1, w'2) := update_viewer_count (pk, row) 1 w'0 in
         match o1 with
         | Ok a1 =>
             (Ok (mkResponse
                    (PlaybackBody url uuid (default "auto" (data_quality request))
                       (Stream.available_qualities a1.2) 3600) HTTP_200_OK), w'2)
         | Raise e => (Raise e, w'2)
         end
     | Raise e => (Raise e, w'0)
     end) = (Ok resp, w') →
    ∃ row0 obj w1,
      (Ok (pk, row), w) = (Ok (pk, row0), w)
      ∧ ViewSession_objects_create (req_user request).1 pk uuid
          (default "unknown" (data_device_type request))
          (default "auto" (data_quality request))
          (StreamViewSet.get_client_ip request)
          (default "" (HTTP_USER_AGENT request)) (tick w) = (Ok obj, w1)).
  { intros url.
    destruct (ViewSession_objects_create _ _ _ _ _ _ _ (tick w)) as [[obj|e] w2];
      [|done]. intros _. by exists row, obj, w2. }
  case_bool_decide; run_M.
  - destruct (User.can_watch_quality _ _) as [[|]|e]; cbn [negb];
      [|by intros [= <- <-]|done].
    unfold generate_signed_url, timezone_now. run_M. intros Hrun _.
    by eapply Htail.
  - unfold generate_signed_url, timezone_now. run_M. intros Hrun _.
    by eapply Htail.
Qed.

Lemma get_playback_url_Ok (request : Request) (pk : Z) (uuid : string)
    (w : World) (row : Stream.t) (ip : string) :
  StreamViewSet.get_object request pk w = (Ok (pk, row), w) →
  Stream.status row = Stream.ONLINE →
  (default "auto" (data_quality request) = "auto"
   ∨ User.can_watch_quality (req_user request).2
       (default "auto" (data_quality request)) = Ok true) →
  StreamViewSet.get_client_ip request = Some ip →
  ip ≠ "" →
  (∀ k s, sessions w !! k = Some s → ViewSession.session_id s ≠ uuid) →
  is_Some (users w !! (req_user request).1) →
  ∃ resp w', get_playback_url request pk uuid w = (Ok resp, w')
             ∧ status_code resp = HTTP_200_OK
             ∧ streams w' = <[pk := Stream.count_viewers 1 row]> (streams w)
             ∧ users w' = users w
             ∧ (∃ s, sessions w' = <[next_pk (sessions w) := s]> (sessions w)
                     ∧ ViewSession.user s = (req_user request).1
                     ∧ ViewSession.stream s = pk
                     ∧ ViewSession.ended_at s = None
                     ∧ ViewSession.data_consumed s = 0
                     ∧ ViewSession.started_at s = clock w (S (reads w)))
             ∧ clock w' = clock w
             ∧ reads w' = S (S (S (reads w))).
Proof.
  intros Hobj Hst Hpermit Hip Hne Huniq Huser.
  apply StreamViewSet_get_object_inv in Hobj as Hinv.
  destruct Hinv as (_ & _ & Hrow). simpl in Hrow.
  eexists _, _. split.
  - unfold StreamViewSet.get_playback_url. run_M. rewrite Hobj. cbn [fst snd].
    rewrite bool_decide_eq_false_2 by (by intros []).
    assert (Hforbidden :
      (if bool_decide (default "auto" (data_quality request) ≠ "auto")
       then allowed ← lift (User.can_watch_quality (req_user request).2
                              (default "auto" (data_quality request)));
            mret (negb allowed)
       else mret false) w = (Ok false, w)).
    { case_bool_decide as Hq; [|done]. destruct Hpermit as [|Hcan]; [done|].
      run_M. by rewrite Hcan. }
    revert Hforbidden. run_M. intros ->.
    unfold generate_signed_url, timezone_now. run_M. rewrite Hip.
    assert (Hstream : is_Some (streams (tick w) !! pk)) by (by eexists).
    rewrite (ViewSession_objects_create_Ok _ _ _ _ _ _ _ (tick w) Hne Huniq Huser
               Hstream).
    rewrite (update_viewer_count_run pk row 1) by done. reflexivity.
  - split_and!; try done. by eexists.
Qed.

(** X7. A playback request is answered 200 exactly when the stream is found
    (and passes the [status] filter of the query), is [ONLINE], the quality
    is [auto] or one the user's tier allows, a client address that is not
    empty can be read from the request, the drawn [session_id] is in no
    session, and the user is in the table. Nothing else is looked at: in
    particular the quality need not be among the stream's
    [available_qualities]. *)
Theorem get_playback_url_succeeds_iff (request : Request) (pk : Z) (uuid : string)
    (w : World) :
  (∃ resp w', get_playback_url request pk uuid w = (Ok resp, w')
              ∧ status_code resp = HTTP_200_OK)
  ↔ (∃ row ip,
       StreamViewSet.get_object request pk w = (Ok (pk, row), w)
       ∧ Stream.status row = Stream.ONLINE
       ∧ (default "auto" (data_quality request) = "auto"
          ∨ User.can_watch_quality (req_user request).2
              (default "auto" (data_quality request)) = Ok true)
       ∧ StreamViewSet.get_client_ip request = Some ip
       ∧ ip ≠ ""
       ∧ (∀ k s, sessions w !! k = Some s → ViewSession.session_id s ≠ uuid)
       ∧ is_Some (users w !! (req_user request).1)).
Proof.
  split.
  - intros (resp & w' & Hrun & Hcode).
    destruct (get_playback_url_created _ _ _ _ _ _ Hrun Hcode)
      as (row & obj & w1 & Hobj & Hcreate).
    apply ViewSession_objects_create_inv in Hcreate
      as (ip & Hip & Hne & Huniq & Huser & _).
    apply get_playback_url_inv in Hrun
      as (row' & Hobj' & _ & [(_ & Hc & _)|[(_ & _ & _ & Hc & _)|Hok]]);
      [by rewrite Hc in Hcode|by rewrite Hc in Hcode|].
    destruct Hok as (Hst & Hpermit & _).
    assert (row' = row) as -> by congruence.
    exists row, ip. split_and!; try done.
  - intros (row & ip & Hobj & Hst & Hpermit & Hip & Hne & Huniq & Huser).
    destruct (get_playback_url_Ok request pk uuid w row ip)
      as (resp & w' & Hrun & Hcode & _); try done.
    by exists resp, w'.
Qed.

(** X8. A session that a playback request has just started can be ended by
    the same user, whatever else holds: the view [end] finds it and succeeds.
    It then leaves [current_viewers] as it was before the playback request
    when that was not negative, [peak_viewers] at the value the playback
    request gave it, the session ended with the whole seconds between its
    creation and its end as [watch_duration], and the user charged that
    duration and no data. *)
Theorem playback_then_end (request : Request) (pk : Z) (uuid : string)
    (w : World) (resp : Response) (w1 : World) :
  get_playback_url request pk uuid w = (Ok resp, w1) →
  status_code resp = HTTP_200_OK →
  ∃ row u resp2 w2 st2 s2 u2,
    streams w !! pk = Some row
    ∧ users w !! (req_user request).1 = Some u
    ∧ ViewSessionViewSet.end_ request (next_pk (sessions w)) w1 = (Ok resp2, w2)
    ∧ resp2 = mkResponse (EndedBody "ended" (ViewSession.watch_duration s2) 0)
                HTTP_200_OK
    ∧ streams w2 !! pk = Some st2
    ∧ (0 ≤ Stream.current_viewers row →
       Stream.current_viewers st2 = Stream.current_viewers row)
    ∧ Stream.peak_viewers st2
      = Z.max (Stream.peak_viewers row) (Z.max 0 (Stream.current_viewers row + 1))
    ∧ sessions w2 !! next_pk (sessions w) = Some s2
    ∧ ViewSession.ended_at s2 = Some (clock w (S (S (S (reads w)))))
    ∧ ViewSession.watch_duration s2
      = int_total_seconds (clock w (S (S (S (reads w)))) - clock w (S (reads w)))
    ∧ users w2 !! (req_user request).1 = Some u2
    ∧ User.total_watch_time u2
      = User.total_watch_time u + ViewSession.watch_duration s2
    ∧ User.monthly_data_used u2 = User.monthly_data_used u.
Proof.
  intros Hrun Hcode.
  destruct (get_playback_url_created _ _ _ _ _ _ Hrun Hcode)
    as (row & obj & w0 & Hobj & Hcreate).
  apply ViewSession_objects_create_inv in Hcreate
    as (ip & Hip & Hne & Huniq & [u Hu] & _).
  pose proof Hrun as Hrun'.
  apply get_playback_url_inv in Hrun'
    as (row' & Hobj' & Hrow & [(_ & Hc & _)|[(_ & _ & _ & Hc & _)|Hok]]);
    [by rewrite Hc in Hcode|by rewrite Hc in Hcode|].
  destruct Hok as (Hst & Hpermit & _).
  assert (row' = row) as -> by congruence.
  destruct (get_playback_url_Ok request pk uuid w row ip Hobj Hst Hpermit Hip Hne
              Huniq (ex_intro _ u Hu))
    as (resp' & w1' & Hrun2 & _ & Hstreams & Husers & (s & Hsessions & Hsu & Hss
        & Hse & Hsd & Hsa) & Hclock & Hreads).
  rewrite Hrun in Hrun2. injection Hrun2 as <- <-.
  assert (Hs1 : sessions w1 !! next_pk (sessions w) = Some s).
  { rewrite Hsessions. apply lookup_insert_eq. }
  assert (Hrow1 : streams w1 !! ViewSession.stream s = Some (Stream.count_viewers 1 row)).
  { rewrite Hss, Hstreams. apply lookup_insert_eq. }
  assert (Hu1 : users w1 !! ViewSession.user s = Some u).
  { by rewrite Hsu, Husers. }
  pose proof (end_session_active (next_pk (sessions w)) s w1 _ u Hse Hrow1 Hu1)
    as Hend. cbv zeta in Hend.
  set (s2 := ended_session (clock w1 (reads w1)) (clock w1 (S (reads w1))) s) in *.
  set (w2 := mkWorld _ _ _ _ _) in Hend.
  exists row, u,
    (mkResponse (EndedBody "ended" (ViewSession.watch_duration s2)
                   (ViewSession.data_consumed s2)) HTTP_200_OK),
    w2, (Stream.count_viewers (-1) (Stream.count_viewers 1 row)), s2,
    (charged_user s2 u).
  split_and!; [done|done| |..].
  - unfold ViewSessionViewSet.end_. run_M.
    rewrite (ViewSessionViewSet_get_object_visible _ _ _ s Hs1) by (by right).
    by rewrite Hend.
  - simpl. by rewrite Hsd.
  - subst w2; simpl. rewrite Hss. apply lookup_insert_eq.
  - intros Hpos. rewrite !count_viewers_current. lia.
  - rewrite !count_viewers_peak, !count_viewers_current. lia.
  - subst w2; simpl. apply lookup_insert_eq.
  - simpl. by rewrite Hclock, Hreads.
  - simpl. by rewrite Hclock, Hreads, Hsa.
  - subst w2; simpl. rewrite Hsu. apply lookup_insert_eq.
  - simpl. by destruct u.
  - simpl. rewrite Hsd. destruct u; simpl. lia.
Qed.

End PlaybackSuccess.

(** ** Heartbeats and ends *)

Lemma heartbeat_run (request : Request) (pk : Z) (w : World) (s : ViewSession.t) :
  sessions w !! pk = Some s → visible request s →
  ViewSessionViewSet.heartbeat request pk w
  = (Ok (mkResponse (StatusBody "ok") HTTP_200_OK),
     mkWorld (streams w) (users w)
       (<[pk := ViewSession.set_last_heartbeat (clock w (S (reads w)))
                  (ViewSessionViewSet.assign (data_average_bitrate request)
                     ViewSession.set_average_bitrate
                     (ViewSessionViewSet.assign (data_data_consumed request)
                        ViewSession.set_data_consumed
                        (ViewSessionViewSet.assign (data_quality_switches request)
                           ViewSession.set_quality_switches
                           (ViewSessionViewSet.assign (data_buffer_count request)
                              ViewSession.set_buffer_count
                              (ViewSession.set_last_heartbeat (clock w (reads w)) s)))))]>
          (sessions w))
       (clock w) (S (S (reads w)))).
Proof.
  intros Hs Hv. unfold ViewSessionViewSet.heartbeat. run_M.
  rewrite (ViewSessionViewSet_get_object_visible _ _ _ _ Hs Hv).
  unfold timezone_now, ViewSession_save, timezone_now, write_session. run_M.
  cbn -[lookup insert alter]. unfold set_sessions.
  cbn -[lookup insert alter]. reflexivity.
Qed.

(** X9. What a session's user is charged for data is what the last
    heartbeat said: when a heartbeat gives [data_consumed] the value [d] to an
    active session and the session is then ended, the view [end] answers with
    [d], and the user's [monthly_data_used] grows by exactly [d], whatever the
    session had recorded before and whatever the sign of [d]. *)
Theorem heartbeat_then_end (request1 request2 : Request) (pk : Z) (w : World)
    (s : ViewSession.t) (row : Stream.t) (u : User.t) (d : Z) :
  sessions w !! pk = Some s →
  visible request1 s →
  visible request2 s →
  ViewSession.ended_at s = None →
  data_data_consumed request1 = Some d →
  streams w !! ViewSession.stream s = Some row →
  users w !! ViewSession.user s = Some u →
  ∃ w1 w2 u2,
    ViewSessionViewSet.heartbeat request1 pk w
    = (Ok (mkResponse (StatusBody "ok") HTTP_200_OK), w1)
    ∧ ViewSessionViewSet.end_ request2 pk w1
      = (Ok (mkResponse
               (EndedBody "ended"
                  (int_total_seconds
                     (clock w (S (S (reads w))) - ViewSession.started_at s)) d)
               HTTP_200_OK), w2)
    ∧ users w2 !! ViewSession.user s = Some u2
    ∧ User.monthly_data_used u2 = User.monthly_data_used u + d
    ∧ User.total_watch_time u2
      = User.total_watch_time u
        + int_total_seconds (clock w (S (S (reads w))) - ViewSession.started_at s).
Proof.
  intros Hs Hv1 Hv2 He Hd Hrow Hu.
  pose proof (heartbeat_run request1 pk w s Hs Hv1) as Hhb.
  set (s1 := ViewSession.set_last_heartbeat _ _) in Hhb.
  set (w1 := mkWorld _ _ _ _ _) in Hhb.
  assert (Hfields : ViewSession.user s1 = ViewSession.user s
                    ∧ ViewSession.stream s1 = ViewSession.stream s
                    ∧ ViewSession.ended_at s1 = None
                    ∧ ViewSession.started_at s1 = ViewSession.started_at s
                    ∧ ViewSession.data_consumed s1 = d).
  { subst s1. rewrite Hd. unfold ViewSessionViewSet.assign.
    destruct (data_buffer_count request1), (data_quality_switches request1),
      (data_average_bitrate request1); by split_and!. }
  destruct Hfields as (Hu1 & Hst1 & He1 & Hsa1 & Hd1). clearbody s1.
  assert (Hs1 : sessions w1 !! pk = Some s1) by (subst w1; apply lookup_insert_eq).
  assert (Hv2' : visible request2 s1) by (unfold visible in *; by rewrite Hu1).
  assert (Hrow1 : streams w1 !! ViewSession.stream s1 = Some row) by (by rewrite Hst1).
  assert (Husr1 : users w1 !! ViewSession.user s1 = Some u) by (by rewrite Hu1).
  pose proof (end_session_active pk s1 w1 row u He1 Hrow1 Husr1) as Hend.
  cbv zeta in Hend.
  set (s2 := ended_session _ _ s1) in Hend. set (w2 := mkWorld _ _ _ _ _) in Hend.
  exists w1, w2, (charged_user s2 u). split_and!.
  - done.
  - unfold ViewSessionViewSet.end_. run_M.
    rewrite (ViewSessionViewSet_get_object_visible _ _ _ s1 Hs1 Hv2'), Hend.
    cbn [fst snd]. subst s2. simpl. by rewrite Hsa1, Hd1.
  - subst w2; simpl. rewrite Hu1. apply lookup_insert_eq.
  - subst s2. simpl. rewrite Hd1. by destruct u.
  - subst s2. simpl. rewrite Hsa1. by destruct u.
Qed.

(** ** Requests that fail *)

Lemma StreamViewSet_get_object_filter (request : Request) (pk : Z) (w : World)
    (obj : Z * Stream.t) (w' : World) (status_filter : string) :
  StreamViewSet.get_object request pk w = (Ok obj, w') →
  query_status request = Some status_filter →
  status_filter ≠ "" →
  Stream.value (Stream.status obj.2) = status_filter.
Proof.
  unfold StreamViewSet.get_object, StreamViewSet.get_queryset. run_M.
  intros Hrun Hq Hne. rewrite Hq in Hrun. rewrite decide_False in Hrun by done.
  apply get_object_or_404_inv in Hrun as [_ [_ Hrun]].
  by apply map_lookup_filter_Some in Hrun as [_ ?].
Qed.

Lemma StreamViewSet_get_object_mismatch (request : Request) (pk : Z) (w : World)
    (status_filter : string) :
  query_status request = Some status_filter →
  status_filter ≠ "" →
  (∀ row, streams w !! pk = Some row →
          Stream.value (Stream.status row) ≠ status_filter) →
  StreamViewSet.get_object request pk w = (Raise Http404, w).
Proof.
  intros Hq Hne Hrow.
  destruct (StreamViewSet.get_object request pk w) as [[obj|e] w'] eqn:Hrun.
  - pose proof (StreamViewSet_get_object_filter _ _ _ _ _ _ Hrun Hq Hne) as Hf.
    apply StreamViewSet_get_object_inv in Hrun as (_ & _ & Hobj).
    by destruct (Hrow _ Hobj).
  - by apply StreamViewSet_get_object_inv in Hrun as [-> ->].
Qed.

Section PlaybackFailure.

Variable md5_hexdigest : string → string.
Variable HLS_BASE_URL : string.
Variable HLS_SECRET_KEY : string.

Local Abbreviation get_playback_url :=
  (StreamViewSet.get_playback_url md5_hexdigest HLS_BASE_URL HLS_SECRET_KEY).

Lemma get_playback_url_Raise (request : Request) (pk : Z) (uuid : string)
    (w : World) (e : Exn) (w' : World) :
  get_playback_url request pk uuid w = (Raise e, w') →
  (e = Http404 ∧ w' = w
   ∧ ∀ row, StreamViewSet.get_object request pk w ≠ (Ok (pk, row), w))
  ∨ (e = IntegrityError ∧ w' = tick (tick (tick w))
     ∧ ∃ row, StreamViewSet.get_object request pk w = (Ok (pk, row), w)
              ∧ Stream.status row = Stream.ONLINE
              ∧ (default "auto" (data_quality request) = "auto"
                 ∨ User.can_watch_quality (req_user request).2
                     (default "auto" (data_quality request)) = Ok true)).
Proof.
  unfold StreamViewSet.get_playback_url. run_M.
  destruct (StreamViewSet.get_object request pk w) as [[[pk' row]|e0] w1] eqn:Hobj.
  - apply StreamViewSet_get_object_inv in Hobj as Hinv.
    destruct Hinv as [-> [Hpk _]]. simpl in Hpk. subst pk'.
    case_bool_decide as Hst; [done|]. simpl in Hst.
    assert (Htail : ∀ url,
      (let (o, w'0) := ViewSession_objects_create (req_user request).1 pk uuid
                         (default "unknown" (data_device_type request))
                         (default "auto" (data_quality request))
                         (StreamViewSet.get_client_ip request)
                         (default "" (HTTP_USER_AGENT request)) (tick w) in
       match o with
       | Ok _ =>
           let (o1, w'2) := update_viewer_count (pk, row) 1 w'0 in
           match o1 with
           | Ok a1 =>
               (Ok (mkResponse
                      (PlaybackBody url uuid (default "auto" (data_quality request))
                         (Stream.available_qualities a1.2) 3600) HTTP_200_OK), w'2)
           | Raise e => (Raise e, w'2)
           end
       | Raise e => (Raise e, w'0)
       end) = (Raise e, w') →
      e = IntegrityError ∧ w' = tick (tick (tick w))).
    { intros url.
      destruct (ViewSession_objects_create _ _ _ _ _ _ _ (tick w)) as [[obj|e1] w2]
        eqn:Hcreate.
      - unfold update_viewer_count, Stream_save_viewers. run_M. done.
      - apply ViewSession_objects_create_inv in Hcreate as [-> ->].
        by intros [= <- <-]. }
    case_bool_decide as Hq; run_M.
    + destruct (can_watch_quality_returns (req_user request).2
                  (default "auto" (data_quality request))) as [[|] Hcan];
        rewrite Hcan; cbn [negb]; [|done].
      unfold generate_signed_url, timezone_now. run_M. intros Hrun.
      right. destruct (Htail _ Hrun) as [-> ->]. split_and!; try done.
      exists row. split_and!; try done. by right.
    + unfold generate_signed_url, timezone_now. run_M. intros Hrun.
      right. destruct (Htail _ Hrun) as [-> ->]. split_and!; try done.
      exists row. split_and!; try done. by left.
  - apply StreamViewSet_get_object_inv in Hobj as [-> ->].
    intros [= <- <-]. left. by split_and!.
Qed.

(** X10. A playback request that raises has created no session and changed
    no stream and no user. It raises [Http404] when the stream is not found,
    with the world as it was; otherwise it raises [IntegrityError], after the
    checks of the stream and of the quality have passed and three clock
    readings are consumed, and then no client address could be read from the
    request, or the address is empty, or the drawn [session_id] is taken, or
    the user is not in the table. *)
Theorem get_playback_url_raises (request : Request) (pk : Z) (uuid : string)
    (w : World) (e : Exn) (w' : World) :
  get_playback_url request pk uuid w = (Raise e, w') →
  streams w' = streams w ∧ users w' = users w ∧ sessions w' = sessions w
  ∧ ((e = Http404 ∧ w' = w)
     ∨ (e = IntegrityError ∧ reads w' = S (S (S (reads w)))
        ∧ (StreamViewSet.get_client_ip request = None
           ∨ StreamViewSet.get_client_ip request = Some ""
           ∨ (∃ k s, sessions w !! k = Some s ∧ ViewSession.session_id s = uuid)
           ∨ users w !! (req_user request).1 = None))).
Proof.
  intros Hrun.
  destruct (get_playback_url_Raise _ _ _ _ _ _ Hrun)
    as [(-> & -> & _)|(-> & -> & row & Hobj & Hst & Hpermit)].
  - split_and!; try done. by left.
  - split_and!; try done. right. split_and!; try done.
    destruct (StreamViewSet.get_client_ip request) as [ip|] eqn:Hip; [|by left].
    destruct (decide (ip = "")) as [->|Hne]; [right; by left|].
    destruct (decide (map_Forall (fun _ s => ViewSession.session_id s ≠ uuid)
                        (sessions w))) as [Huniq|Hdup].
    + destruct (users w !! (req_user request).1) as [u|] eqn:Hu;
        [|by right; right; right].
      destruct (get_playback_url_Ok md5_hexdigest HLS_BASE_URL HLS_SECRET_KEY
                  request pk uuid w row ip)
        as (resp & w2 & Hrun2 & _); try done. congruence.
    + right; right; left. apply map_not_Forall in Hdup; [|apply _].
      destruct Hdup as (k & s & Hs & Hid). exists k, s. split; [done|].
      by apply dec_stable.
Qed.

(** X11. The view passes the [status] parameter of the query to the lookup
    of the stream: with a parameter that is not empty and differs from the
    stored status of the stream the request raises [Http404] although the
    stream exists, and with a parameter other than [ONLINE] it is never
    answered 200. *)
Theorem get_playback_url_status_filter (request : Request) (pk : Z)
    (uuid : string) (w : World) (status_filter : string) :
  query_status request = Some status_filter →
  status_filter ≠ "" →
  (∀ row, streams w !! pk = Some row →
          Stream.value (Stream.status row) ≠ status_filter →
          get_playback_url request pk uuid w = (Raise Http404, w))
  ∧ (status_filter ≠ "ONLINE" →
     ∀ resp w', get_playback_url request pk uuid w = (Ok resp, w') →
                status_code resp = HTTP_400_BAD_REQUEST ∧ w' = w).
Proof.
  intros Hq Hne. split.
  - intros row Hrow Hmis. unfold StreamViewSet.get_playback_url. run_M.
    rewrite (StreamViewSet_get_object_mismatch request pk w status_filter);
      try done.
    intros row' Hrow'. congruence.
  - intros Hnot resp w' Hrun.
    apply get_playback_url_inv in Hrun
      as (row & Hobj & _ & [(_ & Hc & ->)|[(Hst & _)|(Hst & _)]]); [done|..];
      pose proof (StreamViewSet_get_object_filter _ _ _ _ _ _ Hobj Hq Hne) as Hf;
      simpl in Hf; rewrite Hst in Hf; by destruct Hnot.
Qed.

End PlaybackFailure.

Lemma end_not_visible (request : Request) (pk : Z) (w : World) :
  (∀ s, sessions w !! pk = Some s → ¬ visible request s) →
  ViewSessionViewSet.end_ request pk w = (Raise Http404, w).
Proof.
  intros Hno. unfold ViewSessionViewSet.end_. run_M.
  destruct (ViewSessionViewSet.get_object request pk w) as [[[pk' s]|e] w0] eqn:Hobj;
    apply ViewSessionViewSet_get_object_inv in Hobj as [-> Hobj].
  - destruct Hobj as (_ & Hs & Hv). by destruct (Hno _ Hs).
  - by destruct Hobj as [-> _].
Qed.

Lemma heartbeat_not_visible (request : Request) (pk : Z) (w : World) :
  (∀ s, sessions w !! pk = Some s → ¬ visible request s) →
  ViewSessionViewSet.heartbeat request pk w = (Raise Http404, w).
Proof.
  intros Hno. unfold ViewSessionViewSet.heartbeat. run_M.
  destruct (ViewSessionViewSet.get_object request pk w) as [[[pk' s]|e] w0] eqn:Hobj;
    apply ViewSessionViewSet_get_object_inv in Hobj as [-> Hobj].
  - destruct Hobj as (_ & Hs & Hv). by destruct (Hno _ Hs).
  - by destruct Hobj as [-> _].
Qed.

(** X12. A user who is not staff cannot touch the session of another user:
    both [heartbeat] and [end] raise [Http404] for it, as they do for a key
    that no session has, and leave the world as it was; the session is
    neither updated nor ended and nobody is charged. *)
Theorem session_isolation (request : Request) (pk : Z) (w : World) :
  User.is_staff (req_user request).2 = false →
  (∀ s, sessions w !! pk = Some s → ViewSession.user s ≠ (req_user request).1) →
  ViewSessionViewSet.heartbeat request pk w = (Raise Http404, w)
  ∧ ViewSessionViewSet.end_ request pk w = (Raise Http404, w).
Proof.
  intros Hstaff Hother.
  assert (Hno : ∀ s, sessions w !! pk = Some s → ¬ visible request s).
  { intros s Hs [Hv|Hv]; [congruence|]. by destruct (Hother s Hs). }
  split; [by apply heartbeat_not_visible|by apply end_not_visible].
Qed.

(** X13. [stream_start] for a key that no stream has, and so for a request
    without [name], answers 404 "Stream not found" and leaves the world as it
    was: nothing is written and the clock is not read. *)
Theorem stream_start_unknown (request : Request) (w : World) :
  (∀ pk row, streams w !! pk = Some row →
             Some (Stream.stream_key row) ≠ data_name request) →
  WebhookViewSet.stream_start request w
  = (Ok (mkResponse (ErrorBody "Stream not found") HTTP_404_NOT_FOUND), w).
Proof.
  intros Hno. unfold WebhookViewSet.stream_start, try_except. run_M.
  by rewrite (Stream_objects_get_unknown _ _ Hno).
Qed.

(** ** Webhooks and playback *)

Lemma stream_start_run (request : Request) (w : World) (key : string)
    (pk : Z) (row : Stream.t) :
  data_name request = Some key →
  streams w !! pk = Some row →
  Stream.stream_key row = key →
  (∀ pk' row', streams w !! pk' = Some row' → Stream.stream_key row' = key → pk' = pk) →
  WebhookViewSet.stream_start request w
  = (Ok (mkResponse (StatusBody "ok") HTTP_200_OK),
     mkWorld
       (<[pk := Stream.set_updated_at (clock w (S (reads w)))
                  (Stream.set_current_viewers 0
                     (Stream.set_started_at (Some (clock w (reads w)))
                        (Stream.set_status Stream.ONLINE row)))]> (streams w))
       (users w) (sessions w) (clock w) (S (S (reads w)))).
Proof.
  intros Hname Hrow Hkey Huniq.
  unfold WebhookViewSet.stream_start, try_except. rewrite Hname. run_M.
  rewrite (Stream_objects_get_unique _ _ _ _ Hrow Hkey Huniq).
  unfold timezone_now, Stream_save, timezone_now, write_stream. run_M.
  cbn -[lookup insert alter]. unfold set_streams.
  cbn -[lookup insert alter]. reflexivity.
Qed.

(** [end_session] writes the [status] of no stream. *)
Lemma end_session_status (k pk : Z) (s : ViewSession.t) (w : World) :
  Stream.status <$> streams (end_session (k, s) w).2 !! pk
  = Stream.status <$> streams w !! pk.
Proof.
  unfold end_session. cbn [fst snd].
  destruct (ViewSession.ended_at s) as [t|]; [done|].
  unfold ViewSession_save, timezone_now, write_session, ViewSession_stream,
    ViewSession_user, User_save_usage, update_viewer_count, Stream_save_viewers.
  run_M. cbn -[lookup insert alter].
  destruct (streams w !! ViewSession.stream s) as [row|] eqn:Hrow; run_M;
    cbn -[lookup insert alter]; [|done].
  assert (Halter : ∀ f : Stream.t → Stream.t,
            (∀ x, Stream.status (f x) = Stream.status x) →
            Stream.status <$> alter f (ViewSession.stream s) (streams w) !! pk
            = Stream.status <$> streams w !! pk).
  { intros f Hf. rewrite lookup_alter. case_decide as Hpk; [|done]. subst pk.
    destruct (streams w !! ViewSession.stream s); simpl; [by rewrite Hf|done]. }
  destruct (users w !! ViewSession.user s) as [u|]; run_M;
    cbn -[lookup insert alter]; by apply Halter.
Qed.

Lemma end_sessions_status (l : list (Z * ViewSession.t)) (pk : Z) (w : World) :
  Stream.status
    <$> streams (for_each l (fun session => _ ← end_session session; mret tt) w).2 !! pk
  = Stream.status <$> streams w !! pk.
Proof.
  revert w. induction l as [|[k s] l IH]; intros w; [done|].
  simpl. pose proof (end_session_status k pk s w) as Hend.
  unfold mbind, mret, M_bind, M_ret in *.
  destruct (end_session (k, s) w) as [[a|e] w1]; cbn [fst snd] in *; [|done].
  by rewrite IH.
Qed.

Lemma stream_stop_status (request : Request) (w : World) (key : string)
    (pk : Z) (row : Stream.t) :
  data_name request = Some key →
  streams w !! pk = Some row →
  Stream.stream_key row = key →
  (∀ pk' row', streams w !! pk' = Some row' → Stream.stream_key row' = key → pk' = pk) →
  Stream.status <$> streams (WebhookViewSet.stream_stop request w).2 !! pk
  = Some Stream.OFFLINE.
Proof.
  intros Hname Hrow Hkey Huniq.
  unfold WebhookViewSet.stream_stop, try_except. rewrite Hname. run_M.
  rewrite (Stream_objects_get_unique _ _ _ _ Hrow Hkey Huniq).
  unfold timezone_now, Stream_save, timezone_now, write_stream, active_sessions.
  run_M. cbn -[lookup insert alter active_on]. unfold set_streams.
  cbn -[lookup insert alter active_on].
  match goal with |- context [for_each ?l ?body ?w2] =>
    pose proof (end_sessions_status l pk w2) as Hloop;
    unfold mbind, mret, M_bind, M_ret in Hloop;
    destruct (for_each l body w2) as [[u|e] w3] end;
    cbn [fst snd] in *.
  - rewrite Hloop. cbn -[lookup insert]. by rewrite lookup_insert_eq.
  - assert (Hsame : ∀ r : outcome Response * World,
              r = match WebhookViewSet.except_Stream_DoesNotExist e with
                  | Some h => h w3
                  | None => (Raise e, w3)
                  end → r.2 = w3).
    { intros r ->. unfold WebhookViewSet.except_Stream_DoesNotExist.
      by destruct e as [| |[]| |]. }
    rewrite (Hsame _ eq_refl), Hloop. cbn -[lookup insert].
    by rewrite lookup_insert_eq.
Qed.

Lemma StreamViewSet_get_object_found (request : Request) (pk : Z) (w : World)
    (row : Stream.t) :
  streams w !! pk = Some row →
  (query_status request = None ∨ query_status request = Some ""
   ∨ query_status request = Some (Stream.value (Stream.status row))) →
  StreamViewSet.get_object request pk w = (Ok (pk, row), w).
Proof.
  intros Hrow Hq. unfold StreamViewSet.get_object, StreamViewSet.get_queryset.
  run_M. unfold get_object_or_404.
  destruct Hq as [Hq | [Hq | Hq]]; rewrite Hq.
  - by rewrite Hrow.
  - simpl. by rewrite Hrow.
  - case_decide; [by rewrite Hrow|].
    assert (Hf : filter (fun kv : Z * Stream.t =>
                    Stream.value (Stream.status kv.2)
                    = Stream.value (Stream.status row)) (streams w) !! pk
                 = Some row) by (by apply map_lookup_filter_Some).
    by rewrite Hf.
Qed.

Section WebhooksAndPlayback.

Variable md5_hexdigest : string → string.
Variable HLS_BASE_URL : string.
Variable HLS_SECRET_KEY : string.

Local Abbreviation get_playback_url :=
  (StreamViewSet.get_playback_url md5_hexdigest HLS_BASE_URL HLS_SECRET_KEY).

(** X14. Once [stream_stop] has run for the key of a stream, whether it
    answered or raised while ending the sessions, the stream is [OFFLINE]: a
    playback request for it (with no [status] filter, or one that lets the
    stream through) is answered 400 and changes nothing. *)
Theorem stop_then_playback (request : Request) (w : World) (key : string)
    (pk : Z) (row : Stream.t) (request2 : Request) (uuid : string) :
  data_name request = Some key →
  streams w !! pk = Some row →
  Stream.stream_key row = key →
  (∀ pk' row', streams w !! pk' = Some row' → Stream.stream_key row' = key → pk' = pk) →
  (query_status request2 = None ∨ query_status request2 = Some ""
   ∨ query_status request2 = Some "OFFLINE") →
  let w' := (WebhookViewSet.stream_stop request w).2 in
  Stream.status <$> streams w' !! pk = Some Stream.OFFLINE
  ∧ get_playback_url request2 pk uuid w'
    = (Ok (mkResponse (ErrorBody "Stream is not currently online")
             HTTP_400_BAD_REQUEST), w').
Proof.
  intros Hname Hrow Hkey Huniq Hq w'.
  pose proof (stream_stop_status request w key pk row Hname Hrow Hkey Huniq) as Hst.
  fold w' in Hst. split; [done|].
  destruct (streams w' !! pk) as [row'|] eqn:Hrow'; [|done].
  injection Hst as Hst.
  apply (get_playback_url_offline md5_hexdigest HLS_BASE_URL HLS_SECRET_KEY
           request2 pk uuid w' (pk, row')).
  - apply StreamViewSet_get_object_found; [done|]. rewrite Hst. simpl. tauto.
  - simpl. by rewrite Hst.
Qed.

(** X15. Once [stream_start] has run for the key of a stream, a playback
    request of a user of the table, for [auto] or a quality the user's tier
    allows, with a client address and a fresh [session_id], is answered 200,
    and it leaves the stream with one viewer: the webhook has reset
    [current_viewers] to [0], whatever it was and whatever sessions were
    still active. *)
Theorem start_then_playback (request : Request) (w : World) (key : string)
    (pk : Z) (row : Stream.t) (request2 : Request) (uuid ip : string) :
  data_name request = Some key →
  streams w !! pk = Some row →
  Stream.stream_key row = key →
  (∀ pk' row', streams w !! pk' = Some row' → Stream.stream_key row' = key → pk' = pk) →
  (query_status request2 = None ∨ query_status request2 = Some ""
   ∨ query_status request2 = Some "ONLINE") →
  (default "auto" (data_quality request2) = "auto"
   ∨ User.can_watch_quality (req_user request2).2
       (default "auto" (data_quality request2)) = Ok true) →
  StreamViewSet.get_client_ip request2 = Some ip →
  ip ≠ "" →
  (∀ k s, sessions w !! k = Some s → ViewSession.session_id s ≠ uuid) →
  is_Some (users w !! (req_user request2).1) →
  ∃ w1 resp w2 row2,
    WebhookViewSet.stream_start request w
    = (Ok (mkResponse (StatusBody "ok") HTTP_200_OK), w1)
    ∧ get_playback_url request2 pk uuid w1 = (Ok resp, w2)
    ∧ status_code resp = HTTP_200_OK
    ∧ streams w2 !! pk = Some row2
    ∧ Stream.current_viewers row2 = 1
    ∧ Stream.peak_viewers row2 = Z.max (Stream.peak_viewers row) 1.
Proof.
  intros Hname Hrow Hkey Huniq Hq Hpermit Hip Hne Hfresh Huser.
  pose proof (stream_start_run request w key pk row Hname Hrow Hkey Huniq) as Hstart.
  set (row1 := Stream.set_updated_at _ _) in Hstart.
  set (w1 := mkWorld _ _ _ _ _) in Hstart.
  assert (Hrow1 : streams w1 !! pk = Some row1) by (subst w1; apply lookup_insert_eq).
  destruct (get_playback_url_Ok md5_hexdigest HLS_BASE_URL HLS_SECRET_KEY
              request2 pk uuid w1 row1 ip)
    as (resp & w2 & Hrun & Hcode & Hstreams & _); try done.
  { apply StreamViewSet_get_object_found; [done|]. subst row1. simpl. tauto. }
  exists w1, resp, w2, (Stream.count_viewers 1 row1). split_and!; try done.
  - rewrite Hstreams. apply lookup_insert_eq.
  - rewrite count_viewers_current. subst row1. simpl. lia.
  - rewrite count_viewers_peak. subst row1. simpl. lia.
Qed.

End WebhooksAndPlayback.

Lemma stream_stop_run (request : Request) (w : World) (key : string)
    (pk : Z) (row : Stream.t) :
  data_name request = Some key →
  streams w !! pk = Some row →
  Stream.stream_key row = key →
  (∀ pk' row', streams w !! pk' = Some row' → Stream.stream_key row' = key → pk' = pk) →
  (∀ k s, sessions w !! k = Some s → ViewSession.stream s = pk →
          ViewSession.ended_at s = None →
          is_Some (users w !! ViewSession.user s)) →
  ∃ w' row',
    WebhookViewSet.stream_stop request w
    = (Ok (mkResponse (StatusBody "ok") HTTP_200_OK), w')
    ∧ streams w' = <[pk := row']> (streams w)
    ∧ Stream.stream_key row' = key
    ∧ Stream.status row' = Stream.OFFLINE
    ∧ Stream.current_viewers row' = 0
    ∧ (∀ k s', sessions w' !! k = Some s' → ViewSession.stream s' = pk →
               is_Some (ViewSession.ended_at s'))
    ∧ (active_on pk (sessions w) = [] →
       sessions w' = sessions w ∧ users w' = users w).
Proof.
  intros Hname Hrow Hkey Huniq Hfk.
  set (row2 := Stream.set_updated_at (clock w (S (reads w)))
                 (Stream.set_current_viewers 0
                    (Stream.set_ended_at (Some (clock w (reads w)))
                       (Stream.set_status Stream.OFFLINE row)))).
  set (w2 := mkWorld (<[pk := row2]> (streams w)) (users w) (sessions w)
               (clock w) (S (S (reads w)))).
  destruct (end_sessions_run pk (active_on pk (sessions w)) w2 row2)
    as (w' & Hloop & Hnil & (p & Hstreams & Hp) & Hother & Hended & Husers).
  { apply NoDup_fst_map_to_list. }
  { intros k s Hin. apply elem_of_active_on in Hin as (Hs & Hst & Hact).
    split_and!; try done. by apply (Hfk k s). }
  { apply lookup_insert_eq. }
  { done. }
  exists w', (Stream.set_peak_viewers p row2). split_and!; try done.
  - unfold WebhookViewSet.stream_stop, try_except. rewrite Hname. run_M.
    rewrite (Stream_objects_get_unique _ _ _ _ Hrow Hkey Huniq).
    unfold timezone_now, Stream_save, timezone_now, write_stream, active_sessions.
    run_M. cbn -[lookup insert alter active_on]. unfold set_streams.
    cbn -[lookup insert alter active_on]. fold row2. fold w2.
    unfold mbind, mret, M_bind, M_ret in Hloop. by rewrite Hloop.
  - rewrite Hstreams. subst w2; simpl. apply insert_insert_eq.
  - intros k s' Hs' Hst'.
    destruct (sessions w !! k) as [s|] eqn:Hs.
    + destruct (decide (ViewSession.stream s = pk ∧ ViewSession.ended_at s = None))
        as [[Hst Hact]|Hnot].
      * destruct (Hended k s) as (now & saved & Hk);
          [by apply elem_of_active_on|].
        rewrite Hk in Hs'. injection Hs' as <-. by eexists.
      * rewrite Hother in Hs'.
        -- subst w2; simpl in *. simplify_eq.
           destruct (ViewSession.ended_at s') eqn:He; [by eexists|tauto].
        -- rewrite active_on_keys. intros (s0 & Hs0 & Hst & Hact).
           subst w2; simpl in *. simplify_eq. tauto.
    + rewrite Hother in Hs'; [subst w2; simpl in *; congruence|].
      rewrite active_on_keys. intros (s0 & Hs0 & _). subst w2; simpl in *.
      congruence.
  - intros Hempty. specialize (Hnil Hempty). by subst w'.
Qed.

Lemma active_on_nil (pk : Z) (table : gmap Z ViewSession.t) :
  (∀ k s, table !! k = Some s → ViewSession.stream s = pk →
          is_Some (ViewSession.ended_at s)) →
  active_on pk table = [].
Proof.
  intros Hended. destruct (active_on pk table) as [|[k s] l] eqn:Hl; [done|].
  assert (Hin : (k, s) ∈ active_on pk table) by (rewrite Hl; left).
  apply elem_of_active_on in Hin as (Hs & Hst & Hact).
  destruct (Hended k s Hs Hst) as [t Ht]. congruence.
Qed.

(** X16. A stop webhook that is delivered twice charges nobody twice: when
    [stream_stop] has answered for the key of a stream, a second
    [stream_stop] for it answers too, finds no active session of the stream,
    and changes no session and no user; the stream stays [OFFLINE] with no
    viewer. *)
Theorem stream_stop_twice (request : Request) (w : World) (key : string)
    (pk : Z) (row : Stream.t) :
  data_name request = Some key →
  streams w !! pk = Some row →
  Stream.stream_key row = key →
  (∀ pk' row', streams w !! pk' = Some row' → Stream.stream_key row' = key → pk' = pk) →
  (∀ k s, sessions w !! k = Some s → ViewSession.stream s = pk →
          ViewSession.ended_at s = None →
          is_Some (users w !! ViewSession.user s)) →
  ∃ w1 w2 row2,
    WebhookViewSet.stream_stop request w
    = (Ok (mkResponse (StatusBody "ok") HTTP_200_OK), w1)
    ∧ WebhookViewSet.stream_stop request w1
      = (Ok (mkResponse (StatusBody "ok") HTTP_200_OK), w2)
    ∧ active_on pk (sessions w1) = []
    ∧ sessions w2 = sessions w1
    ∧ users w2 = users w1
    ∧ streams w2 !! pk = Some row2
    ∧ Stream.status row2 = Stream.OFFLINE
    ∧ Stream.current_viewers row2 = 0.
Proof.
  intros Hname Hrow Hkey Huniq Hfk.
  destruct (stream_stop_run request w key pk row Hname Hrow Hkey Huniq Hfk)
    as (w1 & row1 & Hrun1 & Hstreams1 & Hkey1 & _ & _ & Hended1 & _).
  assert (Hnil : active_on pk (sessions w1) = []) by (by apply active_on_nil).
  destruct (stream_stop_run request w1 key pk row1 Hname)
    as (w2 & row2 & Hrun2 & Hstreams2 & _ & Hst2 & Hcur2 & _ & Hsame).
  { rewrite Hstreams1. apply lookup_insert_eq. }
  { done. }
  { intros pk' row' Hrow' Hkey'. destruct (decide (pk' = pk)) as [|Hne]; [done|].
    rewrite Hstreams1, lookup_insert_ne in Hrow' by done. by apply (Huniq pk' row'). }
  { intros k s Hs Hst Hact. destruct (Hended1 k s Hs Hst) as [t Ht]. congruence. }
  destruct (Hsame Hnil) as [Hsessions Husers].
  exists w1, w2, row2. split_and!; try done.
  rewrite Hstreams2. apply lookup_insert_eq.
Qed.

(** ** The access policy as an order *)

Lemma can_watch_quality_true_iff (u : User.t) (q : string) :
  User.can_watch_quality u q = Ok true
  ↔ ∃ i j : nat, User.quality_hierarchy !! i = Some q
                 ∧ User.quality_hierarchy !! j = Some (User.max_quality u)
                 ∧ (i ≤ j)%nat.
Proof.
  unfold User.can_watch_quality.
  destruct (max_quality_in_hierarchy u) as [j Hj]. rewrite Hj.
  cbv beta iota delta [mbind outcome_bind].
  pose proof (index_Ok _ _ _ Hj) as Hj'.
  destruct (index User.quality_hierarchy q) as [i|e] eqn:Hq.
  - pose proof (index_Ok _ _ _ Hq) as Hi'. split.
    + intros [= Hle]. apply bool_decide_eq_true in Hle. by exists i, j.
    + intros (i' & j' & Hi2 & Hj2 & Hle).
      rewrite (index_NoDup _ _ _ quality_hierarchy_NoDup Hi2) in Hq.
      rewrite (index_NoDup _ _ _ quality_hierarchy_NoDup Hj2) in Hj.
      f_equal. apply bool_decide_eq_true. by simplify_eq.
  - apply index_Raise in Hq as [-> Hnot]. split; [done|].
    intros (i & _ & Hi & _). exfalso. apply Hnot. by eapply list_elem_of_lookup_2.
Qed.

(** X17. The access policy is an order on the tiers: every user may watch
    the user's own [max_quality] and may watch [360p], and whoever may watch
    the [max_quality] of a user may watch every quality that user may
    watch. *)
Theorem can_watch_quality_order (u u' : User.t) (q : string) :
  User.can_watch_quality u (User.max_quality u) = Ok true
  ∧ User.can_watch_quality u "360p" = Ok true
  ∧ (User.can_watch_quality u q = Ok true →
     User.can_watch_quality u' (User.max_quality u) = Ok true →
     User.can_watch_quality u' q = Ok true).
Proof.
  destruct (max_quality_in_hierarchy u) as [j Hj]. apply index_Ok in Hj.
  split_and!.
  - apply can_watch_quality_true_iff. by exists j, j.
  - apply can_watch_quality_true_iff. exists 0%nat, j. split_and!; [done|done|lia].
  - rewrite !can_watch_quality_true_iff.
    intros (i1 & j1 & Hi1 & Hj1 & Hle1) (i2 & j2 & Hi2 & Hj2 & Hle2).
    exists i1, j2. split_and!; try done.
    assert (j1 = i2) by (by eapply NoDup_lookup; [apply quality_hierarchy_NoDup|..]).
    lia.
Qed.

(** ** Premium users *)

(** X18. [is_premium] always returns; it answers [True] exactly for a
    [PREMIUM] or [ULTRA] user whose [subscription_expires] is set and later
    than the clock reading, which it takes only for such a user; it writes
    nothing; and a premium user may watch [720p]. *)
Theorem is_premium_spec (u : User.t) (w : World) :
  ∃ b w',
    is_premium u w = (Ok b, w')
    ∧ (b = true
       ↔ (User.subscription_tier u = User.SubscriptionTier.PREMIUM
          ∨ User.subscription_tier u = User.SubscriptionTier.ULTRA)
         ∧ ∃ expires, User.subscription_expires u = Some expires
                      ∧ clock w (reads w) < expires)
    ∧ (b = true → User.can_watch_quality u "720p" = Ok true)
    ∧ streams w' = streams w ∧ users w' = users w ∧ sessions w' = sessions w
    ∧ (reads w' = reads w
       ∨ (reads w' = S (reads w)
          ∧ is_Some (User.subscription_expires u)
          ∧ (User.subscription_tier u = User.SubscriptionTier.PREMIUM
             ∨ User.subscription_tier u = User.SubscriptionTier.ULTRA))).
Proof.
  unfold is_premium.
  assert (Htier : User.subscription_tier u
                  ∈ [User.SubscriptionTier.PREMIUM; User.SubscriptionTier.ULTRA]
                  ↔ User.subscription_tier u = User.SubscriptionTier.PREMIUM
                    ∨ User.subscription_tier u = User.SubscriptionTier.ULTRA).
  { rewrite !elem_of_cons, elem_of_nil. tauto. }
  assert (Hhd : User.subscription_tier u = User.SubscriptionTier.PREMIUM
                ∨ User.subscription_tier u = User.SubscriptionTier.ULTRA →
                User.can_watch_quality u "720p" = Ok true).
  { unfold User.can_watch_quality, User.max_quality.
    intros [->| ->]; reflexivity. }
  case_bool_decide as Hin; rewrite Htier in Hin.
  - destruct (User.subscription_expires u) as [expires|] eqn:He.
    + unfold timezone_now. run_M. eexists _, _. split; [done|].
      split_and!; try done.
      * rewrite bool_decide_eq_true. split.
        -- intros Hlt. split; [done|]. exists expires. split; [done|lia].
        -- intros (_ & e & [= <-] & Hlt). lia.
      * intros _. by apply Hhd.
      * right. split_and!; [done|by eexists|done].
    + run_M. exists false, w. split_and!; try done; [|by left].
      split; [done|]. by intros (_ & e & [=] & _).
  - run_M. exists false, w. split_and!; try done; [|by left].
    split; [done|]. by intros (Ht & _).
Qed.

(** ** Live streams and uptime *)

Lemma get_uptime_run (obj : Stream.t) (w : World) :
  ∃ uptime w',
    get_uptime obj w = (Ok uptime, w')
    ∧ streams w' = streams w ∧ users w' = users w ∧ sessions w' = sessions w
    ∧ (Stream.status obj ≠ Stream.ONLINE ∨ Stream.started_at obj = None →
       uptime = 0 ∧ w' = w)
    ∧ (∀ started, Stream.status obj = Stream.ONLINE →
                  Stream.started_at obj = Some started →
                  uptime = int_total_seconds (clock w (reads w) - started)
                  ∧ w' = tick w).
Proof.
  unfold get_uptime. case_bool_decide as Hst.
  - destruct (Stream.started_at obj) as [started|] eqn:Hs.
    + unfold timezone_now. run_M. eexists _, _. split; [done|].
      split_and!; try done.
      * by intros [?|?].
      * by intros started' _ [= <-].
    + run_M. exists 0, w. split_and!; done.
  - run_M. exists 0, w. split_and!; try done.
Qed.

Lemma to_representation_run (obj : Z * Stream.t) (w : World) :
  ∃ d w',
    to_representation obj w = (Ok d, w')
    ∧ streams w' = streams w ∧ users w' = users w ∧ sessions w' = sessions w
    ∧ data_id d = obj.1
    ∧ data_stream_key d = Stream.stream_key obj.2
    ∧ data_status d = Stream.status obj.2
    ∧ data_current_viewers d = Stream.current_viewers obj.2
    ∧ data_peak_viewers d = Stream.peak_viewers obj.2
    ∧ data_total_views d = Stream.total_views obj.2
    ∧ data_started_at d = Stream.started_at obj.2
    ∧ (Stream.started_at obj.2 = None → data_uptime d = 0).
Proof.
  unfold to_representation. run_M.
  destruct (get_uptime_run obj.2 w) as (uptime & w' & Hrun & Hst & Hu & Hs & H0 & _).
  rewrite Hrun. eexists _, _. split; [done|]. simpl. split_and!; try done.
  intros Hnone. apply H0. by right.
Qed.

Lemma map_M_to_representation (l : list (Z * Stream.t)) (w : World) :
  ∃ data w',
    map_M to_representation l w = (Ok data, w')
    ∧ streams w' = streams w ∧ users w' = users w ∧ sessions w' = sessions w
    ∧ Forall2 represents data l.
Proof.
  revert w. induction l as [|obj l IH]; intros w.
  - exists [], w. split_and!; try done.
  - destruct (to_representation_run obj w)
      as (d & w1 & Hrun & Hst & Hu & Hs & Hfields).
    destruct (IH w1) as (data & w' & Hrun' & Hst' & Hu' & Hs' & Hall).
    exists (d :: data), w'. simpl. run_M. rewrite Hrun.
    unfold mbind, mret, M_bind, M_ret in Hrun'. rewrite Hrun'.
    split_and!; try congruence. by constructor.
Qed.

Lemma represents_ids (data : list StreamData) (l : list (Z * Stream.t)) :
  Forall2 represents data l → data_id <$> data = l.*1.
Proof.
  induction 1 as [|d obj data l' Hd _ IH]; [done|].
  simpl. f_equal; [apply Hd|done].
Qed.

Lemma live_run (request : Request) (w : World) :
  ∃ data w',
    live request w = (Ok data, w')
    ∧ streams w' = streams w ∧ users w' = users w ∧ sessions w' = sessions w
    ∧ Forall2 represents data
        (map_to_list (filter (fun kv : Z * Stream.t =>
                                Stream.status kv.2 = Stream.ONLINE) (streams w))).
Proof.
  unfold live, live_streams. run_M. apply map_M_to_representation.
Qed.

Lemma live_ids (data : list StreamData) (w : World) (pk : Z) :
  Forall2 represents data
    (map_to_list (filter (fun kv : Z * Stream.t =>
                            Stream.status kv.2 = Stream.ONLINE) (streams w))) →
  pk ∈ data_id <$> data
  ↔ ∃ row, streams w !! pk = Some row ∧ Stream.status row = Stream.ONLINE.
Proof.
  intros Hall. rewrite (represents_ids _ _ Hall), list_elem_of_fmap. split.
  - intros ([pk' row] & -> & Hin). exists row.
    apply elem_of_map_to_list, map_lookup_filter_Some in Hin. simpl in *. tauto.
  - intros (row & Hrow & Hon). exists (pk, row). split; [done|].
    apply elem_of_map_to_list, map_lookup_filter_Some. by split.
Qed.

(** X19. [live] always returns and writes nothing; it lists the streams
    that are [ONLINE], each once and no other stream, with the columns of
    their rows, and with an [uptime] of [0] for a stream whose [started_at]
    is not set. *)
Theorem live_spec (request : Request) (w : World) :
  ∃ data w',
    live request w = (Ok data, w')
    ∧ streams w' = streams w ∧ users w' = users w ∧ sessions w' = sessions w
    ∧ NoDup (data_id <$> data)
    ∧ (∀ pk, pk ∈ data_id <$> data
             ↔ ∃ row, streams w !! pk = Some row ∧ Stream.status row = Stream.ONLINE)
    ∧ (∀ d, d ∈ data →
         ∃ row, streams w !! data_id d = Some row
                ∧ data_status d = Stream.ONLINE
                ∧ data_stream_key d = Stream.stream_key row
                ∧ data_current_viewers d = Stream.current_viewers row
                ∧ data_peak_viewers d = Stream.peak_viewers row
                ∧ data_total_views d = Stream.total_views row
                ∧ data_started_at d = Stream.started_at row
                ∧ (Stream.started_at row = None → data_uptime d = 0)).
Proof.
  destruct (live_run request w) as (data & w' & Hrun & Hst & Hu & Hs & Hall).
  exists data, w'. split; [done|]. split_and!; try done.
  - rewrite (represents_ids _ _ Hall). apply NoDup_fst_map_to_list.
  - intros pk. by apply live_ids.
  - intros d Hd. apply list_elem_of_lookup_1 in Hd as [i Hi].
    destruct (Forall2_lookup_l _ _ _ _ _ Hall Hi) as ([pk row] & Hobj & Hfields).
    apply list_elem_of_lookup_2 in Hobj.
    apply elem_of_map_to_list, map_lookup_filter_Some in Hobj as [Hrow Hon].
    unfold represents in Hfields. simpl in *.
    destruct Hfields as (Hid & Hkey & Hstat & Hrest).
    exists row. rewrite Hid. split_and!; try tauto. congruence.
Qed.

(** X20. [live] follows the webhooks: once [stream_start] has run for the
    key of a stream the stream is listed, and once [stream_stop] has run for
    it, whether it answered or raised, the stream is not listed. *)
Theorem live_after_webhooks (request request2 : Request) (w : World)
    (key : string) (pk : Z) (row : Stream.t) :
  data_name request = Some key →
  streams w !! pk = Some row →
  Stream.stream_key row = key →
  (∀ pk' row', streams w !! pk' = Some row' → Stream.stream_key row' = key → pk' = pk) →
  (∃ data w2, live request2 (WebhookViewSet.stream_start request w).2 = (Ok data, w2)
              ∧ pk ∈ data_id <$> data)
  ∧ (∃ data w2, live request2 (WebhookViewSet.stream_stop request w).2 = (Ok data, w2)
                ∧ pk ∉ data_id <$> data).
Proof.
  intros Hname Hrow Hkey Huniq. split.
  - rewrite (stream_start_run request w key pk row Hname Hrow Hkey Huniq).
    cbn [snd].
    match goal with |- context [live request2 ?w1] =>
      destruct (live_run request2 w1) as (data & w2 & Hrun & _ & _ & _ & Hall)
    end.
    exists data, w2. split; [done|]. apply (live_ids _ _ _ Hall). eexists. split.
    + cbn -[lookup insert]. apply lookup_insert_eq.
    + done.
  - pose proof (stream_stop_status request w key pk row Hname Hrow Hkey Huniq) as Hst.
    destruct (live_run request2 (WebhookViewSet.stream_stop request w).2)
      as (data & w2 & Hrun & _ & _ & _ & Hall).
    exists data, w2. split; [done|]. rewrite (live_ids _ _ _ Hall).
    intros (row' & Hrow' & Hon).
    rewrite Hrow' in Hst. simpl in Hst. congruence.
Qed.

Lemma int_total_seconds_floor (delta : Z) :
  0 ≤ delta →
  0 ≤ int_total_seconds delta
  ∧ int_total_seconds delta * 1000000 ≤ delta < (int_total_seconds delta + 1) * 1000000.
Proof.
  intros Hpos. unfold int_total_seconds.
  rewrite Z.quot_div_nonneg by lia.
  pose proof (Z.div_pos delta 1000000).
  pose proof (Z.mul_div_le delta 1000000).
  pose proof (Z.mul_succ_div_gt delta 1000000). lia.
Qed.

(** X21. The uptime of a stream follows the webhooks: after [stream_start]
    at the reading [t], [get_uptime] of the row of the stream, at a later
    reading [t'], is the number of whole seconds from [t] to [t'] when the
    clock has not gone back; after [stream_stop], whether it answered or
    raised, it is [0] and the clock is not read. *)
Theorem uptime_after_webhooks (request : Request) (w : World)
    (key : string) (pk : Z) (row : Stream.t) :
  data_name request = Some key →
  streams w !! pk = Some row →
  Stream.stream_key row = key →
  (∀ pk' row', streams w !! pk' = Some row' → Stream.stream_key row' = key → pk' = pk) →
  (let w1 := (WebhookViewSet.stream_start request w).2 in
   ∃ row1 uptime,
     streams w1 !! pk = Some row1
     ∧ get_uptime row1 w1 = (Ok uptime, tick w1)
     ∧ uptime = int_total_seconds (clock w (S (S (reads w))) - clock w (reads w))
     ∧ (clock w (reads w) ≤ clock w (S (S (reads w))) →
        0 ≤ uptime
        ∧ uptime * 1000000 ≤ clock w (S (S (reads w))) - clock w (reads w)
          < (uptime + 1) * 1000000))
  ∧ (let w1 := (WebhookViewSet.stream_stop request w).2 in
     ∃ row1, streams w1 !! pk = Some row1 ∧ get_uptime row1 w1 = (Ok 0, w1)).
Proof.
  intros Hname Hrow Hkey Huniq. split.
  - rewrite (stream_start_run request w key pk row Hname Hrow Hkey Huniq).
    cbn [snd]. eexists _, _. split; [apply lookup_insert_eq|].
    split; [reflexivity|]. cbn. split; [done|].
    intros Hmono. apply int_total_seconds_floor. lia.
  - intros w1.
    pose proof (stream_stop_status request w key pk row Hname Hrow Hkey Huniq) as Hst.
    fold w1 in Hst. destruct (streams w1 !! pk) as [row1|]; [|done].
    injection Hst as Hst. exists row1. split; [done|].
    unfold get_uptime. by rewrite Hst.
Qed.

(** ** The client address *)

Lemma split_first_spec (x : string) :
  ∃ rest, x = split_first x +:+ rest
          ∧ (rest = "" ∨ ∃ r, rest = "," +:+ r)
          ∧ ∀ a b, split_first x ≠ a +:+ "," +:+ b.
Proof.
  induction x as [|c x IH]; simpl.
  - exists "". split_and!; [done|by left|]. by intros [|a0 a] b.
  - destruct (Ascii.eqb c (Ascii.ascii_of_nat 44)) eqn:Hc.
    + apply Ascii.eqb_eq in Hc as ->. exists (String (Ascii.ascii_of_nat 44) x).
      split_and!; [done|right; by exists x|]. by intros [|a0 a] b.
    + apply Ascii.eqb_neq in Hc. destruct IH as (rest & Hx & Hrest & Hno).
      exists rest. split_and!; [|done|].
      { change (String c x = String c (split_first x +:+ rest)). congruence. }
      intros [|a0 a] b; simpl.
      * intros [= Hc' _]. by destruct Hc.
      * intros [= _ Ha]. by destruct (Hno a b).
Qed.

(** X22. The client address is the first element of [X-Forwarded-For] when
    the header is there and not empty: the part of the header before its
    first comma, the whole header when it has none, so never a string with a
    comma; otherwise it is [REMOTE_ADDR], which may be missing. *)
Theorem get_client_ip_spec (request : Request) :
  (∀ x, HTTP_X_FORWARDED_FOR request = Some x → x ≠ "" →
     ∃ ip rest,
       StreamViewSet.get_client_ip request = Some ip
       ∧ x = ip +:+ rest
       ∧ (rest = "" ∨ ∃ r, rest = "," +:+ r)
       ∧ ∀ a b, ip ≠ a +:+ "," +:+ b)
  ∧ (HTTP_X_FORWARDED_FOR request = None ∨ HTTP_X_FORWARDED_FOR request = Some "" →
     StreamViewSet.get_client_ip request = REMOTE_ADDR request).
Proof.
  unfold StreamViewSet.get_client_ip. split.
  - intros x -> Hne. rewrite decide_False by done.
    destruct (split_first_spec x) as (rest & Hx & Hrest & Hno).
    by exists (split_first x), rest.
  - by intros [-> | ->].
Qed.

(** ** The admin actions on devices *)

Lemma update_is_active_lookup queryset v devices pk :
  update_is_active queryset v devices !! pk
  = (λ d, if queryset (pk, d) then DeviceToken.set_is_active v d else d)
      <$> devices !! pk.
Proof.
  unfold update_is_active. rewrite map_lookup_imap.
  by destruct (devices !! pk).
Qed.

Lemma count_update_is_active queryset v devices :
  (∀ pk d b, queryset (pk, DeviceToken.set_is_active b d) = queryset (pk, d)) →
  count queryset (update_is_active queryset v devices) = count queryset devices.
Proof.
  intros Hindep. unfold count. rewrite <-!size_dom. f_equal.
  apply set_eq. intros pk. rewrite !elem_of_dom. unfold is_Some.
  setoid_rewrite map_lookup_filter_Some.
  setoid_rewrite update_is_active_lookup. split.
  - intros (d' & Hd' & Hq). destruct (devices !! pk) as [d|] eqn:Hd; [|done].
    simpl in *. injection Hd' as <-. exists d. split; [done|].
    destruct (queryset (pk, d)) eqn:Hqd; [done|]. simpl in Hq. congruence.
  - intros (d & Hd & Hq). rewrite Hd. simpl in *. rewrite Hq.
    exists (DeviceToken.set_is_active v d). split; [done|].
    simpl. by rewrite Hindep.
Qed.

Lemma count_update_is_active_none queryset v devices :
  (∀ pk d, queryset (pk, d) = true → DeviceToken.is_active d = negb v) →
  count queryset (update_is_active queryset v devices) = 0%nat.
Proof.
  intros Hfilter. unfold count.
  apply map_size_empty_iff, map_empty. intros pk.
  apply eq_None_not_Some. intros [d' [Hd' Hq]%map_lookup_filter_Some].
  rewrite update_is_active_lookup in Hd'.
  destruct (devices !! pk) as [d|]; [|done]. simpl in *. injection Hd' as <-.
  destruct (queryset (pk, d)) eqn:Hqd.
  - apply Hfilter in Hq. simpl in Hq. by destruct v.
  - congruence.
Qed.

(** X23. [deactivate_devices] and [activate_devices] write [is_active], and
    nothing else, on the rows the queryset selects, and leave every other row
    as it was; [last_seen], an [auto_now] column, keeps its value on all of
    them, since [update] runs no [save]. *)
Theorem device_actions_rows (queryset : QuerySet)
    (devices : gmap Z DeviceToken.t) (pk : Z) :
  let off := (DeviceTokenAdmin.deactivate_devices queryset devices).1 in
  let on := (DeviceTokenAdmin.activate_devices queryset devices).1 in
  match devices !! pk with
  | Some d =>
      off !! pk = Some (if queryset (pk, d) then DeviceToken.set_is_active false d else d)
      ∧ on !! pk = Some (if queryset (pk, d) then DeviceToken.set_is_active true d else d)
      ∧ (∀ d', off !! pk = Some d' ∨ on !! pk = Some d' →
           DeviceToken.last_seen d' = DeviceToken.last_seen d
           ∧ DeviceToken.user d' = DeviceToken.user d
           ∧ DeviceToken.device_id d' = DeviceToken.device_id d)
  | None => off !! pk = None ∧ on !! pk = None
  end.
Proof.
  cbn zeta. unfold DeviceTokenAdmin.deactivate_devices, DeviceTokenAdmin.activate_devices.
  cbn [fst]. rewrite !update_is_active_lookup.
  destruct (devices !! pk) as [d|]; [|done]. simpl. split_and!; [done..|].
  intros d' [[= <-] | [= <-]]; by destruct (queryset (pk, d)).
Qed.

(** X24. The number in the message of a device action is counted after the
    update, by running the queryset again.  When the queryset does not look
    at [is_active], it is the number of rows the action wrote; when the
    queryset selects only devices in the state the action takes them out of
    (the active ones for [deactivate_devices], the inactive ones for
    [activate_devices]), the message says 0, however many rows were
    written. *)
Theorem device_actions_message (queryset : QuerySet)
    (devices : gmap Z DeviceToken.t) :
  ((∀ pk d b, queryset (pk, DeviceToken.set_is_active b d) = queryset (pk, d)) →
     (DeviceTokenAdmin.deactivate_devices queryset devices).2
     = pretty (count queryset devices) +:+ " devices deactivated."
     ∧ (DeviceTokenAdmin.activate_devices queryset devices).2
       = pretty (count queryset devices) +:+ " devices activated.")
  ∧ ((∀ pk d, queryset (pk, d) = true → DeviceToken.is_active d = true) →
     (DeviceTokenAdmin.deactivate_devices queryset devices).2
     = "0 devices deactivated.")
  ∧ ((∀ pk d, queryset (pk, d) = true → DeviceToken.is_active d = false) →
     (DeviceTokenAdmin.activate_devices queryset devices).2
     = "0 devices activated.").
Proof.
  unfold DeviceTokenAdmin.deactivate_devices, DeviceTokenAdmin.activate_devices.
  cbn [snd]. split_and!.
  - intros Hindep. by rewrite !count_update_is_active.
  - intros Hfilter. by rewrite (count_update_is_active_none queryset false).
  - intros Hfilter. by rewrite (count_update_is_active_none queryset true).
Qed.

(** ** Time: sessions, durations and watch time *)




















Section Time.

Variable md5_hexdigest : string → string.
Variable HLS_BASE_URL : string.
Variable HLS_SECRET_KEY : string.

Local Abbreviation serve' := (serve md5_hexdigest HLS_BASE_URL HLS_SECRET_KEY).






End Time.

(** * Examples on the scenario *)

(** ** The scenario *)

Lemma scenario_session (k : Z) (s : ViewSession.t) :
  sessions Scenario.world !! k = Some s → k = 1 ∧ s = Sample.session None 0.
Proof.
  unfold Scenario.world, Sample.world_with. simpl. intros H.
  by apply lookup_singleton_Some in H as [<- <-].
Qed.

Lemma scenario_viewers_consistent : viewers_consistent Scenario.world.
Proof.
  intros pk st. unfold Scenario.world, Sample.world_with. simpl. intros Hst.
  apply lookup_singleton_Some in Hst as [_ <-]. simpl. lia.
Qed.


Lemma scenario_session_ids_unique : session_ids_unique Scenario.world.
Proof. by intros k1 k2 s1 s2 [-> _]%scenario_session [-> _]%scenario_session _. Qed.


Lemma serve_viewers_consistent_witness :
  viewers_consistent Scenario.world
  ∧ viewers_consistent
      (serve Sample.md5_hexdigest "https://cdn" "key" Scenario.calls Scenario.world).
Proof.
  split; [exact scenario_viewers_consistent|].
  apply (serve_viewers_consistent Sample.md5_hexdigest "https://cdn" "key"
           Scenario.calls Scenario.world scenario_viewers_consistent).
Defined.


Lemma serve_session_ids_unique_witness :
  session_ids_unique Scenario.world
  ∧ session_ids_unique
      (serve Sample.md5_hexdigest "https://cdn" "key" Scenario.calls Scenario.world).
Proof.
  split; [exact scenario_session_ids_unique|].
  apply (serve_session_ids_unique Sample.md5_hexdigest "https://cdn" "key"
           Scenario.calls Scenario.world scenario_session_ids_unique).
Defined.




Lemma get_playback_url_succeeds_iff_witness :
  ∃ resp w',
    StreamViewSet.get_playback_url Sample.md5_hexdigest "https://cdn" "key"
      (Sample.request (Some "480p") None) 1 "u-1" (Sample.world Stream.ONLINE)
    = (Ok resp, w')
    ∧ status_code resp = HTTP_200_OK.
Proof.
  apply (proj2 (get_playback_url_succeeds_iff Sample.md5_hexdigest "https://cdn"
                  "key" (Sample.request (Some "480p") None) 1 "u-1"
                  (Sample.world Stream.ONLINE))).
  exists (Sample.stream Stream.ONLINE), "10.0.0.1".
  split_and!; [reflexivity|reflexivity|right; reflexivity|reflexivity|discriminate| |].
  - intros k s Hs. unfold Sample.world in Hs. simpl in Hs.
    by rewrite lookup_empty in Hs.
  - by eexists.
Defined.

Lemma playback_then_end_witness :
  ∃ resp w1 w2,
    StreamViewSet.get_playback_url Sample.md5_hexdigest "https://cdn" "key"
      (Sample.request (Some "480p") None) 1 "u-1" (Sample.world Stream.ONLINE)
    = (Ok resp, w1)
    ∧ ViewSessionViewSet.end_ (Sample.request (Some "480p") None) 1 w1
      = (Ok (mkResponse (EndedBody "ended" 2 0) 200), w2)
    ∧ Stream.current_viewers <$> streams w2 !! 1 = Some 0
    ∧ Stream.peak_viewers <$> streams w2 !! 1 = Some 1
    ∧ User.total_watch_time <$> users w2 !! 7 = Some 2.
Proof.
  destruct (playback_then_end Sample.md5_hexdigest "https://cdn" "key"
              (Sample.request (Some "480p") None) 1 "u-1"
              (Sample.world Stream.ONLINE) _ _ eq_refl eq_refl)
    as (row & u & resp2 & w2 & st2 & s2 & u2 & Hrow & Hu & Hend & Hresp & Hst2
        & Hcur & Hpeak & Hs2 & Hended & Hdur & Hu2 & Htotal & Hdata).
  assert (row = Sample.stream Stream.ONLINE) as -> by (by simplify_map_eq).
  assert (u = Sample.user "BASIC") as -> by (by simplify_map_eq).
  subst resp2. rewrite Hdur in Hend, Htotal.
  eexists _, _, w2. split; [vm_compute; reflexivity|]. split; [exact Hend|].
  change (users w2 !! 7 = Some u2) in Hu2.
  rewrite Hst2, Hu2. simpl. rewrite Hcur, Hpeak, Htotal by (by vm_compute).
  by split_and!.
Defined.

Lemma heartbeat_then_end_witness :
  ∃ w1 w2 u2,
    ViewSessionViewSet.heartbeat (Scenario.request None "abc" (Some 700) None) 1
      Scenario.world
    = (Ok (mkResponse (StatusBody "ok") 200), w1)
    ∧ ViewSessionViewSet.end_ (Sample.request None None) 1 w1
      = (Ok (mkResponse (EndedBody "ended" 6 700) 200), w2)
    ∧ users w2 !! 7 = Some u2
    ∧ User.monthly_data_used u2 = 700
    ∧ User.total_watch_time u2 = 6.
Proof.
  exact (heartbeat_then_end (Scenario.request None "abc" (Some 700) None)
           (Sample.request None None) 1 Scenario.world (Sample.session None 0)
           (Sample.stream Stream.ONLINE) (Sample.user "BASIC") 700
           eq_refl (or_intror eq_refl) (or_intror eq_refl) eq_refl eq_refl eq_refl
           eq_refl).
Defined.

Lemma get_playback_url_raises_witness :
  ∃ w',
    StreamViewSet.get_playback_url Sample.md5_hexdigest "https://cdn" "key"
      (Sample.request (Some "480p") None) 1 "s-1" Scenario.world
    = (Raise IntegrityError, w')
    ∧ streams w' = streams Scenario.world
    ∧ users w' = users Scenario.world
    ∧ sessions w' = sessions Scenario.world
    ∧ reads w' = 8%nat.
Proof.
  eexists. split; [vm_compute; reflexivity|].
  destruct (get_playback_url_raises Sample.md5_hexdigest "https://cdn" "key"
              (Sample.request (Some "480p") None) 1 "s-1" Scenario.world
              _ _ eq_refl) as (Hstreams & Husers & Hsessions & _).
  split_and!; [exact Hstreams|exact Husers|exact Hsessions|reflexivity].
Defined.

Lemma get_playback_url_status_filter_witness :
  StreamViewSet.get_playback_url Sample.md5_hexdigest "https://cdn" "key"
    (Scenario.request (Some "OFFLINE") "abc" None None) 1 "u-1"
    (Sample.world Stream.ONLINE)
  = (Raise Http404, Sample.world Stream.ONLINE)
  ∧ ∃ resp w',
      StreamViewSet.get_playback_url Sample.md5_hexdigest "https://cdn" "key"
        (Scenario.request (Some "OFFLINE") "abc" None None) 1 "u-1"
        (Sample.world Stream.OFFLINE)
      = (Ok resp, w')
      ∧ status_code resp = HTTP_400_BAD_REQUEST
      ∧ w' = Sample.world Stream.OFFLINE.
Proof.
  split.
  - apply (proj1 (get_playback_url_status_filter Sample.md5_hexdigest
                    "https://cdn" "key"
                    (Scenario.request (Some "OFFLINE") "abc" None None) 1 "u-1"
                    (Sample.world Stream.ONLINE) "OFFLINE" eq_refl
                    ltac:(discriminate))
             (Sample.stream Stream.ONLINE) eq_refl).
    discriminate.
  - eexists _, _. split; [vm_compute; reflexivity|].
    apply (proj2 (get_playback_url_status_filter Sample.md5_hexdigest
                    "https://cdn" "key"
                    (Scenario.request (Some "OFFLINE") "abc" None None) 1 "u-1"
                    (Sample.world Stream.OFFLINE) "OFFLINE" eq_refl
                    ltac:(discriminate))
             ltac:(discriminate) _ _ eq_refl).
Defined.

Lemma session_isolation_witness :
  ViewSessionViewSet.heartbeat Scenario.stranger 1 Scenario.world
  = (Raise Http404, Scenario.world)
  ∧ ViewSessionViewSet.end_ Scenario.stranger 1 Scenario.world
    = (Raise Http404, Scenario.world).
Proof.
  apply (session_isolation Scenario.stranger 1 Scenario.world eq_refl).
  intros s [_ ->]%scenario_session. discriminate.
Defined.

Lemma stream_start_unknown_witness :
  WebhookViewSet.stream_start (Scenario.request None "zzz" None None)
    (Sample.world Stream.OFFLINE)
  = (Ok (mkResponse (ErrorBody "Stream not found") 404), Sample.world Stream.OFFLINE).
Proof.
  apply (stream_start_unknown (Scenario.request None "zzz" None None)
           (Sample.world Stream.OFFLINE)).
  intros pk row Hrow. unfold Sample.world in Hrow. simpl in Hrow.
  apply lookup_singleton_Some in Hrow as [_ <-]. discriminate.
Defined.

Lemma stop_then_playback_witness :
  Stream.status
    <$> streams (WebhookViewSet.stream_stop (Sample.request None None)
                   Scenario.world).2 !! 1
  = Some Stream.OFFLINE
  ∧ StreamViewSet.get_playback_url Sample.md5_hexdigest "https://cdn" "key"
      (Sample.request (Some "480p") None) 1 "s-2"
      (WebhookViewSet.stream_stop (Sample.request None None) Scenario.world).2
    = (Ok (mkResponse (ErrorBody "Stream is not currently online") 400),
       (WebhookViewSet.stream_stop (Sample.request None None) Scenario.world).2).
Proof.
  exact (stop_then_playback Sample.md5_hexdigest "https://cdn" "key"
           (Sample.request None None) Scenario.world "abc" 1
           (Sample.stream Stream.ONLINE) (Sample.request (Some "480p") None) "s-2"
           eq_refl eq_refl eq_refl
           (sample_world_with_unique (Sample.session None 0))
           (or_introl eq_refl)).
Defined.

Lemma start_then_playback_witness :
  ∃ w1 resp w2 row2,
    WebhookViewSet.stream_start (Sample.request None None)
      (Sample.world Stream.OFFLINE)
    = (Ok (mkResponse (StatusBody "ok") 200), w1)
    ∧ StreamViewSet.get_playback_url Sample.md5_hexdigest "https://cdn" "key"
        (Sample.request (Some "480p") None) 1 "u-1" w1
      = (Ok resp, w2)
    ∧ status_code resp = 200
    ∧ streams w2 !! 1 = Some row2
    ∧ Stream.current_viewers row2 = 1
    ∧ Stream.peak_viewers row2 = 1.
Proof.
  apply (start_then_playback Sample.md5_hexdigest "https://cdn" "key"
           (Sample.request None None) (Sample.world Stream.OFFLINE) "abc" 1
           (Sample.stream Stream.OFFLINE) (Sample.request (Some "480p") None)
           "u-1" "10.0.0.1" eq_refl eq_refl eq_refl
           (sample_stream_unique Stream.OFFLINE) (or_introl eq_refl)
           (or_intror eq_refl) eq_refl);
    [discriminate| |by eexists].
  intros k s Hs. unfold Sample.world in Hs. simpl in Hs.
  by rewrite lookup_empty in Hs.
Defined.

Lemma stream_stop_twice_witness :
  ∃ w1 w2 row2,
    WebhookViewSet.stream_stop (Sample.request None None) Scenario.world
    = (Ok (mkResponse (StatusBody "ok") 200), w1)
    ∧ WebhookViewSet.stream_stop (Sample.request None None) w1
      = (Ok (mkResponse (StatusBody "ok") 200), w2)
    ∧ active_on 1 (sessions w1) = []
    ∧ sessions w2 = sessions w1
    ∧ users w2 = users w1
    ∧ streams w2 !! 1 = Some row2
    ∧ Stream.status row2 = Stream.OFFLINE
    ∧ Stream.current_viewers row2 = 0.
Proof.
  exact (stream_stop_twice (Sample.request None None) Scenario.world "abc" 1
           (Sample.stream Stream.ONLINE) eq_refl eq_refl eq_refl
           (sample_world_with_unique (Sample.session None 0))
           (fun k s => sample_world_with_users (Sample.session None 0) k s eq_refl)).
Defined.

Lemma can_watch_quality_order_witness :
  User.can_watch_quality (Sample.user "BASIC") "480p" = Ok true
  ∧ User.can_watch_quality (Sample.user "PREMIUM") "360p" = Ok true.
Proof.
  destruct (can_watch_quality_order (Sample.user "BASIC") (Sample.user "PREMIUM")
              "360p") as (Hmax & Hlow & Horder).
  split; [exact Hmax|]. apply Horder; reflexivity.
Defined.

Lemma live_after_webhooks_witness :
  (∃ data w2,
     live (Sample.request None None)
       (WebhookViewSet.stream_start (Sample.request None None)
          (Sample.world Stream.OFFLINE)).2 = (Ok data, w2)
     ∧ 1 ∈ data_id <$> data)
  ∧ (∃ data w2,
       live (Sample.request None None)
         (WebhookViewSet.stream_stop (Sample.request None None)
            (Sample.world Stream.OFFLINE)).2 = (Ok data, w2)
       ∧ 1 ∉ data_id <$> data).
Proof.
  exact (live_after_webhooks (Sample.request None None) (Sample.request None None)
           (Sample.world Stream.OFFLINE) "abc" 1 (Sample.stream Stream.OFFLINE)
           eq_refl eq_refl eq_refl (sample_stream_unique Stream.OFFLINE)).
Defined.

Lemma uptime_after_webhooks_witness :
  (∃ row1,
     streams (WebhookViewSet.stream_start (Sample.request None None)
                (Sample.world Stream.OFFLINE)).2 !! 1 = Some row1
     ∧ get_uptime row1
         (WebhookViewSet.stream_start (Sample.request None None)
            (Sample.world Stream.OFFLINE)).2
       = (Ok 2,
          tick (WebhookViewSet.stream_start (Sample.request None None)
                  (Sample.world Stream.OFFLINE)).2))
  ∧ (∃ row1,
       streams (WebhookViewSet.stream_stop (Sample.request None None)
                  (Sample.world Stream.ONLINE)).2 !! 1 = Some row1
       ∧ get_uptime row1
           (WebhookViewSet.stream_stop (Sample.request None None)
              (Sample.world Stream.ONLINE)).2
         = (Ok 0,
            (WebhookViewSet.stream_stop (Sample.request None None)
               (Sample.world Stream.ONLINE)).2)).
Proof.
  split.
  - destruct (proj1 (uptime_after_webhooks (Sample.request None None)
                       (Sample.world Stream.OFFLINE) "abc" 1
                       (Sample.stream Stream.OFFLINE) eq_refl eq_refl eq_refl
                       (sample_stream_unique Stream.OFFLINE)))
      as (row1 & uptime & Hrow1 & Hrun & -> & _).
    exists row1. split; [exact Hrow1|exact Hrun].
  - exact (proj2 (uptime_after_webhooks (Sample.request None None)
                    (Sample.world Stream.ONLINE) "abc" 1
                    (Sample.stream Stream.ONLINE) eq_refl eq_refl eq_refl
                    (sample_stream_unique Stream.ONLINE))).
Defined.

Lemma get_client_ip_spec_witness :
  StreamViewSet.get_client_ip
    (Scenario.request None "abc" None (Some "203.0.113.9, 10.0.0.7"))
  = Some "203.0.113.9"
  ∧ (∀ a b, "203.0.113.9" ≠ a +:+ "," +:+ b)
  ∧ StreamViewSet.get_client_ip (Scenario.request None "abc" None (Some ""))
    = Some "10.0.0.1".
Proof.
  destruct (get_client_ip_spec
              (Scenario.request None "abc" None (Some "203.0.113.9, 10.0.0.7")))
    as [Hfirst _].
  destruct (Hfirst "203.0.113.9, 10.0.0.7" eq_refl ltac:(discriminate))
    as (ip & rest & Hip & _ & _ & Hno).
  injection Hip as <-. split; [reflexivity|]. split; [exact Hno|].
  apply (proj2 (get_client_ip_spec (Scenario.request None "abc" None (Some "")))).
  by right.
Defined.

Lemma device_actions_message_witness :
  (DeviceTokenAdmin.deactivate_devices (fun _ => true) Scenario.devices).2
  = "3 devices deactivated."
  ∧ (DeviceTokenAdmin.deactivate_devices Scenario.active_devices Scenario.devices).2
    = "0 devices deactivated."
  ∧ count Scenario.active_devices Scenario.devices = 2%nat.
Proof.
  destruct (device_actions_message (fun _ => true) Scenario.devices)
    as (Hall & _ & _).
  destruct (device_actions_message Scenario.active_devices Scenario.devices)
    as (_ & Hactive & _).
  split_and!.
  - etrans; [apply Hall; reflexivity|]. by vm_compute.
  - apply Hactive. by intros pk d Hd.
  - by vm_compute.
Defined.
